(** * Flower Shop Catalog backend: a shallow embedding of
      [flower-shop-backend.py] and the properties of its handlers,
      image normaliser and report generators.

    The handlers are computations in a monad of state and exceptions over
    a [world]: the tables of the catalog store, the bucket of the object
    store, and a log of the calls made to both.  Rows and payloads are
    dicts ([gmap string value]); strings are sequences of code points.
    Of the libraries the source calls, the parts its results depend on
    are written out (the size computation of [Image.thumbnail] in the
    double precision of Python's floats, [paste] with and without mask,
    the modes the JPEG encoder accepts, the cells of a worksheet, the
    flowables of a PDF); decoders, resampling, encoders, serialisers,
    [ILIKE], [uuid4] and the public URL of a blob are parameters. *)

From Stdlib Require Import ZArith List String Ascii Lia Bool QArith Qround Qabs.
From Stdlib Require Import Qpower Lqa.
From Stdlib Require Import DecimalString.
From stdpp Require Import gmap strings list fin_maps sorting.

Local Open Scope Z_scope.

(* ===================================================================== *)
(** ** Python values *)
(* ===================================================================== *)

Module Py.

(** A Python [str] is a sequence of Unicode code points: [len] and slices
    count code points, not bytes. *)
Definition codepoint := N.
Definition pystr := list codepoint.

(** [bytes]. *)
Definition bytes := list Z.

(** Literals of the source are written in UTF-8 in this file and decoded
    to code points by [u]. *)
Fixpoint utf8_decode (bs : list N) : list codepoint :=
  match bs with
  | [] => []
  | b0 :: r0 =>
    if (b0 <? 128)%N then b0 :: utf8_decode r0
    else if (b0 <? 224)%N then
      match r0 with
      | b1 :: r1 => ((b0 - 192) * 64 + (b1 - 128))%N :: utf8_decode r1
      | _ => []
      end
    else if (b0 <? 240)%N then
      match r0 with
      | b1 :: b2 :: r2 =>
        ((b0 - 224) * 4096 + (b1 - 128) * 64 + (b2 - 128))%N :: utf8_decode r2
      | _ => []
      end
    else
      match r0 with
      | b1 :: b2 :: b3 :: r3 =>
        ((b0 - 240) * 262144 + (b1 - 128) * 4096 + (b2 - 128) * 64 + (b3 - 128))%N
          :: utf8_decode r3
      | _ => []
      end
  end.

Definition u (s : string) : pystr :=
  utf8_decode (map N_of_ascii (list_ascii_of_string s)).

(** The values a row of the hosted tables holds.  The columns of the
    three tables are text, integer or null (classes [Flower],
    [FlowerType], [UnitType] of the source). *)
Inductive value :=
| VNone
| VInt (n : Z)
| VStr (s : pystr).

Global Instance value_eq_dec : EqDecision value.
Proof. solve_decision. Defined.

(** Truth value of an object, as tested by [if x:], [x or y], [not x]. *)
Definition truthy (v : value) : bool :=
  match v with
  | VNone => false
  | VInt n => negb (n =? 0)
  | VStr s => match s with [] => false | _ => true end
  end.

Definition py_or (a b : value) : value := if truthy a then a else b.

(** [str(n)] for an [int]. *)
Definition str_int (n : Z) : pystr :=
  map N_of_ascii (list_ascii_of_string (NilZero.string_of_int (Z.to_int n))).

(** [str(v)]. *)
Definition str (v : value) : pystr :=
  match v with
  | VNone => u "None"
  | VInt n => str_int n
  | VStr s => s
  end.

(** A dict with string keys: a row of a table, or the payload of an
    insert or an update. *)
Abbreviation dict := (gmap string value).

(** [d.get(k, default)] *)
Definition get (d : dict) (k : string) (default : value) : value :=
  match d !! k with
  | Some v => v
  | None => default
  end.

(** Exceptions.  [HTTPException(status, detail)] is what a handler
    raises to the framework; the others are the built-in ones that the
    modelled operations raise. *)
Inductive exn :=
| HTTPException (status : Z) (detail : detail)
| KeyError (k : string)
| TypeError
| ValueError
| IndexError
| AttributeError
| OSError (msg : string)
| Exception (msg : string)
with detail :=
| Msg (s : string)
| StrOf (e : exn).   (* [str(e)] of a caught exception *)

Inductive result (A : Type) :=
| Ok (a : A)
| Raise (e : exn).
Arguments Ok {A} a.
Arguments Raise {A} e.

Definition bind {A B} (r : result A) (k : A -> result B) : result B :=
  match r with
  | Ok a => k a
  | Raise e => Raise e
  end.

(** [d[k]] *)
Definition getitem (d : dict) (k : string) : result value :=
  match d !! k with
  | Some v => Ok v
  | None => Raise (KeyError k)
  end.

(** [v[:n]] *)
Definition slice_to (n : nat) (v : value) : result value :=
  match v with
  | VStr s => Ok (VStr (firstn n s))
  | _ => Raise TypeError
  end.

End Py.
Export Py.

(* ===================================================================== *)
(** ** Python floats *)
(* ===================================================================== *)

(** A [float] of Python is an IEEE 754 binary64 number.  A finite one is
    a rational, and an operation on floats returns the rational nearest
    to the exact result among those with a mantissa of 53 bits, the one
    with an even mantissa of two that are equally near.  The range of
    the exponent is not modelled: of the quantities [thumbnail] computes
    from the sides of an image, which are C ints, none comes near the
    largest or the smallest binary64 number. *)
Module Float.

(** [2 ** e] *)
Definition pow2 (e : Z) : Q := Qpower 2 e.

(** The binade of a positive number: the [e] with
    [2 ** e <= q < 2 ** (e + 1)]. *)
Definition binade (q : Q) : Z :=
  let e := Z.log2 (Qnum q) - Z.log2 (Zpos (Qden q)) in
  if Qle_bool (pow2 e) q then e else e - 1.

(** The nearest integer, the even one of two that are equally near. *)
Definition round_half_even (q : Q) : Z :=
  let f := Qfloor q in
  match Qcompare (q - inject_Z f) (1 # 2) with
  | Lt => f
  | Gt => f + 1
  | Eq => if Z.even f then f else f + 1
  end.

(** The binary64 number nearest to a positive rational: a multiple of
    the unit in the last of the 53 places of its binade. *)
Definition nearest (q : Q) : Q :=
  let ulp := pow2 (binade q - 52) in
  Qred (inject_Z (round_half_even (q / ulp)) * ulp).

(** The binary64 number nearest to a rational. *)
Definition double (q : Q) : Q :=
  let q := Qred q in
  match Qnum q with
  | Z0 => 0
  | Zpos _ => nearest q
  | Zneg _ => - nearest (- q)
  end.

(** [a / b], [a * b] and [a - b] on floats; [a / b] on ints, which
    Python rounds once, from the exact quotient. *)
Definition div (a b : Q) : Q := double (a / b).
Definition mul (a b : Q) : Q := double (a * b).
Definition sub (a b : Q) : Q := double (a - b).


End Float.

(* ===================================================================== *)
(** ** The imaging library (Pillow), as far as [resize_image] uses it *)
(* ===================================================================== *)

Module PIL.

Inductive image_mode :=
| M_1 | M_L | M_P | M_RGB | M_RGBA | M_CMYK | M_YCbCr | M_LAB | M_HSV
| M_I | M_F | M_LA | M_PA | M_RGBX | M_RGBa | M_La | M_I16.

Global Instance image_mode_eq_dec : EqDecision image_mode.
Proof. solve_decision. Defined.

(** A pixel is stored in four bytes.  [RGB] keeps a padding byte in the
    fourth, [RGBA] its alpha; [LA] is stored as (L, L, L, A); the
    single-band modes [L], [P] and [1] use the first byte only. *)
Definition pixel := (Z * Z * Z * Z)%type.

Record image := Image {
  mode : image_mode;
  size : Z * Z;               (* (width, height) *)
  data : list pixel;          (* row by row *)
  palette : list pixel        (* [P] only: the RGBA entry of each index *)
}.

Definition width (im : image) : Z := fst (size im).
Definition height (im : image) : Z := snd (size im).

(** An image as a decoder delivers it. *)
Definition valid (im : image) : Prop :=
  0 < width im /\ 0 < height im /\
  Z.of_nat (length (data im)) = width im * height im.



(** The visible colour of a stored pixel of a three-band image. *)
Definition rgb (p : pixel) : Z * Z * Z := let '(r, g, b, _) := p in (r, g, b).

(** [Image.new(mode, size, color)] with [color] an RGB triple. *)
Definition new (m : image_mode) (sz : Z * Z) (color : Z * Z * Z) : image :=
  let '(r, g, b) := color in
  Image m sz (repeat (r, g, b, 255) (Z.to_nat (fst sz * snd sz))) [].

(** [im.convert('RGBA')] of a [P] image: every index is replaced by its
    palette entry. *)
Definition convert_P_RGBA (im : image) : image :=
  Image M_RGBA (size im)
        (map (fun p : pixel => let '(i, _, _, _) := p in
                nth (Z.to_nat i) (palette im) (0, 0, 0, 255)) (data im))
        [].

(** [im.split()[-1]] of an [RGBA] image: its alpha band, an [L] image. *)
Definition alpha_band (im : image) : image :=
  Image M_L (size im)
        (map (fun p : pixel => let '(_, _, _, a) := p in (a, 0, 0, 0)) (data im))
        [].

(** Paste.c: [DIV255] and [BLEND8]. *)
Definition DIV255 (a : Z) : Z :=
  let tmp := a + 128 in
  Z.shiftr (Z.shiftr tmp 8 + tmp) 8.

Definition BLEND8 (mask in1 in2 : Z) : Z :=
  DIV255 (in1 * (255 - mask) + in2 * mask).

Definition blend_pixel (mask out inp : pixel) : pixel :=
  let '(m, _, _, _) := mask in
  let '(o0, o1, o2, o3) := out in
  let '(i0, i1, i2, i3) := inp in
  (BLEND8 m o0 i0, BLEND8 m o1 i1, BLEND8 m o2 i2, BLEND8 m o3 i3).

Fixpoint paste_mask_L (out inp mask : list pixel) : list pixel :=
  match out, inp, mask with
  | o :: out', i :: inp', m :: mask' =>
      blend_pixel m o i :: paste_mask_L out' inp' mask'
  | _, _, _ => out
  end.

Fixpoint paste_raw (out inp : list pixel) : list pixel :=
  match out, inp with
  | _ :: out', i :: inp' => i :: paste_raw out' inp'
  | _, _ => out
  end.

(** [self.paste(im, mask=mask)] for an [RGB] image [self] and an image
    [im] of the same size in mode [RGBA] or [LA]: these modes are not
    converted, the four stored bytes of each pixel are copied (no mask)
    or blended byte by byte with the weight of the mask (mask in mode
    [L]). *)
Definition paste (self im : image) (mask : option image) : image :=
  match mask with
  | Some m => Image (mode self) (size self)
                    (paste_mask_L (data self) (data im) (data m)) (palette self)
  | None => Image (mode self) (size self)
                  (paste_raw (data self) (data im)) (palette self)
  end.

(** *** [Image.thumbnail]

    The size computation of [thumbnail] (function [preserve_aspect_ratio]
    of the library).  [aspect], the scaled side and the keys by which
    [round_aspect] chooses between floor and ceiling are floats, computed
    in double precision as the library computes them; [min] keeps the
    first of two candidates with equal keys. *)

Definition round_aspect (number : Q) (key : Z -> Q) : Z :=
  let lo := Qfloor number in
  let hi := Qceiling number in
  Z.max (if Qle_bool (key lo) (key hi) then lo else hi) 1.

Definition preserve_aspect_ratio (provided_size : Z * Z) (im : image)
  : option (Z * Z) :=
  let '(x, y) := provided_size in
  if (x >=? width im) && (y >=? height im) then None
  else
    let aspect := Float.div (inject_Z (width im)) (inject_Z (height im)) in
    if Qle_bool aspect (Float.div (inject_Z x) (inject_Z y)) then
      Some (round_aspect (Float.mul (inject_Z y) aspect)
              (fun n => Qabs (Float.sub aspect (Float.div (inject_Z n) (inject_Z y)))),
            y)
    else
      Some (x, round_aspect (Float.div (inject_Z x) aspect)
              (fun n => if n =? 0 then 0%Q
                        else Qabs (Float.sub aspect
                                     (Float.div (inject_Z x) (inject_Z n))))).

Section Codec.

(** The parts of the library that are not modelled bit by bit: the
    decoders behind [Image.open], the resampling filter and the JPEG
    encoder. *)
Variable decode : bytes -> result image.
Variable resample_LANCZOS : image -> Z * Z -> list pixel.
Variable jpeg_encode : image -> Z -> bytes.

(** [Image.open(io.BytesIO(data))] *)
Definition open (image_data : bytes) : result image := decode image_data.

(** [im.resize(size, Image.Resampling.LANCZOS)] *)
Definition resize (im : image) (sz : Z * Z) : image :=
  Image (mode im) sz (resample_LANCZOS im sz) (palette im).

(** [im.thumbnail(size, Image.Resampling.LANCZOS)] *)
Definition thumbnail (im : image) (sz : Z * Z) : image :=
  match preserve_aspect_ratio sz im with
  | None => im
  | Some final_size =>
      if decide (size im = final_size) then im else resize im final_size
  end.

(** JpegImagePlugin: the modes the encoder accepts ([RAWMODE]). *)
Definition jpeg_rawmode (m : image_mode) : bool :=
  match m with
  | M_1 | M_L | M_RGB | M_RGBX | M_CMYK | M_YCbCr => true
  | _ => false
  end.

(** [im.save(output, format='JPEG', quality=q)]; the bytes written. *)
Definition save_jpeg (im : image) (quality : Z) : result bytes :=
  if jpeg_rawmode (mode im) then Ok (jpeg_encode im quality)
  else Raise (OSError "cannot write mode as JPEG").

End Codec.


End PIL.

(* ===================================================================== *)
(** ** The hosted services and the effects of a request *)
(* ===================================================================== *)

(** An uploaded file of a multipart form ([UploadFile]). *)
Record UploadFile := {
  filename : value;           (* a [str], or [None] *)
  file_read : bytes           (* what [file.read()] returns *)
}.

Record datetime := {
  year : Z; month : Z; day : Z; hour : Z; minute : Z; second : Z
}.

(** The calls a request makes to the hosted services, in the order they
    are made. *)
Inductive call :=
| TableSelect (table : string)
| TableInsert (table : string) (row : dict)
| TableUpdate (table : string) (values : dict) (id : pystr)
| TableDelete (table : string) (id : pystr)
| StorageUpload (key : pystr) (content : bytes)
| StorageRemove (key : pystr).

(** Everything outside the process that a request reads or changes. *)
Record world := World {
  supabase : bool;                    (* the global client is not [None] *)
  tables : gmap string (list dict);   (* the catalog store *)
  bucket : gmap pystr bytes;          (* the object store *)
  storage_ok : bool;                  (* the object store accepts uploads *)
  serial : Z;                         (* source of ids and creation times *)
  entropy : nat;                      (* source of [uuid4()] *)
  now : datetime;                     (* [datetime.now()] *)
  calls : list call                   (* log of the calls, oldest first *)
}.

(** Computations of a request: they may change the world and may raise. *)
Definition M (A : Type) : Type := world -> result A * world.

Definition ret {A} (a : A) : M A := fun w => (Ok a, w).
Definition raise {A} (e : exn) : M A := fun w => (Raise e, w).
Definition bindM {A B} (m : M A) (k : A -> M B) : M B :=
  fun w => match m w with
           | (Ok a, w') => k a w'
           | (Raise e, w') => (Raise e, w')
           end.
Definition lift {A} (r : result A) : M A := fun w => (r, w).

(** [try: m  except Exception as e: h e] *)
Definition try_except {A} (m : M A) (h : exn -> M A) : M A :=
  fun w => match m w with
           | (Ok a, w') => (Ok a, w')
           | (Raise e, w') => h e w'
           end.

Global Instance M_ret : MRet M := @ret.
Global Instance M_bind : MBind M := fun A B k m => bindM m k.

Definition read : M world := fun w => (Ok w, w).

Definition record (c : call) : M unit :=
  fun w => (Ok tt, World (supabase w) (tables w) (bucket w) (storage_ok w)
                         (serial w) (entropy w) (now w) (calls w ++ [c])).

Definition set_tables (t : gmap string (list dict)) : M unit :=
  fun w => (Ok tt, World (supabase w) t (bucket w) (storage_ok w)
                         (serial w) (entropy w) (now w) (calls w)).

Definition set_bucket (b : gmap pystr bytes) : M unit :=
  fun w => (Ok tt, World (supabase w) (tables w) b (storage_ok w)
                         (serial w) (entropy w) (now w) (calls w)).

Definition next_serial : M Z :=
  fun w => (Ok (serial w), World (supabase w) (tables w) (bucket w) (storage_ok w)
                                 (serial w + 1) (entropy w) (now w) (calls w)).

Definition next_entropy : M nat :=
  fun w => (Ok (entropy w), World (supabase w) (tables w) (bucket w) (storage_ok w)
                                  (serial w) (S (entropy w)) (now w) (calls w)).

(** The rows of a table. *)
Definition rows (w : world) (t : string) : list dict :=
  default [] (tables w !! t).

(** *** The catalog store: queries *)

Inductive qfilter :=
| Ilike (col : string) (pattern : pystr)
| Eq (col : string) (v : pystr)
| Lte (col : string) (n : Z).

(** Creation time of a row, the sort key of the list endpoint. *)
Definition created_at (r : dict) : option Z :=
  match r !! "created_at" with
  | Some (VInt n) => Some n
  | _ => None
  end.

(** [a] comes before [b] in descending order of creation time; rows
    without one come first. *)
Definition created_desc (a b : dict) : Prop :=
  match created_at a, created_at b with
  | None, _ => True
  | Some _, None => False
  | Some x, Some y => y <= x
  end.

Global Instance created_desc_dec : RelDecision created_desc.
Proof.
  intros a b. unfold created_desc.
  destruct (created_at a), (created_at b); try apply _.
Defined.

(** [.range(lo, hi)]: the rows at the positions [lo] to [hi], both
    included. *)
Definition range {A} (lo hi : Z) (l : list A) : list A :=
  firstn (Z.to_nat (hi - lo + 1)) (skipn (Z.to_nat lo) l).

Section Store.

(** SQL [ILIKE]: does the text match the pattern (case-insensitive)? *)
Variable ilike : pystr -> pystr -> bool.

Definition matches (r : dict) (f : qfilter) : bool :=
  match f with
  | Ilike col pat =>
      match r !! col with
      | Some (VStr s) => ilike s pat
      | _ => false
      end
  | Eq col v => bool_decide (r !! col = Some (VStr v))
  | Lte col n =>
      match r !! col with
      | Some (VInt x) => x <=? n
      | _ => false
      end
  end.

Definition matches_all (fs : list qfilter) (r : dict) : bool :=
  forallb (matches r) fs.

(** A query under construction: [supabase.table(t).select(...)] followed
    by filters, an order and a range. *)
Record query := Query {
  q_table : string;
  q_columns : option (list string);   (* [None] is ["*"] *)
  q_filters : list qfilter;
  q_order : bool;                     (* [.order("created_at", desc=True)] *)
  q_range : option (Z * Z)
}.

Definition select (t : string) (cols : option (list string)) : query :=
  Query t cols [] false None.

Definition add_filter (q : query) (f : qfilter) : query :=
  Query (q_table q) (q_columns q) (q_filters q ++ [f]) (q_order q) (q_range q).

Definition order_created_desc (q : query) : query :=
  Query (q_table q) (q_columns q) (q_filters q) true (q_range q).

Definition with_range (q : query) (lo hi : Z) : query :=
  Query (q_table q) (q_columns q) (q_filters q) (q_order q) (Some (lo, hi)).

Definition project (cols : option (list string)) (r : dict) : dict :=
  match cols with
  | None => r
  | Some cs => filter (fun kv => fst kv ∈ cs) r
  end.

(** The rows a query denotes in a given state of the tables. *)
Definition run_query (q : query) (w : world) : list dict :=
  let matching := List.filter (matches_all (q_filters q)) (rows w (q_table q)) in
  let ordered := if q_order q then merge_sort created_desc matching else matching in
  let ranged := match q_range q with
                | Some (lo, hi) => range lo hi ordered
                | None => ordered
                end in
  map (project (q_columns q)) ranged.

(** [query.execute().data] *)
Definition execute (q : query) : M (list dict) :=
  record (TableSelect (q_table q));;
  w ← read;
  ret (run_query q w).

(** [supabase.table(t).insert(data).execute().data]: the store assigns
    the id and the creation time and returns the row it stored. *)
Definition insert (t : string) (values : dict) : M (list dict) :=
  record (TableInsert t values);;
  n ← next_serial;
  w ← read;
  let r := values ∪ {[ "id" := VStr (str_int n); "created_at" := VInt n ]} in
  set_tables (<[t := rows w t ++ [r]]> (tables w));;
  ret [r].

(** [supabase.table(t).update(data).eq("id", id).execute().data]: the
    columns of [data] replace those of every row with that id; the rows
    changed are returned. *)
Definition update (t : string) (values : dict) (id : pystr) : M (list dict) :=
  record (TableUpdate t values id);;
  w ← read;
  let upd r := if matches r (Eq "id" id) then values ∪ r else r in
  set_tables (<[t := map upd (rows w t)]> (tables w));;
  ret (map (fun r => values ∪ r)
           (List.filter (fun r => matches r (Eq "id" id)) (rows w t))).

(** [supabase.table(t).delete().eq("id", id).execute()] *)
Definition delete_eq_id (t : string) (id : pystr) : M unit :=
  record (TableDelete t id);;
  w ← read;
  set_tables (<[t := List.filter (fun r => negb (matches r (Eq "id" id))) (rows w t)]>
                (tables w)).

End Store.

(** *** The object store *)

(** [supabase.storage.from_(bucket).upload(key, data, ...)] *)
Definition storage_upload (key : pystr) (content : bytes) : M unit :=
  record (StorageUpload key content);;
  w ← read;
  if storage_ok w then set_bucket (<[key := content]> (bucket w))
  else raise (Exception "storage upload failed").

(** [supabase.storage.from_(bucket).remove([key])] *)
Definition storage_remove (key : pystr) : M unit :=
  record (StorageRemove key);;
  w ← read;
  if storage_ok w then set_bucket (delete key (bucket w))
  else raise (Exception "storage remove failed").

(* ===================================================================== *)
(** ** String operations of the handlers *)
(* ===================================================================== *)

(** [c.isspace()] *)
Definition isspace (c : codepoint) : bool :=
  ((9 <=? c) && (c <=? 13) || (28 <=? c) && (c <=? 32) || (c =? 133) || (c =? 160)
   || (c =? 5760) || (8192 <=? c) && (c <=? 8202) || (c =? 8232) || (c =? 8233)
   || (c =? 8239) || (c =? 8287) || (c =? 12288))%N.

Fixpoint lstrip (s : pystr) : pystr :=
  match s with
  | c :: s' => if isspace c then lstrip s' else s
  | [] => []
  end.

(** [s.strip()] *)
Definition strip (s : pystr) : pystr := rev (lstrip (rev (lstrip s))).

(** [s.split(sep)[-1]] for a separator of one character: what follows
    the last separator, or all of [s] when there is none. *)
Fixpoint split_last (sep : codepoint) (s : pystr) : pystr :=
  match s with
  | [] => []
  | c :: s' =>
      if existsb (N.eqb sep) s' then split_last sep s'
      else if (c =? sep)%N then s' else s
  end.

(** Optional form fields and what [if field:] sees. *)
Definition of_str (o : option pystr) : value := from_option VStr VNone o.
Definition of_int (o : option Z) : value := from_option VInt VNone o.

(* ===================================================================== *)
(** ** The image normaliser and the upload helper *)
(* ===================================================================== *)

Section Backend.

Variable ilike : pystr -> pystr -> bool.
Variable decode : bytes -> result PIL.image.
Variable resample_LANCZOS : PIL.image -> Z * Z -> list PIL.pixel.
Variable jpeg_encode : PIL.image -> Z -> bytes.
Variable uuid4_hex : nat -> pystr.
Variable get_public_url : pystr -> pystr.

(** Lines 58 to 62 of [resize_image]: an image in mode [RGBA], [LA] or
    [P] is replaced by a white [RGB] image of the same size onto which
    it is pasted. *)
Definition flatten (img : PIL.image) : PIL.image :=
  if bool_decide (PIL.mode img ∈ [PIL.M_RGBA; PIL.M_LA; PIL.M_P]) then
    let background := PIL.new PIL.M_RGB (PIL.size img) (255, 255, 255) in
    let img := if decide (PIL.mode img = PIL.M_P) then PIL.convert_P_RGBA img else img in
    PIL.paste background img
      (if decide (PIL.mode img = PIL.M_RGBA) then Some (PIL.alpha_band img) else None)
  else img.

(** The image that [resize_image] hands to the encoder. *)
Definition normalized (img : PIL.image) : PIL.image :=
  PIL.thumbnail resample_LANCZOS (flatten img) (1200, 1200).

(** [resize_image(image_data)], with [max_size] at its default of
    [(1200, 1200)], which no caller overrides; the handler of the [try]
    prints the error and raises it again. *)
Definition resize_image (image_data : bytes) : result bytes :=
  Py.bind (PIL.open decode image_data) (fun img =>
  PIL.save_jpeg jpeg_encode (normalized img) 95).

(** [upload_image_to_supabase(file, flower_name)] *)
Definition upload_image_to_supabase (file : UploadFile) (flower_name : value)
  : M value :=
  try_except
    (w ← read;
     (if supabase w then ret tt else raise (Exception "Supabase not connected"));;
     let image_data := file_read file in
     resized_data ← lift (resize_image image_data);
     n ← next_entropy;
     let filename := u "flower_" ++ uuid4_hex n ++ u ".jpg" in
     storage_upload filename resized_data;;
     let url := get_public_url filename in
     let url := strip url in
     ret (VStr url))
    (fun e => ret VNone).

(** [image and image.filename] *)
Definition has_image (image : option UploadFile) : bool :=
  match image with
  | Some f => truthy (filename f)
  | None => false
  end.

(* ===================================================================== *)
(** ** The endpoints *)
(* ===================================================================== *)

(** The sentinel of the type filter, "all". *)
Definition ALL_TYPES : pystr := u "Tất cả".

(** [if type and type != "Tất cả"] *)
Definition type_filter (type : option pystr) : option pystr :=
  match type with
  | Some t => if truthy (VStr t) && negb (bool_decide (t = ALL_TYPES)) then Some t else None
  | None => None
  end.

Definition db_connected : M unit :=
  w ← read;
  if supabase w then ret tt
  else raise (HTTPException 500 (Msg "DB not connected")).

(** [except Exception as e: raise HTTPException(500, str(e))] *)
Definition as_500 {A} (e : exn) : M A := raise (HTTPException 500 (StrOf e)).

(** [except HTTPException: raise] before the clause above. *)
Definition keep_http {A} (e : exn) : M A :=
  match e with
  | HTTPException _ _ => raise e
  | _ => as_500 e
  end.

(** The method call [supabase.table(...)] on the global client, where no
    test of the client comes first. *)
Definition client : M unit :=
  w ← read;
  if supabase w then ret tt else raise AttributeError.

Record flower_list := { flowers : list dict; count : Z }.

(** The query of the list endpoint (lines 95 to 100). *)
Definition list_query (search type tags : option pystr) (low_stock : bool)
                      (skip limit : Z) : query :=
  let query := select "flowers" None in
  let query := if truthy (of_str search)
               then add_filter query (Ilike "name" (u "%" ++ default [] search ++ u "%"))
               else query in
  let query := match type_filter type with
               | Some t => add_filter query (Eq "type" t)
               | None => query
               end in
  let query := if truthy (of_str tags)
               then add_filter query (Ilike "tags" (u "%" ++ default [] tags ++ u "%"))
               else query in
  let query := if low_stock then add_filter query (Lte "stock" 10) else query in
  with_range (order_created_desc query) skip (skip + limit - 1).

(** [GET /flowers] *)
Definition get_flowers (search type tags : option pystr) (low_stock : bool)
                       (skip limit : Z) : M flower_list :=
  try_except
    (db_connected;;
     data ← execute ilike (list_query search type tags low_stock skip limit);
     ret {| flowers := data; count := Z.of_nat (length data) |})
    as_500.

Record flower_response := { message : string; flower : dict }.

(** [result.data[0]] *)
Definition first_row (data : list dict) : M dict :=
  match data with
  | r :: _ => ret r
  | [] => raise IndexError
  end.

(** [POST /flowers] *)
Definition create_flower (name : pystr) (price : Z) (type unit : pystr)
                         (stock : Z) (tags : pystr) (image : option UploadFile)
  : M flower_response :=
  try_except
    (db_connected;;
     image_url ← match image with
                  | Some f => if truthy (filename f)
                              then upload_image_to_supabase f (VStr name)
                              else ret VNone
                  | None => ret VNone
                  end;
     let data : dict :=
       {[ "name" := VStr name; "price" := VInt price; "type" := VStr type;
          "unit" := VStr unit; "stock" := VInt stock; "tags" := VStr tags;
          "image_url" := image_url ]} in
     result ← insert "flowers" data;
     r ← first_row result;
     ret {| message := "Flower created"; flower := r |})
    as_500.

(** The dict [data] that [update_flower] builds from the form fields
    (lines 118 to 124). *)
Definition update_fields (name : option pystr) (price : option Z)
                         (type unit : option pystr) (stock : option Z)
                         (tags : option pystr) : dict :=
  let data : dict := ∅ in
  let data := if truthy (of_str name) then <["name" := of_str name]> data else data in
  let data := if truthy (of_int price) then <["price" := of_int price]> data else data in
  let data := if truthy (of_str type) then <["type" := of_str type]> data else data in
  let data := if truthy (of_str unit) then <["unit" := of_str unit]> data else data in
  let data := match stock with Some n => <["stock" := VInt n]> data | None => data end in
  let data := match tags with Some s => <["tags" := VStr s]> data | None => data end in
  data.

(** What [update_flower] does once [data] is complete (lines 128 to
    131). *)
Definition send_update (data : dict) (flower_id : pystr) : M flower_response :=
  (if bool_decide (data = ∅)
   then raise (HTTPException 400 (Msg "No data to update")) else ret tt);;
  result ← update ilike "flowers" data flower_id;
  (match result with
   | [] => raise (HTTPException 404 (Msg "Flower not found"))
   | _ => ret tt
   end);;
  r ← first_row result;
  ret {| message := "Updated"; flower := r |}.

(** [PUT /flowers/{flower_id}] *)
Definition update_flower (flower_id : pystr) (name : option pystr) (price : option Z)
                         (type unit : option pystr) (stock : option Z)
                         (tags : option pystr) (image : option UploadFile)
  : M flower_response :=
  try_except
    (db_connected;;
     let data := update_fields name price type unit stock tags in
     data ← match image with
             | Some f =>
                 if truthy (filename f) then
                   image_url ← upload_image_to_supabase f
                                  (py_or (of_str name) (VStr (u "flower")));
                   ret (if truthy image_url then <["image_url" := image_url]> data
                        else data)
                 else ret data
             | None => ret data
             end;
     send_update data flower_id)
    keep_http.

(** [DELETE /flowers/{flower_id}] *)
Definition delete_flower (flower_id : pystr) : M string :=
  try_except
    (db_connected;;
     flower ← execute ilike (add_filter (select "flowers" (Some ["image_url"]))
                                        (Eq "id" flower_id));
     (match flower with
      | r :: _ =>
          let image_url := get r "image_url" VNone in
          if truthy image_url then
            match image_url with
            | VStr s =>
                let filename := split_last 47%N s in
                try_except (storage_remove filename) (fun _ => ret tt)
            | _ => raise AttributeError
            end
          else ret tt
      | [] => ret tt
      end);;
     delete_eq_id ilike "flowers" flower_id;;
     ret "Deleted")
    as_500.

(** [GET /flower-types], [GET /unit-types] *)
Definition get_flower_types : M (list dict) :=
  client;; execute ilike (select "flower_types" None).

Definition get_unit_types : M (list dict) :=
  client;; execute ilike (select "unit_types" None).

(** [a + b] and [a <= b] on the values of a row. *)
Definition add (a : Z) (v : value) : result Z :=
  match v with
  | VInt n => Ok (a + n)
  | _ => Raise TypeError
  end.

Definition le (v : value) (n : Z) : result bool :=
  match v with
  | VInt x => Ok (x <=? n)
  | _ => Raise TypeError
  end.

(** [sum(f["price"] for f in flowers)] *)
Fixpoint sum_prices (acc : Z) (flowers : list dict) : result Z :=
  match flowers with
  | [] => Ok acc
  | f :: rest =>
      Py.bind (getitem f "price") (fun p =>
      Py.bind (add acc p) (fun acc' => sum_prices acc' rest))
  end.

(** The low-stock test of the statistics: [f.get("stock", 0) <= 10] *)
Definition low_stock (f : dict) : result bool := le (get f "stock" (VInt 0)) 10.

(** [sum(1 for f in flowers if f.get("stock", 0) <= 10)] *)
Fixpoint count_low_stock (acc : Z) (flowers : list dict) : result Z :=
  match flowers with
  | [] => Ok acc
  | f :: rest =>
      Py.bind (low_stock f) (fun b =>
      count_low_stock (if b then acc + 1 else acc) rest)
  end.

Record stats := {
  total_flowers : Z; total_types : Z; total_value : Z; low_stock_count : Z
}.

(** [GET /stats] *)
Definition get_stats : M stats :=
  client;;
  flowers ← execute ilike (select "flowers" None);
  types ← execute ilike (select "flower_types" None);
  total_value ← lift (sum_prices 0 flowers);
  low_stock_count ← lift (count_low_stock 0 flowers);
  ret {| total_flowers := Z.of_nat (length flowers);
         total_types := Z.of_nat (length types);
         total_value := total_value;
         low_stock_count := low_stock_count |}.

(* ===================================================================== *)
(** ** The report generators *)
(* ===================================================================== *)

(** *** Formatting *)

(** [s.zfill(n)] for the digits of a field of a date. *)
Definition zfill (n : nat) (s : pystr) : pystr :=
  repeat 48%N (n - length s) ++ s.

(** [f"{now:%Y%m%d_%H%M%S}"] *)
Definition stamp_file (t : datetime) : pystr :=
  zfill 4 (str_int (year t)) ++ zfill 2 (str_int (month t)) ++ zfill 2 (str_int (day t))
  ++ u "_" ++ zfill 2 (str_int (hour t)) ++ zfill 2 (str_int (minute t))
  ++ zfill 2 (str_int (second t)).

(** [f"{now:%d/%m/%Y %H:%M}"] *)
Definition stamp_text (t : datetime) : pystr :=
  zfill 2 (str_int (day t)) ++ u "/" ++ zfill 2 (str_int (month t)) ++ u "/"
  ++ zfill 4 (str_int (year t)) ++ u " " ++ zfill 2 (str_int (hour t)) ++ u ":"
  ++ zfill 2 (str_int (minute t)).

(** The digits of a number, last digit first, with a comma after every
    third digit that has a digit behind it. *)
Fixpoint group3 (ds : list codepoint) : list codepoint :=
  match ds with
  | a :: b :: c :: rest =>
      match rest with
      | [] => ds
      | _ => a :: b :: c :: 44%N :: group3 rest
      end
  | _ => ds
  end.

(** [format(n, ",")] for an [int] *)
Definition format_comma (n : Z) : pystr :=
  (if n <? 0 then u "-" else []) ++ rev (group3 (rev (str_int (Z.abs n)))).

(** [s.replace(old, new)] for [old] and [new] of one character *)
Definition replace (old new : codepoint) (s : pystr) : pystr :=
  map (fun c => if (c =? old)%N then new else c) s.

(** [f"{v:,}"] *)
Definition format_value_comma (v : value) : result pystr :=
  match v with
  | VInt n => Ok (format_comma n)
  | VStr _ => Raise ValueError
  | VNone => Raise TypeError
  end.

(** The price cell of the PDF: [f"{f['price']:,}".replace(",", ".")] *)
Definition pdf_price (v : value) : result pystr :=
  Py.bind (format_value_comma v) (fun s => Ok (replace 44%N 46%N s)).

(** *** The spreadsheet (openpyxl) *)

Record cell := Cell {
  cell_value : value;
  cell_fill : option string;            (* solid fill, its colour *)
  cell_font : option (bool * string);   (* bold, colour *)
  cell_alignment : option string        (* horizontal alignment *)
}.

Record worksheet := Worksheet {
  title : pystr;
  cells : gmap (nat * nat) cell;        (* by (row, column), from 1 *)
  column_width : gmap string Z          (* by column letter *)
}.

Definition new_sheet : worksheet := Worksheet (u "Sheet") ∅ ∅.

(** [ws.cell(row, column, value)] *)
Definition ws_cell (ws : worksheet) (row column : nat) (v : value) : worksheet :=
  let c := match cells ws !! (row, column) with
           | Some c => Cell v (cell_fill c) (cell_font c) (cell_alignment c)
           | None => Cell v None None None
           end in
  Worksheet (title ws) (<[(row, column) := c]> (cells ws)) (column_width ws).

(** The three style assignments that follow [ws.cell] in the header
    loop. *)
Definition ws_style (ws : worksheet) (row column : nat)
                    (fill : string) (font : bool * string) (align : string) : worksheet :=
  Worksheet (title ws)
            (alter (fun c => Cell (cell_value c) (Some fill) (Some font) (Some align))
                   (row, column) (cells ws))
            (column_width ws).

(** [get_column_letter(i)] *)
Fixpoint column_letters (fuel i : nat) : string :=
  match fuel with
  | O => ""
  | S fuel' =>
      match i with
      | O => ""
      | S j => column_letters fuel' (j / 26)
               ++ String (ascii_of_nat (65 + j mod 26)) ""
      end
  end.

Definition get_column_letter (i : nat) : string := column_letters i i.

Definition excel_headers : list pystr :=
  [u "STT"; u "Tên hoa"; u "Giá (VNĐ)"; u "Loại"; u "Quy cách"; u "Tồn kho"; u "Tags"].

Definition excel_widths : list Z := [8; 35; 15; 15; 12; 10; 25].

(** [for col, h in enumerate(headers, 1): ...] *)
Fixpoint write_headers (ws : worksheet) (col : nat) (headers : list pystr) : worksheet :=
  match headers with
  | [] => ws
  | h :: rest =>
      let ws := ws_cell ws 1 col (VStr h) in
      let ws := ws_style ws 1 col "2e7d32" (true, "FFFFFF"%string) "center" in
      write_headers ws (S col) rest
  end.

(** The body of the loop over the records (lines 178 and 179). *)
Definition write_record (ws : worksheet) (idx : nat) (f : dict) : result worksheet :=
  let ws := ws_cell ws idx 1 (VInt (Z.of_nat idx - 1)) in
  Py.bind (getitem f "name") (fun name =>
  let ws := ws_cell ws idx 2 name in
  Py.bind (getitem f "price") (fun price =>
  let ws := ws_cell ws idx 3 price in
  Py.bind (getitem f "type") (fun type =>
  let ws := ws_cell ws idx 4 type in
  Py.bind (getitem f "unit") (fun unit =>
  let ws := ws_cell ws idx 5 unit in
  let ws := ws_cell ws idx 6 (get f "stock" (VInt 0)) in
  let ws := ws_cell ws idx 7 (get f "tags" (VStr [])) in
  Ok ws)))).

(** [for idx, f in enumerate(flowers, 2): ...] *)
Fixpoint write_records (ws : worksheet) (idx : nat) (flowers : list dict)
  : result worksheet :=
  match flowers with
  | [] => Ok ws
  | f :: rest =>
      Py.bind (write_record ws idx f) (fun ws => write_records ws (S idx) rest)
  end.

(** [for i, w in enumerate(widths, 1): ...] *)
Fixpoint write_widths (ws : worksheet) (i : nat) (widths : list Z) : worksheet :=
  match widths with
  | [] => ws
  | w :: rest =>
      write_widths (Worksheet (title ws) (cells ws)
                              (<[get_column_letter i := w]> (column_width ws)))
                   (S i) rest
  end.

(** Lines 171 to 181 of [export_excel]: the sheet for a list of
    records. *)
Definition excel_sheet (flowers : list dict) : result worksheet :=
  let ws := Worksheet (u "Catalog Hoa") (cells new_sheet) (column_width new_sheet) in
  let ws := write_headers ws 1 excel_headers in
  Py.bind (write_records ws 2 flowers) (fun ws =>
  Ok (write_widths ws 1 excel_widths)).

(** *** The PDF (reportlab) *)

Inductive style_command :=
| BACKGROUND (start stop : Z * Z) (colour : string)
| TEXTCOLOR (start stop : Z * Z) (colour : string)
| ALIGN (start stop : Z * Z) (how : string)
| GRID (start stop : Z * Z) (weight : Q) (colour : string)
| FONTSIZE (start stop : Z * Z) (points : Z).

Inductive flowable :=
| Paragraph (text : pystr) (style : string)
| Spacer (w h : Z)
| Table (data : list (list value)) (colWidths : list Z) (style : list style_command).

Definition pdf_headers : list value :=
  map VStr [u "STT"; u "Tên hoa"; u "Giá"; u "Loại"; u "Quy cách"; u "Tồn"; u "Tags"].

(** The row appended for a record (line 200). *)
Definition pdf_row (i : nat) (f : dict) : result (list value) :=
  let index := VStr (str_int (Z.of_nat i)) in
  Py.bind (getitem f "name") (fun name =>
  Py.bind (getitem f "price") (fun price =>
  Py.bind (pdf_price price) (fun price =>
  Py.bind (getitem f "type") (fun type =>
  Py.bind (getitem f "unit") (fun unit =>
  let stock := VStr (str (get f "stock" (VInt 0))) in
  Py.bind (slice_to 30 (py_or (get f "tags" (VStr [])) (VStr []))) (fun tags =>
  Ok [index; name; VStr price; type; unit; stock; tags])))))).

(** [for i, f in enumerate(flowers, 1): data.append(...)] *)
Fixpoint pdf_rows (data : list (list value)) (i : nat) (flowers : list dict)
  : result (list (list value)) :=
  match flowers with
  | [] => Ok data
  | f :: rest =>
      Py.bind (pdf_row i f) (fun r => pdf_rows (data ++ [r]) (S i) rest)
  end.

Definition pdf_table_style : list style_command :=
  [ BACKGROUND (0, 0) (-1, 0) "#2e7d32"; TEXTCOLOR (0, 0) (-1, 0) "white";
    ALIGN (0, 0) (-1, -1) "CENTER"; GRID (0, 0) (-1, -1) (1 # 2) "grey";
    FONTSIZE (0, 1) (-1, -1) 8 ].

(** Lines 195 to 204 of [export_pdf]: the flowables of the document. *)
Definition pdf_elements (t : datetime) (flowers : list dict) : result (list flowable) :=
  let elements := [] in
  let elements := elements ++ [Paragraph (u "CATALOG HOA ĐẸP") "Heading1"] in
  let elements := elements ++ [Spacer 1 12] in
  let elements := elements ++ [Paragraph (u "Ngày xuất: " ++ stamp_text t) "Normal"] in
  let elements := elements ++ [Spacer 1 12] in
  let data := [pdf_headers] in
  Py.bind (pdf_rows data 1 flowers) (fun data =>
  let table := Table data [30; 140; 70; 70; 60; 40; 80] pdf_table_style in
  let elements := elements ++ [table] in
  let elements := elements ++ [Spacer 1 12] in
  let elements := elements
    ++ [Paragraph (u "<b>Tổng: " ++ str_int (Z.of_nat (length flowers)) ++ u " sản phẩm</b>")
                  "Normal"] in
  Ok elements).

(** *** The two export endpoints *)

Record StreamingResponse := {
  body : bytes;
  media_type : string;
  content_disposition : pystr
}.

(** The serialisers of the two libraries: [wb.save] and [doc.build]. *)
Variable xlsx_save : worksheet -> bytes.
Variable pdf_build : list flowable -> bytes.

Definition export_query (type : option pystr) : query :=
  let query := select "flowers" None in
  match type_filter type with
  | Some t => add_filter query (Eq "type" t)
  | None => query
  end.

(** [GET /export/excel] *)
Definition export_excel (type : option pystr) : M StreamingResponse :=
  try_except
    (client;;
     flowers ← execute ilike (export_query type);
     ws ← lift (excel_sheet flowers);
     let output := xlsx_save ws in
     w ← read;
     let filename := u "Catalog_Hoa_" ++ stamp_file (now w) ++ u ".xlsx" in
     ret {| body := output;
            media_type := "application/vnd.openxmlformats-officedocument.spreadsheetml.sheet";
            content_disposition := u "attachment; filename*=UTF-8''" ++ filename |})
    as_500.

(** [GET /export/pdf] *)
Definition export_pdf (type : option pystr) : M StreamingResponse :=
  try_except
    (client;;
     flowers ← execute ilike (export_query type);
     w ← read;
     elements ← lift (pdf_elements (now w) flowers);
     let output := pdf_build elements in
     let filename := u "Catalog_Hoa_" ++ stamp_file (now w) ++ u ".pdf" in
     ret {| body := output;
            media_type := "application/pdf";
            content_disposition := u "attachment; filename*=UTF-8''" ++ filename |})
    as_500.

End Backend.

(* ===================================================================== *)
(** ** Vocabulary of the specification *)
(* ===================================================================== *)

(** The alpha-composite of a channel value [c] with alpha [a] over pure
    white, [(c * a + 255 * (255 - a)) / 255], rounded to the nearest
    integer. *)
Definition over_white (c a : Z) : Z := (2 * (c * a + 255 * (255 - a)) + 255) / 510.

Definition over_white_pixel (p : PIL.pixel) : Z * Z * Z :=
  let '(r, g, b, a) := p in (over_white r a, over_white g a, over_white b a).

(** Does [f] hold of the [n] integers from [x] on? *)
Fixpoint holds_from (f : Z -> bool) (x : Z) (n : nat) : bool :=
  match n with
  | O => true
  | S k => f x && holds_from f (x + 1) k
  end.

Definition byte_pixel (p : PIL.pixel) : Prop :=
  let '(r, g, b, a) := p in
  0 <= r <= 255 /\ 0 <= g <= 255 /\ 0 <= b <= 255 /\ 0 <= a <= 255.


(** A record of the catalog as class [Flower] of the source declares it:
    name, type and unit are text, the price is an integer, stock and
    tags may be null or missing. *)
Definition is_text (o : option value) : bool :=
  match o with Some (VStr _) => true | _ => false end.
Definition is_int (o : option value) : bool :=
  match o with Some (VInt _) => true | _ => false end.
Definition is_opt_text (o : option value) : bool :=
  match o with Some (VStr _) | Some VNone | None => true | _ => false end.
Definition is_opt_int (o : option value) : bool :=
  match o with Some (VInt _) | Some VNone | None => true | _ => false end.

Definition flower_record (f : dict) : bool :=
  is_text (f !! "name") && is_int (f !! "price") && is_text (f !! "type")
  && is_text (f !! "unit") && is_opt_int (f !! "stock") && is_opt_text (f !! "tags").

(** The values of the seven columns of a row of a sheet. *)
Definition sheet_row (ws : worksheet) (row : nat) : list (option value) :=
  map (fun col => cell_value <$> cells ws !! (row, col)) [1; 2; 3; 4; 5; 6; 7]%nat.

(** The table of a PDF document. *)
Definition pdf_table (elements : list flowable) : list (list value) :=
  match elements with
  | [_; _; _; _; Table data _ _; _; _] => data
  | _ => []
  end.


(** Is this the row an update or a delete of [id] addresses? *)
Definition has_id (id : pystr) (r : dict) : bool :=
  bool_decide (r !! "id" = Some (VStr id)).

(** What an update leaves in a column: the value of a field that takes
    effect, else what the row held. *)
Definition effective_str (o : option pystr) : option value :=
  match o with
  | Some (c :: s) => Some (VStr (c :: s))
  | _ => None
  end.

Definition effective_int (o : option Z) : option value :=
  match o with
  | Some n => if n =? 0 then None else Some (VInt n)
  | None => None
  end.

(** The URL an upload delivered, if it delivered one. *)
Definition uploaded_url (res : result value) : option pystr :=
  match res with
  | Ok (VStr (c :: s)) => Some (c :: s)
  | _ => None
  end.

Definition merged (name : option pystr) (price : option Z) (type unit : option pystr)
                  (stock : option Z) (tags image_url : option pystr)
                  (r : dict) (k : string) : option value :=
  let keep o := match o with Some v => Some v | None => r !! k end in
  if decide (k = "name") then keep (effective_str name)
  else if decide (k = "price") then keep (effective_int price)
  else if decide (k = "type") then keep (effective_str type)
  else if decide (k = "unit") then keep (effective_str unit)
  else if decide (k = "stock") then keep (VInt <$> stock)
  else if decide (k = "tags") then keep (VStr <$> tags)
  else if decide (k = "image_url") then keep (VStr <$> image_url)
  else r !! k.

(** The row [create_flower] sends to the store when no image URL was
    obtained, and the row the store keeps for it. *)
Definition new_flower (name : pystr) (price : Z) (type unit : pystr)
                      (stock : Z) (tags : pystr) : dict :=
  {[ "name" := VStr name; "price" := VInt price; "type" := VStr type;
     "unit" := VStr unit; "stock" := VInt stock; "tags" := VStr tags;
     "image_url" := VNone ]}.

Definition stored (values : dict) (n : Z) : dict :=
  values ∪ {[ "id" := VStr (str_int n); "created_at" := VInt n ]}.

(** The key under which the next upload is stored. *)
Definition upload_key (uuid4_hex : nat -> pystr) (w : world) : pystr :=
  u "flower_" ++ uuid4_hex (entropy w) ++ u ".jpg".

(** Low stock: an integer stock of at most 10. *)
Definition stock_le_10 (r : dict) : bool :=
  match r !! "stock" with
  | Some (VInt x) => x <=? 10
  | _ => false
  end.

(** Low stock as the statistics see it: a missing stock counts as 0. *)
Definition stock_default_le_10 (r : dict) : bool :=
  match r !! "stock" with
  | Some (VInt x) => x <=? 10
  | None => true
  | _ => false
  end.

(** The rows the statistics can add up: an integer price, and a stock
    that is an integer or missing. *)
Definition stats_row (f : dict) : bool :=
  is_int (f !! "price") && (is_int (f !! "stock") || bool_decide (f !! "stock" = None)).


Definition keep (sep : codepoint) (c : codepoint) : bool := negb (c =? sep)%N.

(** The values the spreadsheet holds for a record written to row
    [idx]. *)
Definition excel_row (idx : nat) (f : dict) : list (option value) :=
  [Some (VInt (Z.of_nat idx - 1)); f !! "name"; f !! "price"; f !! "type"; f !! "unit";
   Some (get f "stock" (VInt 0)); Some (get f "tags" (VStr []))].

(** The text of the tags of a record; null and missing count as empty. *)
Definition tags_text (f : dict) : pystr :=
  match f !! "tags" with
  | Some (VStr s) => s
  | _ => []
  end.

(** The sheet after the header loop. *)
Definition header_sheet : worksheet :=
  write_headers (Worksheet (u "Catalog Hoa") (cells new_sheet) (column_width new_sheet))
                1 excel_headers.

(** The value stored in column [k] of the [i]-th row of the catalog. *)
Definition stored_value (w : world) (i : nat) (k : string) : option value :=
  rows w "flowers" !! i ≫= (.!! k).

(* ===================================================================== *)
(** ** Vocabulary of the further properties *)
(* ===================================================================== *)

(** The pixels [flatten] composites: those of the image, or for a [P]
    image the palette entries they index. *)
Definition rgba_pixels (img : PIL.image) : list PIL.pixel :=
  if decide (PIL.mode img = PIL.M_P) then PIL.data (PIL.convert_P_RGBA img)
  else PIL.data img.

(** The world after the calls [l] were logged and nothing else
    happened. *)
Definition logged (w : world) (l : list call) : world :=
  World (supabase w) (tables w) (bucket w) (storage_ok w) (serial w) (entropy w)
        (now w) (calls w ++ l).

(** Does a result succeed, or answer with one of the given HTTP
    statuses? *)
Definition answers {A} (allowed : list Z) (r : result A) : Prop :=
  match r with
  | Ok _ => True
  | Raise (HTTPException s _) => s ∈ allowed
  | Raise _ => False
  end.

Definition is_select (c : call) : Prop :=
  match c with TableSelect _ => True | _ => False end.

(** A computation that only reads the catalog: it leaves tables, bucket
    and the other parts of the world as they are and logs selects only. *)
Definition reads_only {A} (m : M A) : Prop :=
  forall w, exists l, (m w).2 = logged w l /\ Forall is_select l.

(** The key of the blob a row points to: the last path segment of its
    image URL, if it has one. *)
Definition blob_key (r : dict) : option pystr :=
  match r !! "image_url" with
  | Some (VStr (c :: s)) => Some (split_last 47%N (c :: s))
  | _ => None
  end.

(** The price of a row, 0 where it holds no integer price. *)
Definition price_of (r : dict) : Z :=
  match r !! "price" with
  | Some (VInt n) => n
  | _ => 0
  end.

(** A cell without fill, font or alignment. *)
Definition unstyled (c : cell) : Prop :=
  cell_fill c = None /\ cell_font c = None /\ cell_alignment c = None.

(** No cell from row 2 on carries a style. *)
Definition body_unstyled (ws : worksheet) : Prop :=
  forall r c x, (2 <= r)%nat -> cells ws !! (r, c) = Some x -> unstyled x.

(** The columns a report reads with [f[...]]. *)
Definition required_columns : list string := ["name"; "price"; "type"; "unit"].

Definition has_required (f : dict) : bool :=
  forallb (fun k => bool_decide (is_Some (f !! k))) required_columns.

Section Selection.

Variable ilike : pystr -> pystr -> bool.

(** Does the text in column [col] of a row match the words searched
    for?  No words, no test. *)
Definition contains (col : string) (words : option pystr) (r : dict) : bool :=
  match words with
  | Some (c :: s) =>
      match r !! col with
      | Some (VStr text) => ilike text (u "%" ++ c :: s ++ u "%")
      | _ => false
      end
  | _ => true
  end.

(** The rows the list endpoint is asked for. *)
Definition selected (search type tags : option pystr) (low_stock : bool) (r : dict) : bool :=
  contains "name" search r
  && match type_filter type with
     | Some t => bool_decide (r !! "type" = Some (VStr t))
     | None => true
     end
  && contains "tags" tags r
  && (if low_stock then stock_le_10 r else true).

End Selection.

(* ===================================================================== *)
(** ** Sample data *)
(* ===================================================================== *)

Module Sample.

Definition ilike (s pattern : pystr) : bool := true.

(** A 16-bit greyscale image of two pixels. *)
Definition gray16 : PIL.image :=
  PIL.Image PIL.M_I16 (2, 1) [(52, 18, 0, 0); (120, 86, 0, 0)] [].

(** A greyscale image with alpha, one black pixel at alpha 128. *)
Definition smoke : PIL.image :=
  PIL.Image PIL.M_LA (1, 1) [(0, 0, 0, 128)] [].

(** The same pixel as [RGBA]. *)
Definition smoke_rgba : PIL.image :=
  PIL.Image PIL.M_RGBA (1, 1) [(0, 0, 0, 128)] [].

(** A wide [RGB] banner, 2400 by 1. *)
Definition banner : PIL.image :=
  PIL.Image PIL.M_RGB (2400, 1) (repeat (200, 30, 60, 255) 2400) [].

Definition decode (image_data : bytes) : result PIL.image :=
  match image_data with
  | 1 :: _ => Ok gray16
  | 2 :: _ => Ok smoke
  | 3 :: _ => Ok banner
  | _ => Raise (OSError "cannot identify image file")
  end.

Definition resample (im : PIL.image) (sz : Z * Z) : list PIL.pixel :=
  repeat (0, 0, 0, 255) (Z.to_nat (fst sz * snd sz)).

Definition jpeg_encode (im : PIL.image) (quality : Z) : bytes := [255; 216; 255; 217].

Definition uuid4_hex (n : nat) : pystr := str_int (Z.of_nat n).

Definition get_public_url (key : pystr) : pystr := u "https://shop.example/public/" ++ key.

Definition rose : dict :=
  {[ "id" := VStr (u "1"); "created_at" := VInt 1; "name" := VStr (u "Rose");
     "price" := VInt 50000; "type" := VStr (u "Red"); "unit" := VStr (u "bunch");
     "stock" := VInt 5; "tags" := VStr (u "classic"); "image_url" := VNone ]}.

Definition lily : dict :=
  {[ "id" := VStr (u "2"); "created_at" := VInt 2; "name" := VStr (u "Lily");
     "price" := VInt 1234567; "type" := VStr (u "White"); "unit" := VStr (u "stem");
     "stock" := VInt 10;
     "tags" := VStr (u "0123456789abcdefghijklmnopqrstuvwxyzABCDEFGHI");
     "image_url" := VNone ]}.

Definition orchid : dict :=
  {[ "id" := VStr (u "3"); "created_at" := VInt 3; "name" := VStr (u "Orchid");
     "price" := VInt 90000; "type" := VStr (u "White"); "unit" := VStr (u "pot");
     "stock" := VInt 11; "tags" := VStr (u ""); "image_url" := VNone ]}.

Definition noon : datetime :=
  {| year := 2024; month := 3; day := 9; hour := 12; minute := 5; second := 0 |}.

Definition shop : world :=
  World true {[ "flowers" := [rose; lily; orchid] ]} ∅ true 4 0 noon [].

(** The same shop while the object store refuses uploads. *)
Definition shop_offline : world :=
  World true {[ "flowers" := [rose; lily; orchid] ]} ∅ false 4 0 noon [].

Definition photo : UploadFile := {| filename := VStr (u "rose.png"); file_read := [3; 7] |}.
Definition broken_photo : UploadFile := {| filename := VStr (u "rose.png"); file_read := [9] |}.

End Sample.

(** A stall with a photographed flower, its reference lists, and a row
    that lacks a column. *)
Module Stall.

(** A tulip with a photo in the bucket; its stock and tags are null. *)
Definition tulip : dict :=
  {[ "id" := VStr (u "4"); "created_at" := VInt 4; "name" := VStr (u "Tulip");
     "price" := VInt 30000; "type" := VStr (u "Yellow"); "unit" := VStr (u "stem");
     "stock" := VNone; "tags" := VNone;
     "image_url" := VStr (u "https://shop.example/public/flower_0.jpg") ]}.

(** A row without a unit. *)
Definition daisy : dict :=
  {[ "id" := VStr (u "5"); "created_at" := VInt 5; "name" := VStr (u "Daisy");
     "price" := VInt 20000; "type" := VStr (u "White") ]}.

Definition red : dict := {[ "name" := VStr (u "Red"); "color" := VStr (u "#ff0000") ]}.
Definition white : dict := {[ "name" := VStr (u "White"); "color" := VStr (u "#f5f5f5") ]}.
Definition stem : dict := {[ "name" := VStr (u "stem") ]}.

Definition stall : world :=
  World true
        {[ "flowers" := [Sample.rose; tulip];
           "flower_types" := [red; white];
           "unit_types" := [stem] ]}
        {[ u "flower_0.jpg" := [255; 216; 255; 217] ]}
        true 6 1 Sample.noon [].

(** The same stall with the row that lacks a unit. *)
Definition stall_with_daisy : world :=
  World true {[ "flowers" := [Sample.rose; daisy] ]} ∅ true 6 1 Sample.noon [].

(** The same stall when the client could not be created. *)
Definition stall_closed : world :=
  World false
        {[ "flowers" := [Sample.rose; tulip] ]}
        {[ u "flower_0.jpg" := [255; 216; 255; 217] ]}
        true 6 1 Sample.noon [].

End Stall.

(* ===================================================================== *)
(** ** Evaluation of the definitions on small inputs *)
(* ===================================================================== *)

Example u_ascii : u "Tags" = [84; 97; 103; 115]%N.
Proof. reflexivity. Qed.

Example u_tong : u "Tổng" = [84; 7893; 110; 103]%N.
Proof. reflexivity. Qed.

Example str_int_50000 : str_int 50000 = u "50000".
Proof. reflexivity. Qed.

Example str_int_neg : str_int (-12) = u "-12".
Proof. reflexivity. Qed.

Example str_int_0 : str_int 0 = u "0".
Proof. reflexivity. Qed.

Example strip_ex : strip (u "  a b ") = u "a b".
Proof. reflexivity. Qed.

Example split_last_ex : split_last 47%N (u "https://h/b/flower_1.jpg") = u "flower_1.jpg".
Proof. reflexivity. Qed.

Example split_last_none : split_last 47%N (u "flower.jpg") = u "flower.jpg".
Proof. reflexivity. Qed.

Example split_last_end : split_last 47%N (u "a/b/") = u "".
Proof. reflexivity. Qed.

Example pdf_price_50000 : pdf_price (VInt 50000) = Ok (u "50.000").
Proof. reflexivity. Qed.

Example pdf_price_1234567 : pdf_price (VInt 1234567) = Ok (u "1.234.567").
Proof. reflexivity. Qed.

Example pdf_price_999 : pdf_price (VInt 999) = Ok (u "999").
Proof. reflexivity. Qed.

Example pdf_price_neg : pdf_price (VInt (-1000)) = Ok (u "-1.000").
Proof. reflexivity. Qed.

Example column_G : get_column_letter 7 = "G"%string.
Proof. reflexivity. Qed.

Example column_AB : get_column_letter 28 = "AB"%string.
Proof. reflexivity. Qed.

(* ===================================================================== *)
(** ** Properties of the image normaliser *)
(* ===================================================================== *)

Lemma Qfloor_make n d : Qfloor (n # d) = n / Zpos d.
Proof. reflexivity. Qed.

Lemma Qceiling_make n d : Qceiling (n # d) = - ((- n) / Zpos d).
Proof. reflexivity. Qed.

(** [round_aspect] returns a whole number of pixels, at least one, less
    than one pixel away from the exact quotient. *)
Lemma round_aspect_make n d key :
  0 < n ->
  let r := PIL.round_aspect (n # d) key in
  1 <= r /\ (r - 1) * Zpos d < n < (r + 1) * Zpos d /\
  (r - 1) * Zpos d < Z.max n (Zpos d).
Proof.
  intros Hn r. subst r. unfold PIL.round_aspect.
  rewrite Qfloor_make, Qceiling_make.
  pose proof (Z.div_mod n (Zpos d) ltac:(lia)) as E1.
  pose proof (Z.mod_pos_bound n (Zpos d) ltac:(lia)) as B1.
  pose proof (Z.div_mod (- n) (Zpos d) ltac:(lia)) as E2.
  pose proof (Z.mod_pos_bound (- n) (Zpos d) ltac:(lia)) as B2.
  destruct (Qle_bool _ _); nia.
Qed.

(** *** Double precision

    What the proofs below need of [Float.double]: it is the nearest
    number of 53 places, so its relative error is at most 2^-53; it
    takes equal rationals to the same number; it is 0 only at 0. *)

Lemma inject_Z_pos z : 0 < z -> (0 < inject_Z z)%Q.
Proof. intros H. unfold Qlt. simpl. lia. Qed.

Lemma inject_Z_nonzero z : 0 < z -> ~ (inject_Z z == 0)%Q.
Proof. intros H E. unfold Qeq in E. simpl in E. lia. Qed.

Lemma inject_Z_succ k : (inject_Z (k + 1) == inject_Z k + 1)%Q.
Proof. rewrite inject_Z_plus. reflexivity. Qed.

Lemma inject_Z_pred k : (inject_Z (k - 1) == inject_Z k - 1)%Q.
Proof. unfold Z.sub. rewrite inject_Z_plus, inject_Z_opp. reflexivity. Qed.

Lemma pow2_pos e : (0 < Float.pow2 e)%Q.
Proof. unfold Float.pow2. apply Qpower_0_lt. reflexivity. Qed.

Lemma pow2_plus a b : (Float.pow2 (a + b) == Float.pow2 a * Float.pow2 b)%Q.
Proof. unfold Float.pow2. apply Qpower_plus. discriminate. Qed.

Lemma pow2_succ e : (Float.pow2 (e + 1) == 2 * Float.pow2 e)%Q.
Proof. rewrite pow2_plus. change (Float.pow2 1) with 2%Q. ring. Qed.

Lemma pow2_inject (n : Z) : 0 <= n -> (Float.pow2 n == inject_Z (2 ^ n))%Q.
Proof. intros H. unfold Float.pow2. rewrite Zpower_Qpower by exact H. reflexivity. Qed.

(** [Float.binade] is the binade. *)
Lemma binade_spec q :
  (0 < q)%Q ->
  (Float.pow2 (Float.binade q) <= q /\ q < Float.pow2 (Float.binade q + 1))%Q.
Proof.
  intros Hq. destruct q as [n d]. unfold Float.binade. cbn [Qnum Qden].
  assert (Hn : 0 < n) by (unfold Qlt in Hq; simpl in Hq; lia).
  pose proof (Z.log2_spec n Hn) as [L1 L2].
  pose proof (Z.log2_spec (Zpos d) ltac:(lia)) as [D1 D2].
  pose proof (Z.log2_nonneg n) as Ln. pose proof (Z.log2_nonneg (Zpos d)) as Ld.
  set (ln := Z.log2 n) in *. set (ld := Z.log2 (Zpos d)) in *.
  assert (E0 : (Float.pow2 (ln - ld) == inject_Z (2 ^ ln) / inject_Z (2 ^ ld))%Q).
  { unfold Float.pow2. rewrite Qpower_minus by discriminate.
    rewrite !Zpower_Qpower by assumption. reflexivity. }
  assert (A : 0 < 2 ^ ln) by (apply Z.pow_pos_nonneg; lia).
  assert (B : 0 < 2 ^ ld) by (apply Z.pow_pos_nonneg; lia).
  rewrite Z.pow_succ_r in L2, D2 by assumption.
  assert (Q1 : (n # d == inject_Z n / inject_Z (Zpos d))%Q) by apply Qmake_Qdiv.
  assert (Up : (n # d < 2 * Float.pow2 (ln - ld))%Q).
  { rewrite E0, Q1.
    apply Qlt_shift_div_r; [apply inject_Z_pos; lia|].
    setoid_replace (2 * (inject_Z (2 ^ ln) / inject_Z (2 ^ ld)) * inject_Z (Z.pos d))%Q
      with (inject_Z (2 * 2 ^ ln * Zpos d) / inject_Z (2 ^ ld))%Q
      using relation Qeq by (rewrite !inject_Z_mult; field; try split; apply inject_Z_nonzero; lia).
    apply Qlt_shift_div_l; [apply inject_Z_pos; lia|].
    rewrite <- inject_Z_mult, <- Zlt_Qlt. nia. }
  assert (Lo : (Float.pow2 (ln - ld) < 2 * (n # d))%Q).
  { rewrite E0, Q1.
    apply Qlt_shift_div_r; [apply inject_Z_pos; lia|].
    setoid_replace (2 * (inject_Z n / inject_Z (Z.pos d)) * inject_Z (2 ^ ld))%Q
      with (inject_Z (2 * n * 2 ^ ld) / inject_Z (Zpos d))%Q
      using relation Qeq by (rewrite !inject_Z_mult; field; try split; apply inject_Z_nonzero; lia).
    apply Qlt_shift_div_l; [apply inject_Z_pos; lia|].
    rewrite <- inject_Z_mult, <- Zlt_Qlt. nia. }
  destruct (Qle_bool _ _) eqn:T.
  - apply Qle_bool_iff in T. split; [exact T|]. rewrite pow2_succ. exact Up.
  - assert (T' : ~ (Float.pow2 (ln - ld) <= n # d)%Q)
      by (intros H; apply Qle_bool_iff in H; congruence).
    apply Qnot_le_lt in T'.
    replace (ln - ld - 1 + 1) with (ln - ld) by lia.
    split; [|exact T'].
    assert (S : (Float.pow2 (ln - ld) == 2 * Float.pow2 (ln - ld - 1))%Q).
    { rewrite <- pow2_succ. replace (ln - ld - 1 + 1) with (ln - ld) by lia. reflexivity. }
    rewrite S in Lo. lra.
Qed.

Lemma round_half_even_error x :
  (Qabs (inject_Z (Float.round_half_even x) - x) <= 1 # 2)%Q.
Proof.
  unfold Float.round_half_even.
  pose proof (Qfloor_le x) as F1. pose proof (Qlt_floor x) as F2.
  rewrite inject_Z_succ in F2.
  set (f := Qfloor x) in *.
  apply Qabs_Qle_condition.
  destruct (Qcompare (x - inject_Z f) (1 # 2)) eqn:C.
  - apply Qeq_alt in C. destruct (Z.even f); rewrite ?inject_Z_succ; lra.
  - apply Qlt_alt in C. lra.
  - apply Qgt_alt in C. rewrite inject_Z_succ. lra.
Qed.

(** The mantissa of [Float.nearest] has 53 places: it lies between 2^52
    and 2^53. *)
Lemma nearest_mantissa q :
  (0 < q)%Q ->
  let m := Float.round_half_even (q / Float.pow2 (Float.binade q - 52)) in
  2 ^ 52 <= m <= 2 ^ 53
  /\ (Float.nearest q == inject_Z m * Float.pow2 (Float.binade q - 52))%Q.
Proof.
  intros Hq m. split; [|unfold Float.nearest; apply Qred_correct].
  pose proof (binade_spec q Hq) as [B1 B2].
  set (e := Float.binade q) in *.
  pose proof (pow2_pos (e - 52)) as Hu.
  assert (E : (Float.pow2 e == Float.pow2 (e - 52) * inject_Z (2 ^ 52))%Q).
  { rewrite <- (pow2_inject 52) by lia. rewrite <- pow2_plus.
    replace (e - 52 + 52) with e by lia. reflexivity. }
  rewrite pow2_succ, E in B2. rewrite E in B1.
  set (ulp := Float.pow2 (e - 52)) in *.
  assert (X : (q / ulp * ulp == q)%Q) by (field; lra).
  assert (X1 : (inject_Z (2 ^ 52) <= q / ulp)%Q).
  { apply Qle_shift_div_l; [exact Hu|]. lra. }
  assert (X2 : (q / ulp < inject_Z (2 ^ 53))%Q).
  { apply Qlt_shift_div_r; [exact Hu|].
    change (inject_Z (2 ^ 53)) with (2 * inject_Z (2 ^ 52))%Q. lra. }
  pose proof (round_half_even_error (q / ulp)) as R. fold m in R.
  apply Qabs_Qle_condition in R.
  assert (Y1 : (inject_Z (2 ^ 52 - 1) < inject_Z m)%Q).
  { rewrite inject_Z_pred. lra. }
  assert (Y2 : (inject_Z m < inject_Z (2 ^ 53 + 1))%Q).
  { rewrite inject_Z_succ. lra. }
  rewrite <- Zlt_Qlt in Y1, Y2. lia.
Qed.














Lemma paste_raw_same_length (out inp : list PIL.pixel) :
  length out = length inp -> PIL.paste_raw out inp = inp.
Proof.
  revert inp. induction out as [|o out IH]; intros [|i inp] E; simpl in *;
    try discriminate; [reflexivity|].
  f_equal. apply IH. lia.
Qed.

(** [DIV255] divides by 255 and rounds to the nearest integer, over the
    whole range a blend of two bytes produces. *)
Lemma holds_from_spec f n :
  forall x, holds_from f x n = true ->
  forall y, x <= y < x + Z.of_nat n -> f y = true.
Proof.
  induction n as [|k IH]; intros x H y Hy; [lia|].
  simpl in H. apply andb_true_iff in H as [H1 H2].
  destruct (Z.eq_dec y x) as [->|]; [assumption|].
  apply (IH (x + 1)); [assumption|lia].
Qed.

Lemma DIV255_nearest x : 0 <= x <= 65025 -> PIL.DIV255 x = (2 * x + 255) / 510.
Proof.
  intros Hx.
  assert (T : holds_from (fun n => PIL.DIV255 n =? (2 * n + 255) / 510) 0
                         (Z.to_nat 65026) = true) by (vm_compute; reflexivity).
  pose proof (holds_from_spec _ _ _ T x) as H.
  rewrite Z2Nat.id in H by lia.
  apply Z.eqb_eq, H. lia.
Qed.

Lemma BLEND8_white c a :
  0 <= c <= 255 -> 0 <= a <= 255 -> PIL.BLEND8 a 255 c = over_white c a.
Proof.
  intros Hc Ha. unfold PIL.BLEND8, over_white.
  rewrite DIV255_nearest by nia. f_equal. lia.
Qed.

Lemma over_white_opaque c : over_white c 255 = c.
Proof.
  unfold over_white.
  replace (2 * (c * 255 + 255 * (255 - 255)) + 255) with (c * 510 + 255) by lia.
  rewrite Z.div_add_l by lia. change (255 / 510) with 0. lia.
Qed.

Lemma over_white_clear c : over_white c 0 = 255.
Proof. unfold over_white. rewrite Z.mul_0_r. reflexivity. Qed.

Lemma paste_white_alpha (px : list PIL.pixel) :
  Forall byte_pixel px ->
  map PIL.rgb
      (PIL.paste_mask_L (repeat (255, 255, 255, 255) (length px)) px
         (map (fun p : PIL.pixel => let '(_, _, _, a) := p in (a, 0, 0, 0)) px))
  = map over_white_pixel px.
Proof.
  induction 1 as [|[[[r g] b] a] px (Hr & Hg & Hb & Ha) _ IH]; simpl; [reflexivity|].
  rewrite IH. rewrite !BLEND8_white by assumption. reflexivity.
Qed.

Section Normaliser.

Variable decode : bytes -> result PIL.image.
Variable resample_LANCZOS : PIL.image -> Z * Z -> list PIL.pixel.
Variable jpeg_encode : PIL.image -> Z -> bytes.

Lemma flatten_size img : PIL.size (flatten img) = PIL.size img.
Proof.
  unfold flatten. case_bool_decide; [|reflexivity].
  destruct (decide (PIL.mode img = PIL.M_P)); simpl;
    repeat case_decide; reflexivity.
Qed.

Lemma flatten_mode img :
  PIL.mode (flatten img)
  = if bool_decide (PIL.mode img ∈ [PIL.M_RGBA; PIL.M_LA; PIL.M_P])
    then PIL.M_RGB else PIL.mode img.
Proof.
  unfold flatten. case_bool_decide; [|reflexivity].
  destruct (decide (PIL.mode img = PIL.M_P)); simpl;
    repeat case_decide; reflexivity.
Qed.



(** Flattening an [RGBA] image composites every pixel over white. *)
Lemma flatten_RGBA img :
  PIL.valid img -> PIL.mode img = PIL.M_RGBA -> Forall byte_pixel (PIL.data img) ->
  map PIL.rgb (PIL.data (flatten img)) = map over_white_pixel (PIL.data img).
Proof.
  destruct img as [m [w h] px pal]. unfold PIL.valid, PIL.width, PIL.height. simpl.
  intros (_ & _ & Hlen) -> Hpx.
  change (flatten (PIL.Image PIL.M_RGBA (w, h) px pal))
    with (PIL.paste (PIL.new PIL.M_RGB (w, h) (255, 255, 255))
                    (PIL.Image PIL.M_RGBA (w, h) px pal)
                    (Some (PIL.alpha_band (PIL.Image PIL.M_RGBA (w, h) px pal)))).
  simpl. rewrite <- Hlen, Nat2Z.id. apply paste_white_alpha, Hpx.
Qed.

(** Flattening a [P] image composites every palette entry over white. *)
Lemma flatten_P img :
  PIL.valid img -> PIL.mode img = PIL.M_P ->
  Forall byte_pixel (PIL.data (PIL.convert_P_RGBA img)) ->
  map PIL.rgb (PIL.data (flatten img))
  = map over_white_pixel (PIL.data (PIL.convert_P_RGBA img)).
Proof.
  destruct img as [m [w h] px pal]. unfold PIL.valid, PIL.width, PIL.height. simpl.
  intros (_ & _ & Hlen) -> Hpx.
  change (flatten (PIL.Image PIL.M_P (w, h) px pal))
    with (PIL.paste (PIL.new PIL.M_RGB (w, h) (255, 255, 255))
                    (PIL.convert_P_RGBA (PIL.Image PIL.M_P (w, h) px pal))
                    (Some (PIL.alpha_band
                             (PIL.convert_P_RGBA (PIL.Image PIL.M_P (w, h) px pal))))).
  simpl. rewrite <- Hlen, Nat2Z.id.
  rewrite <- (length_map (fun p : PIL.pixel => let '(i, _, _, _) := p in
                            nth (Z.to_nat i) pal (0, 0, 0, 255)) px).
  apply paste_white_alpha, Hpx.
Qed.

(** Flattening an [LA] image copies the stored grey values: the alpha of
    the image takes no part. *)
Lemma flatten_LA img :
  PIL.valid img -> PIL.mode img = PIL.M_LA ->
  PIL.data (flatten img) = PIL.data img.
Proof.
  destruct img as [m [w h] px pal]. unfold PIL.valid, PIL.width, PIL.height. simpl.
  intros (_ & _ & Hlen) ->.
  change (flatten (PIL.Image PIL.M_LA (w, h) px pal))
    with (PIL.paste (PIL.new PIL.M_RGB (w, h) (255, 255, 255))
                    (PIL.Image PIL.M_LA (w, h) px pal) None).
  simpl. apply paste_raw_same_length.
  rewrite repeat_length, <- Hlen, Nat2Z.id. reflexivity.
Qed.




End Normaliser.


(** The 2400 by 1 banner comes out 1200 by 1. *)
Example normalized_banner :
  PIL.size (normalized Sample.resample Sample.banner) = (1200, 1).
Proof. vm_compute. reflexivity. Qed.

(** The floats nearest to 1/10, to 1/3 and to 1649/1133. *)
Example double_tenth :
  Float.double (1 # 10) = (3602879701896397 # 36028797018963968)%Q.
Proof. vm_compute. reflexivity. Qed.

Example double_third :
  Float.double (1 # 3) = (6004799503160661 # 18014398509481984)%Q.
Proof. vm_compute. reflexivity. Qed.

Example double_aspect :
  Float.div 1649 1133 = (3277332650279765 # 2251799813685248)%Q.
Proof. vm_compute. reflexivity. Qed.

(** Sizes at which floor and ceiling are equally near in exact
    arithmetic: the keys, computed in double precision, decide for the
    ceiling. *)
Example thumbnail_sizes_double :
  map (fun sz => PIL.preserve_aspect_ratio (1200, 1200) (PIL.Image PIL.M_RGB sz [] []))
      [(1649, 1133); (14, 1600); (19, 2400); (21, 1440); (2400, 1); (1300, 1000)]
  = [Some (1200, 825); Some (11, 1200); Some (10, 1200); Some (18, 1200);
     Some (1200, 1); Some (1200, 923)].
Proof. vm_compute. reflexivity. Qed.


(** C4 at a failing input: the one pixel of [Sample.smoke], black at
    alpha 128, comes out black, where its composite over white is the
    grey 127 that the same pixel of an [RGBA] image comes out as. *)
Theorem flatten_LA_alpha_lost :
  PIL.valid Sample.smoke
  /\ PIL.mode (flatten Sample.smoke) = PIL.M_RGB
  /\ map PIL.rgb (PIL.data (flatten Sample.smoke)) = [(0, 0, 0)]
  /\ map over_white_pixel (PIL.data Sample.smoke) = [(127, 127, 127)]
  /\ map PIL.rgb (PIL.data (flatten Sample.smoke_rgba)) = [(127, 127, 127)].
Proof. repeat split; vm_compute; reflexivity. Qed.

(* ===================================================================== *)
(** ** Properties of the endpoints *)
(* ===================================================================== *)

Arguments u : simpl never.
Arguments str_int : simpl never.
Arguments strip : simpl never.

Ltac run :=
  unfold mbind, M_bind, bindM, mret, M_ret, ret, raise, lift, read, try_except.

Lemma db_connected_ok w : supabase w = true -> db_connected w = (Ok tt, w).
Proof. intros H. unfold db_connected. run. rewrite H. reflexivity. Qed.

Lemma try_keep_http_world {A} (m : M A) w : (try_except m keep_http w).2 = (m w).2.
Proof.
  unfold try_except. destruct (m w) as [[a|e] w']; [reflexivity|].
  destruct e; reflexivity.
Qed.

Lemma try_keep_http_result {A} (m : M A) w s d :
  (m w).1 = Raise (HTTPException s d) ->
  (try_except m keep_http w).1 = Raise (HTTPException s d).
Proof.
  unfold try_except. destruct (m w) as [[a|e] w']; simpl; intros E; [discriminate|].
  injection E as ->. reflexivity.
Qed.

Lemma lookup_insert_if (b : bool) (k0 : string) (v : value) (d : dict) (k : string) :
  (if b then <[k0 := v]> d else d) !! k
  = if decide (k = k0) then (if b then Some v else d !! k) else d !! k.
Proof. destruct b; case_decide; subst; simplify_map_eq; reflexivity. Qed.

Lemma lookup_insert_opt {A} (o : option A) (g : A -> value) (k0 : string)
                        (d : dict) (k : string) :
  (match o with Some x => <[k0 := g x]> d | None => d end) !! k
  = if decide (k = k0) then (match o with Some x => Some (g x) | None => d !! k end)
    else d !! k.
Proof. destruct o; case_decide; subst; simplify_map_eq; reflexivity. Qed.

Lemma effective_str_truthy o :
  (if truthy (of_str o) then Some (of_str o) else None) = effective_str o.
Proof. destruct o as [[|c s]|]; reflexivity. Qed.

Lemma effective_int_truthy o :
  (if truthy (of_int o) then Some (of_int o) else None) = effective_int o.
Proof. destruct o as [n|]; [|reflexivity]. simpl. destruct (n =? 0); reflexivity. Qed.

(** The entries of the dict built from the form fields. *)
Lemma update_fields_lookup name price type unit stock tags k :
  update_fields name price type unit stock tags !! k
  = if decide (k = "name") then effective_str name
    else if decide (k = "price") then effective_int price
    else if decide (k = "type") then effective_str type
    else if decide (k = "unit") then effective_str unit
    else if decide (k = "stock") then VInt <$> stock
    else if decide (k = "tags") then VStr <$> tags
    else None.
Proof.
  unfold update_fields. cbv zeta.
  rewrite !lookup_insert_opt, !lookup_insert_if, lookup_empty.
  rewrite <- !effective_str_truthy, <- effective_int_truthy.
  repeat case_decide; subst; try congruence;
    repeat match goal with |- context [truthy ?v] => destruct (truthy v) end;
    try reflexivity; try (destruct tags; reflexivity); try (destruct stock; reflexivity).
Qed.

Lemma union_merged name price type unit stock tags r k :
  (update_fields name price type unit stock tags ∪ r) !! k
  = merged name price type unit stock tags None r k.
Proof.
  rewrite lookup_union, update_fields_lookup. unfold merged.
  repeat case_decide; subst;
    repeat match goal with |- context [effective_str ?o] => destruct (effective_str o) end;
    repeat match goal with |- context [effective_int ?o] => destruct (effective_int o) end;
    try destruct stock; try destruct tags; simpl;
    destruct (r !! _); reflexivity.
Qed.

Lemma union_merged_image name price type unit stock tags url r k :
  (<["image_url" := VStr url]> (update_fields name price type unit stock tags) ∪ r) !! k
  = merged name price type unit stock tags (Some url) r k.
Proof.
  rewrite lookup_union, lookup_insert, update_fields_lookup. unfold merged.
  repeat case_decide; subst; try congruence;
    repeat match goal with |- context [effective_str ?o] => destruct (effective_str o) end;
    repeat match goal with |- context [effective_int ?o] => destruct (effective_int o) end;
    try destruct stock; try destruct tags; simpl;
    destruct (r !! _); reflexivity.
Qed.

Lemma filter_has_id_absent fid (l : list dict) :
  Forall (fun r => has_id fid r = false) l -> List.filter (has_id fid) l = [].
Proof.
  induction 1 as [|r l Hr _ IH]; simpl; [reflexivity|]. rewrite Hr. exact IH.
Qed.

Lemma map_has_id_absent fid (data : dict) (l : list dict) :
  Forall (fun r => has_id fid r = false) l ->
  map (fun r => if has_id fid r then data ∪ r else r) l = l.
Proof.
  induction 1 as [|r l Hr _ IH]; simpl; [reflexivity|]. rewrite Hr, IH. reflexivity.
Qed.

Lemma range_subseteq {A} lo hi (l : list A) : range lo hi l ⊆ l.
Proof.
  unfold range. etransitivity; [apply subseteq_take|apply subseteq_drop].
Qed.

Lemma range_all {A} (limit : Z) (l : list A) :
  Z.of_nat (length l) <= limit -> range 0 (0 + limit - 1) l = l.
Proof. intros H. unfold range. simpl. apply firstn_all2. lia. Qed.

Lemma sum_prices_total flowers : forall acc,
  Forall (fun f => is_int (f !! "price") = true) flowers ->
  exists total, sum_prices acc flowers = Ok total.
Proof.
  induction flowers as [|f l IH]; intros acc H; simpl; [eauto|].
  inversion H as [|? ? H1 H2]; subst. unfold getitem.
  destruct (f !! "price") as [[|x|s]|]; try discriminate. simpl. apply IH, H2.
Qed.

Lemma low_stock_default f :
  is_int (f !! "stock") || bool_decide (f !! "stock" = None) = true ->
  low_stock f = Ok (stock_default_le_10 f).
Proof.
  unfold low_stock, get, stock_default_le_10.
  destruct (f !! "stock") as [[|x|s]|]; simpl; try discriminate; reflexivity.
Qed.

Lemma count_low_stock_acc flowers : forall acc,
  Forall (fun f => is_int (f !! "stock") || bool_decide (f !! "stock" = None) = true)
         flowers ->
  count_low_stock acc flowers
  = Ok (acc + Z.of_nat (length (List.filter stock_default_le_10 flowers))).
Proof.
  induction flowers as [|f l IH]; intros acc H; simpl.
  - f_equal. lia.
  - inversion H as [|? ? H1 H2]; subst.
    rewrite (low_stock_default f H1). simpl.
    destruct (stock_default_le_10 f); rewrite IH by assumption; f_equal; simpl length; lia.
Qed.

Section Endpoints.

Variable ilike : pystr -> pystr -> bool.
Variable decode : bytes -> result PIL.image.
Variable resample_LANCZOS : PIL.image -> Z * Z -> list PIL.pixel.
Variable jpeg_encode : PIL.image -> Z -> bytes.
Variable uuid4_hex : nat -> pystr.
Variable get_public_url : pystr -> pystr.

Local Abbreviation resize := (resize_image decode resample_LANCZOS jpeg_encode).
Local Abbreviation upload :=
  (upload_image_to_supabase decode resample_LANCZOS jpeg_encode uuid4_hex get_public_url).
Local Abbreviation update_flower' :=
  (update_flower ilike decode resample_LANCZOS jpeg_encode uuid4_hex get_public_url).
Local Abbreviation create_flower' :=
  (create_flower decode resample_LANCZOS jpeg_encode uuid4_hex get_public_url).

(** *** The upload helper, case by case *)

Lemma upload_not_connected f nm w :
  supabase w = false -> upload f nm w = (Ok VNone, w).
Proof.
  intros Hs. unfold upload_image_to_supabase. run. rewrite Hs. reflexivity.
Qed.

Lemma upload_resize_fails f nm w e :
  supabase w = true -> resize (file_read f) = Raise e -> upload f nm w = (Ok VNone, w).
Proof.
  intros Hs Hr. unfold upload_image_to_supabase. run. rewrite Hs, Hr. reflexivity.
Qed.

Lemma upload_storage_fails f nm w b :
  supabase w = true -> resize (file_read f) = Ok b -> storage_ok w = false ->
  upload f nm w
  = (Ok VNone, World (supabase w) (tables w) (bucket w) (storage_ok w) (serial w)
                     (S (entropy w)) (now w)
                     (calls w ++ [StorageUpload (upload_key uuid4_hex w) b])).
Proof.
  destruct w as [sb tb bk ok ser ent nw cl]. simpl. intros -> Hr ->.
  unfold upload_image_to_supabase. run. simpl. rewrite Hr. reflexivity.
Qed.

Lemma upload_succeeds f nm w b :
  supabase w = true -> resize (file_read f) = Ok b -> storage_ok w = true ->
  upload f nm w
  = (Ok (VStr (strip (get_public_url (upload_key uuid4_hex w)))),
     World (supabase w) (tables w) (<[upload_key uuid4_hex w := b]> (bucket w))
           (storage_ok w) (serial w) (S (entropy w)) (now w)
           (calls w ++ [StorageUpload (upload_key uuid4_hex w) b])).
Proof.
  destruct w as [sb tb bk ok ser ent nw cl]. simpl. intros -> Hr ->.
  unfold upload_image_to_supabase. run. simpl. rewrite Hr. reflexivity.
Qed.

(** Whatever happens, the helper returns, leaves the catalog alone and
    makes at most one call, an upload. *)
Lemma upload_frame f nm w :
  exists v w', upload f nm w = (Ok v, w')
    /\ supabase w' = supabase w /\ tables w' = tables w /\ serial w' = serial w
    /\ now w' = now w
    /\ (v = VNone \/ exists url, v = VStr url)
    /\ (calls w' = calls w \/ exists k b, calls w' = calls w ++ [StorageUpload k b]).
Proof.
  destruct (supabase w) eqn:Hs.
  - destruct (resize (file_read f)) as [b|e] eqn:Hr.
    + destruct (storage_ok w) eqn:Ho.
      * rewrite (upload_succeeds f nm w b Hs Hr Ho). do 2 eexists.
        split; [reflexivity|]. simpl. repeat split; eauto.
      * rewrite (upload_storage_fails f nm w b Hs Hr Ho). do 2 eexists.
        split; [reflexivity|]. simpl. repeat split; eauto.
    + rewrite (upload_resize_fails f nm w e Hs Hr). do 2 eexists.
      split; [reflexivity|]. repeat split; eauto.
  - rewrite (upload_not_connected f nm w Hs). do 2 eexists.
    split; [reflexivity|]. repeat split; eauto.
Qed.

(** *** The store *)

(** What the store holds after [update]. *)
Lemma update_rows values id w :
  let '(res, w') := update ilike "flowers" values id w in
  res = Ok (map (fun r => values ∪ r) (List.filter (has_id id) (rows w "flowers")))
  /\ rows w' "flowers"
     = map (fun r => if has_id id r then values ∪ r else r) (rows w "flowers")
  /\ supabase w' = supabase w /\ bucket w' = bucket w
  /\ calls w' = calls w ++ [TableUpdate "flowers" values id].
Proof.
  destruct w as [sb tb bk ok ser ent nw cl].
  unfold update, record, set_tables. run. simpl.
  repeat split. unfold rows at 1. simpl. rewrite lookup_insert_eq. reflexivity.
Qed.

Lemma send_update_rows data fid w :
  rows (send_update ilike data fid w).2 "flowers"
  = map (fun r => if has_id fid r then data ∪ r else r) (rows w "flowers").
Proof.
  unfold send_update. run. case_bool_decide as He.
  - subst data. simpl. symmetry. erewrite map_ext; [apply map_id|].
    intros r. simpl. rewrite (left_id_L ∅ (∪)). destruct (has_id fid r); reflexivity.
  - pose proof (update_rows data fid w) as U.
    destruct (update ilike "flowers" data fid w) as [res w2].
    destruct U as (-> & U & _).
    destruct (List.filter (has_id fid) (rows w "flowers")); simpl; exact U.
Qed.

Lemma send_update_result data fid w :
  data <> ∅ ->
  (send_update ilike data fid w).1
  = match List.filter (has_id fid) (rows w "flowers") with
    | [] => Raise (HTTPException 404 (Msg "Flower not found"))
    | r :: _ => Ok {| message := "Updated"; flower := data ∪ r |}
    end.
Proof.
  intros Hd. unfold send_update. run. rewrite bool_decide_eq_false_2 by assumption.
  pose proof (update_rows data fid w) as U.
  destruct (update ilike "flowers" data fid w) as [res w2].
  destruct U as (-> & _).
  destruct (List.filter (has_id fid) (rows w "flowers")); reflexivity.
Qed.

(** [update_flower] without an image to upload. *)
Lemma update_flower_fields fid name price type unit stock tags image w :
  supabase w = true -> has_image image = false ->
  update_flower' fid name price type unit stock tags image w
  = try_except (send_update ilike (update_fields name price type unit stock tags) fid)
               keep_http w.
Proof.
  intros Hs Hi. unfold update_flower. run. rewrite (db_connected_ok w Hs).
  destruct image as [f|]; simpl in Hi; [rewrite Hi|]; reflexivity.
Qed.

(** [update_flower] with an image to upload. *)
Lemma update_flower_image fid name price type unit stock tags f w v w1 :
  supabase w = true -> truthy (filename f) = true ->
  upload f (py_or (of_str name) (VStr (u "flower"))) w = (Ok v, w1) ->
  update_flower' fid name price type unit stock tags (Some f) w
  = try_except
      (send_update ilike
         (if truthy v
          then <["image_url" := v]> (update_fields name price type unit stock tags)
          else update_fields name price type unit stock tags) fid)
      keep_http w1.
Proof.
  intros Hs Hf Hu. unfold update_flower. run.
  rewrite (db_connected_ok w Hs), Hf, Hu. reflexivity.
Qed.

Lemma filter_not_id_absent fid (l : list dict) :
  Forall (fun r => has_id fid r = false) l ->
  List.filter (fun r => negb (matches ilike r (Eq "id" fid))) l = l.
Proof.
  induction 1 as [|r l Hr _ IH]; simpl; [reflexivity|].
  fold (has_id fid r). rewrite Hr. simpl. f_equal. exact IH.
Qed.

Lemma filter_query_id_absent fid (l : list dict) :
  Forall (fun r => has_id fid r = false) l ->
  List.filter (matches_all ilike [Eq "id" fid]) l = [].
Proof.
  induction 1 as [|r l Hr _ IH]; simpl; [reflexivity|].
  fold (has_id fid r). rewrite Hr. simpl. exact IH.
Qed.

Lemma delete_absent fid w :
  supabase w = true ->
  Forall (fun r => has_id fid r = false) (rows w "flowers") ->
  exists w', delete_flower ilike fid w = (Ok "Deleted"%string, w')
    /\ rows w' "flowers" = rows w "flowers" /\ bucket w' = bucket w
    /\ calls w' = calls w ++ [TableSelect "flowers"; TableDelete "flowers" fid].
Proof.
  intros Hs Habs. unfold delete_flower. run. rewrite (db_connected_ok w Hs).
  destruct w as [sb tb bk ok ser ent nw cl]. unfold rows in Habs. simpl in *.
  unfold execute, record, delete_eq_id, set_tables. run. simpl.
  unfold run_query, rows. simpl.
  rewrite (filter_query_id_absent fid _ Habs). simpl.
  eexists. split; [reflexivity|]. simpl. repeat split.
  - rewrite lookup_insert_eq. simpl. apply filter_not_id_absent, Habs.
  - rewrite <- app_assoc. reflexivity.
Qed.

(** *** The list endpoint *)

Lemma list_query_table search type tags low skip limit :
  q_table (list_query search type tags low skip limit) = "flowers"%string.
Proof.
  unfold list_query. cbv zeta.
  destruct (truthy (of_str search)), (type_filter type), (truthy (of_str tags)), low;
    reflexivity.
Qed.

Lemma list_query_shape search type tags skip limit :
  list_query search type tags true skip limit
  = Query "flowers" None
          (q_filters (list_query search type tags false skip limit) ++ [Lte "stock" 10])
          true (Some (skip, skip + limit - 1)).
Proof.
  unfold list_query. cbv zeta.
  destruct (truthy (of_str search)), (type_filter type), (truthy (of_str tags));
    reflexivity.
Qed.

Lemma get_flowers_run search type tags low skip limit w :
  supabase w = true ->
  exists w',
    get_flowers ilike search type tags low skip limit w
    = (Ok {| flowers := run_query ilike (list_query search type tags low skip limit) w;
             count := Z.of_nat (length (run_query ilike
                                          (list_query search type tags low skip limit) w)) |},
       w')
    /\ tables w' = tables w /\ calls w' = calls w ++ [TableSelect "flowers"].
Proof.
  intros Hs. unfold get_flowers. run. rewrite (db_connected_ok w Hs).
  destruct w as [sb tb bk ok ser ent nw cl].
  unfold execute. rewrite list_query_table.
  unfold record. run. eexists. split; [reflexivity|]. split; reflexivity.
Qed.

Lemma matches_all_app fs gs r :
  matches_all ilike (fs ++ gs) r = matches_all ilike fs r && matches_all ilike gs r.
Proof. unfold matches_all. apply forallb_app. Qed.

Lemma run_query_elem t fs o rg w r :
  r ∈ run_query ilike (Query t None fs o rg) w ->
  r ∈ rows w t /\ matches_all ilike fs r = true.
Proof.
  unfold run_query. simpl. rewrite map_id.
  intros H.
  assert (H1 : r ∈ (if o then merge_sort created_desc
                                (List.filter (matches_all ilike fs) (rows w t))
                    else List.filter (matches_all ilike fs) (rows w t))).
  { destruct rg as [[lo hi]|]; [eapply range_subseteq|]; exact H. }
  assert (H2 : r ∈ List.filter (matches_all ilike fs) (rows w t)).
  { destruct o; [|exact H1]. rewrite merge_sort_Permutation in H1. exact H1. }
  apply list_elem_of_In, filter_In in H2 as [H2 H3].
  split; [apply list_elem_of_In, H2|exact H3].
Qed.

Lemma run_query_all t fs w r limit :
  Z.of_nat (length (rows w t)) <= limit ->
  r ∈ run_query ilike (Query t None fs true (Some (0, 0 + limit - 1))) w
  <-> r ∈ rows w t /\ matches_all ilike fs r = true.
Proof.
  intros Hl. unfold run_query. simpl. rewrite map_id.
  rewrite range_all.
  - rewrite merge_sort_Permutation, list_elem_of_In, filter_In, list_elem_of_In.
    reflexivity.
  - rewrite merge_sort_Permutation.
    pose proof (filter_length_le (matches_all ilike fs) (rows w t)). lia.
Qed.

Lemma run_query_select_all t w : run_query ilike (select t None) w = rows w t.
Proof.
  unfold run_query, select. simpl. rewrite map_id.
  induction (rows w t) as [|r l IH]; simpl; [reflexivity|]. rewrite IH. reflexivity.
Qed.

Lemma get_stats_run w total :
  supabase w = true ->
  sum_prices 0 (rows w "flowers") = Ok total ->
  Forall (fun f => is_int (f !! "stock") || bool_decide (f !! "stock" = None) = true)
         (rows w "flowers") ->
  exists w',
    get_stats ilike w
    = (Ok {| total_flowers := Z.of_nat (length (rows w "flowers"));
             total_types := Z.of_nat (length (rows w "flower_types"));
             total_value := total;
             low_stock_count :=
               Z.of_nat (length (List.filter stock_default_le_10 (rows w "flowers"))) |},
       w').
Proof.
  intros Hs Hsum Hstock. unfold get_stats, client. run. rewrite Hs.
  destruct w as [sb tb bk ok ser ent nw cl].
  unfold execute, record. run. rewrite !run_query_select_all.
  unfold rows in *. simpl in *.
  rewrite Hsum, (count_low_stock_acc _ 0 Hstock). simpl.
  eexists. reflexivity.
Qed.

(** *** The claims about the endpoints *)

(** C5.  An update request that carries no field and no image is rejected
    with the validation error (status 400, "No data to update"), and the
    world is left exactly as it was: no call to the catalog store (or to
    the object store) is made and nothing stored changes. *)
Theorem update_flower_empty_rejected (w : world) (flower_id : pystr)
                                     (image : option UploadFile) :
  supabase w = true -> has_image image = false ->
  update_flower' flower_id None None None None None None image w
  = (Raise (HTTPException 400 (Msg "No data to update")), w).
Proof.
  intros H Hi. unfold update_flower, send_update. run. rewrite (db_connected_ok w H).
  unfold has_image in Hi.
  destruct image as [f|]; [rewrite Hi|]; reflexivity.
Qed.

(** Without a client every update is refused before anything else
    happens. *)
Lemma update_flower_not_connected w fid name price type unit stock tags image :
  supabase w = false ->
  update_flower' fid name price type unit stock tags image w
  = (Raise (HTTPException 500 (Msg "DB not connected")), w).
Proof.
  intros H. unfold update_flower, db_connected. run. rewrite H. reflexivity.
Qed.

(** C10.  An update request with no form field and an image whose upload
    yields no URL is rejected with the validation error (status 400, "No
    data to update"); the catalog is not written, and the only call the
    request can have made is the upload to the object store. *)
Theorem update_flower_image_only_rejected (w w1 : world) (flower_id : pystr)
                                          (f : UploadFile) (v : value) :
  supabase w = true -> truthy (filename f) = true ->
  upload f (VStr (u "flower")) w = (Ok v, w1) -> truthy v = false ->
  update_flower' flower_id None None None None None None (Some f) w
  = (Raise (HTTPException 400 (Msg "No data to update")), w1)
  /\ tables w1 = tables w
  /\ forall c, c ∈ calls w1 -> c ∈ calls w \/ exists k b, c = StorageUpload k b.
Proof.
  intros H Hf Hu Hv. split.
  - unfold update_flower, send_update. run. rewrite (db_connected_ok w H), Hf.
    change (py_or (of_str None) (VStr (u "flower"))) with (VStr (u "flower")).
    rewrite Hu, Hv. reflexivity.
  - destruct (upload_frame f (VStr (u "flower")) w)
      as (v' & w' & E & _ & Ht & _ & _ & _ & Hc).
    rewrite Hu in E. injection E as -> ->. split; [exact Ht|].
    intros c Hin. destruct Hc as [Hc|(k & b & Hc)]; rewrite Hc in Hin; [auto|].
    apply elem_of_app in Hin as [?|Hin]; [auto|].
    apply list_elem_of_singleton in Hin. eauto.
Qed.

(** C9.  When the image of a create request cannot be normalised, or the
    object store refuses the upload, the request still succeeds: the
    record is inserted with a null [image_url] and returned, nothing is
    stored in the bucket; after a failed normalisation the only call made
    is the insert (no upload is attempted), after a refused upload the
    calls are that upload and the insert. *)
Theorem create_flower_image_failure (w : world) (name : pystr) (price : Z)
    (type unit : pystr) (stock : Z) (tags : pystr) (f : UploadFile) :
  supabase w = true -> truthy (filename f) = true ->
  (exists e, resize (file_read f) = Raise e) \/ storage_ok w = false ->
  let data := new_flower name price type unit stock tags in
  let r := stored data (serial w) in
  exists w',
    create_flower' name price type unit stock tags (Some f) w
    = (Ok {| message := "Flower created"; flower := r |}, w')
    /\ r !! "image_url" = Some VNone
    /\ rows w' "flowers" = rows w "flowers" ++ [r]
    /\ bucket w' = bucket w
    /\ ((exists e, resize (file_read f) = Raise e) ->
        calls w' = calls w ++ [TableInsert "flowers" data])
    /\ (forall b, resize (file_read f) = Ok b ->
        calls w' = calls w ++ [StorageUpload (upload_key uuid4_hex w) b;
                               TableInsert "flowers" data]).
Proof.
  intros Hs Hf Hfail data r.
  assert (Hr : r !! "image_url" = Some VNone) by reflexivity.
  unfold create_flower. run. rewrite (db_connected_ok w Hs), Hf.
  destruct (resize (file_read f)) as [b|e] eqn:Hres.
  - destruct Hfail as [[e He]|Ho]; [discriminate|].
    rewrite (upload_storage_fails f _ w b Hs Hres Ho).
    unfold insert, record, next_serial, set_tables, first_row. run. simpl.
    eexists. split; [reflexivity|]. simpl. repeat split; try assumption.
    + unfold rows. simpl. rewrite lookup_insert_eq. reflexivity.
    + intros [e He]. discriminate.
    + intros b' [= <-]. rewrite <- app_assoc. reflexivity.
  - rewrite (upload_resize_fails f _ w e Hs Hres).
    unfold insert, record, next_serial, set_tables, first_row. run. simpl.
    eexists. split; [reflexivity|]. simpl. repeat split; try assumption.
    + unfold rows. simpl. rewrite lookup_insert_eq. reflexivity.
    + intros b' [=].
Qed.

(** C6 (amended).  After an update request every row keeps its place in
    the catalog; a row with another id is unchanged, and in a row with the
    id of the request each column holds: for [stock] and [tags] the value
    of the field when the field is present (0 and the empty string
    included); for [name], [type] and [unit] the value of the field when
    it is present and not empty; for [price] the value of the field when
    it is present and not 0; for [image_url] the URL of the upload when
    an image was supplied and its upload delivered one; and in every other
    case, as in every other column, what it held before. *)
Theorem update_flower_merge (w : world) (flower_id : pystr) (name : option pystr)
    (price : option Z) (type unit : option pystr) (stock : option Z)
    (tags : option pystr) (image : option UploadFile) :
  supabase w = true ->
  let image_url :=
    match image with
    | Some f =>
        if truthy (filename f)
        then uploaded_url (upload f (py_or (of_str name) (VStr (u "flower"))) w).1
        else None
    | None => None
    end in
  forall (i : nat) (r : dict), rows w "flowers" !! i = Some r ->
    exists r',
      rows (update_flower' flower_id name price type unit stock tags image w).2
           "flowers" !! i = Some r' /\
      forall k, r' !! k = if has_id flower_id r
                          then merged name price type unit stock tags image_url r k
                          else r !! k.
Proof.
  intros Hs image_url i r Hr. destruct (has_image image) eqn:Hi.
  - destruct image as [f|]; [simpl in Hi|discriminate].
    destruct (upload_frame f (py_or (of_str name) (VStr (u "flower"))) w)
      as (v & w1 & Hu & _ & Ht & _ & _ & Hv & _).
    rewrite (update_flower_image flower_id name price type unit stock tags f w v w1
               Hs Hi Hu).
    rewrite try_keep_http_world, send_update_rows.
    assert (Hrows : rows w1 "flowers" = rows w "flowers")
      by (unfold rows; rewrite Ht; reflexivity).
    rewrite Hrows, list_lookup_fmap, Hr. simpl. eexists. split; [reflexivity|].
    intros k. subst image_url. rewrite Hi, Hu. simpl.
    destruct (has_id flower_id r); [|reflexivity].
    destruct Hv as [->|[[|c url] ->]]; simpl;
      [apply union_merged|apply union_merged|apply union_merged_image].
  - assert (Hnone : image_url = None).
    { subst image_url. destruct image as [f|]; [simpl in Hi; rewrite Hi|]; reflexivity. }
    rewrite Hnone.
    rewrite (update_flower_fields flower_id name price type unit stock tags image w Hs Hi).
    rewrite try_keep_http_world, send_update_rows, list_lookup_fmap, Hr. simpl.
    eexists. split; [reflexivity|].
    intros k. destruct (has_id flower_id r); [apply union_merged|reflexivity].
Qed.

Lemma send_update_empty fid w :
  send_update ilike ∅ fid w = (Raise (HTTPException 400 (Msg "No data to update")), w).
Proof. reflexivity. Qed.

(** C7 (amended).  When no row of the catalog has the id of the request:
    an update request is answered with an error and leaves the rows as
    they were, the error being the not-found error (status 404, "Flower
    not found") unless the request is rejected as empty (status 400), and
    it is the not-found error whenever the request carries an effective
    field; a delete request is answered with success ("Deleted"), after
    one select and one delete sent to the store, and leaves the rows and
    the bucket as they were. *)
Theorem absent_target (w : world) (flower_id : pystr) :
  supabase w = true ->
  Forall (fun r => has_id flower_id r = false) (rows w "flowers") ->
  (forall name price type unit stock tags image,
      let res := update_flower' flower_id name price type unit stock tags image w in
      (res.1 = Raise (HTTPException 404 (Msg "Flower not found"))
       \/ res.1 = Raise (HTTPException 400 (Msg "No data to update")))
      /\ (update_fields name price type unit stock tags <> ∅ ->
          res.1 = Raise (HTTPException 404 (Msg "Flower not found")))
      /\ rows res.2 "flowers" = rows w "flowers")
  /\ exists w', delete_flower ilike flower_id w = (Ok "Deleted"%string, w')
       /\ rows w' "flowers" = rows w "flowers" /\ bucket w' = bucket w
       /\ calls w' = calls w ++ [TableSelect "flowers"; TableDelete "flowers" flower_id].
Proof.
  intros Hs Habs. split; [|apply delete_absent; assumption].
  intros name price type unit stock tags image res.
  assert (G : forall data w1,
             rows w1 "flowers" = rows w "flowers" ->
             let out := try_except (send_update ilike data flower_id) keep_http w1 in
             (out.1 = Raise (HTTPException 404 (Msg "Flower not found"))
              \/ out.1 = Raise (HTTPException 400 (Msg "No data to update")))
             /\ (data <> ∅ -> out.1 = Raise (HTTPException 404 (Msg "Flower not found")))
             /\ rows out.2 "flowers" = rows w "flowers").
  { intros data w1 Hrows out.
    assert (H404 : data <> ∅ ->
                   out.1 = Raise (HTTPException 404 (Msg "Flower not found"))).
    { intros Hne. apply try_keep_http_result. rewrite send_update_result by exact Hne.
      rewrite Hrows, (filter_has_id_absent flower_id _ Habs). reflexivity. }
    split; [|split; [exact H404|]].
    - destruct (decide (data = ∅)) as [->|Hne]; [right|left; exact (H404 Hne)].
      apply try_keep_http_result. rewrite send_update_empty. reflexivity.
    - subst out. rewrite try_keep_http_world, send_update_rows, Hrows.
      apply map_has_id_absent, Habs. }
  destruct (has_image image) eqn:Hi.
  - destruct image as [f|]; [simpl in Hi|discriminate].
    destruct (upload_frame f (py_or (of_str name) (VStr (u "flower"))) w)
      as (v & w1 & Hu & _ & Ht & _).
    subst res.
    rewrite (update_flower_image flower_id name price type unit stock tags f w v w1
               Hs Hi Hu).
    assert (Hrows : rows w1 "flowers" = rows w "flowers")
      by (unfold rows; rewrite Ht; reflexivity).
    destruct (G (if truthy v
                 then <["image_url" := v]> (update_fields name price type unit stock tags)
                 else update_fields name price type unit stock tags) w1 Hrows)
      as (G1 & G2 & G3).
    split; [exact G1|split; [|exact G3]].
    intros Hne. apply G2. destruct (truthy v); [apply insert_non_empty|exact Hne].
  - subst res.
    rewrite (update_flower_fields flower_id name price type unit stock tags image w Hs Hi).
    exact (G (update_fields name price type unit stock tags) w eq_refl).
Qed.

(** C8.  The low-stock test is "stock at most 10", 10 included.  With
    [low_stock] set, the list endpoint returns only rows of the catalog
    whose stock is an integer of at most 10, whatever the other filters
    and the page; with no other filter and a page that covers the
    catalog, a row with stock [x] is returned exactly when [x <= 10].
    The statistics count the rows with a stock of at most 10 (a row
    without a stock counts as 0).  Both tests give [x <=? 10] on a row
    with stock [x]: true for 10, false for 11. *)
Theorem low_stock_threshold (w : world) :
  supabase w = true ->
  (forall search type tags skip limit,
      exists fl w',
        get_flowers ilike search type tags true skip limit w = (Ok fl, w')
        /\ forall r, r ∈ flowers fl ->
             r ∈ rows w "flowers"
             /\ exists x, r !! "stock" = Some (VInt x) /\ x <= 10)
  /\ (forall limit, Z.of_nat (length (rows w "flowers")) <= limit ->
      exists fl w',
        get_flowers ilike None None None true 0 limit w = (Ok fl, w')
        /\ forall r x, r ∈ rows w "flowers" -> r !! "stock" = Some (VInt x) ->
             (r ∈ flowers fl <-> x <= 10))
  /\ (Forall (fun f => stats_row f = true) (rows w "flowers") ->
      exists st w',
        get_stats ilike w = (Ok st, w')
        /\ low_stock_count st
           = Z.of_nat (length (List.filter stock_default_le_10 (rows w "flowers"))))
  /\ (forall r x, r !! "stock" = Some (VInt x) ->
        matches ilike r (Lte "stock" 10) = (x <=? 10)
        /\ low_stock r = Ok (x <=? 10)
        /\ stock_default_le_10 r = (x <=? 10))
  /\ (10 <=? 10) = true /\ (11 <=? 10) = false.
Proof.
  intros Hs. split; [|split; [|split; [|split; [|split; reflexivity]]]].
  - intros search type tags skip limit.
    destruct (get_flowers_run search type tags true skip limit w Hs) as (w' & E & _).
    do 2 eexists. split; [exact E|]. simpl. intros r Hr.
    rewrite list_query_shape in Hr. apply run_query_elem in Hr as [Hin Hm].
    split; [exact Hin|].
    rewrite matches_all_app in Hm. apply andb_true_iff in Hm as [_ Hm].
    unfold matches_all in Hm. simpl in Hm. rewrite andb_true_r in Hm.
    destruct (r !! "stock") as [[|x|s]|]; try discriminate.
    exists x. split; [reflexivity|]. apply Z.leb_le, Hm.
  - intros limit Hl.
    destruct (get_flowers_run None None None true 0 limit w Hs) as (w' & E & _).
    do 2 eexists. split; [exact E|]. simpl. intros r x Hin Hx.
    change (list_query None None None true 0 limit)
      with (Query "flowers" None [Lte "stock" 10] true (Some (0, 0 + limit - 1))).
    rewrite (run_query_all _ _ _ _ _ Hl).
    unfold matches_all. simpl. rewrite Hx, andb_true_r, Z.leb_le. tauto.
  - intros Hall.
    destruct (sum_prices_total (rows w "flowers") 0) as [total Ht].
    { eapply List.Forall_impl; [|exact Hall]. intros f Hf.
      unfold stats_row in Hf. apply andb_true_iff in Hf as [Hf _]. exact Hf. }
    destruct (get_stats_run w total Hs Ht) as (w' & E).
    { eapply List.Forall_impl; [|exact Hall]. intros f Hf.
      unfold stats_row in Hf. apply andb_true_iff in Hf as [_ Hf]. exact Hf. }
    do 2 eexists. split; [exact E|]. reflexivity.
  - intros r x Hx. unfold low_stock, get, stock_default_le_10. simpl.
    rewrite Hx. repeat split; reflexivity.
Qed.

End Endpoints.

(** *** The claims on the sample shop *)

Lemma update_flower_empty_rejected_witness :
  update_flower Sample.ilike Sample.decode Sample.resample Sample.jpeg_encode
                Sample.uuid4_hex Sample.get_public_url
                (u "1") None None None None None None None Sample.shop
  = (Raise (HTTPException 400 (Msg "No data to update")), Sample.shop).
Proof. apply update_flower_empty_rejected; reflexivity. Defined.

Lemma update_flower_image_only_rejected_witness :
  let w1 := (upload_image_to_supabase Sample.decode Sample.resample Sample.jpeg_encode
               Sample.uuid4_hex Sample.get_public_url
               Sample.photo (VStr (u "flower")) Sample.shop_offline).2 in
  update_flower Sample.ilike Sample.decode Sample.resample Sample.jpeg_encode
                Sample.uuid4_hex Sample.get_public_url
                (u "1") None None None None None None (Some Sample.photo)
                Sample.shop_offline
  = (Raise (HTTPException 400 (Msg "No data to update")), w1)
  /\ tables w1 = tables Sample.shop_offline
  /\ forall c, c ∈ calls w1 ->
       c ∈ calls Sample.shop_offline \/ exists k b, c = StorageUpload k b.
Proof.
  apply (update_flower_image_only_rejected Sample.ilike Sample.decode Sample.resample
           Sample.jpeg_encode Sample.uuid4_hex Sample.get_public_url
           Sample.shop_offline _ (u "1") Sample.photo VNone).
  - reflexivity.
  - reflexivity.
  - vm_compute. reflexivity.
  - reflexivity.
Defined.

(** The refused upload is the one call of that request. *)
Example update_flower_image_only_calls :
  calls (update_flower Sample.ilike Sample.decode Sample.resample Sample.jpeg_encode
           Sample.uuid4_hex Sample.get_public_url
           (u "1") None None None None None None (Some Sample.photo)
           Sample.shop_offline).2
  = [StorageUpload (u "flower_0.jpg") [255; 216; 255; 217]].
Proof. vm_compute. reflexivity. Qed.

Lemma create_flower_image_failure_witness :
  let data := new_flower (u "Tulip") 30000 (u "Yellow") (u "bunch") 12 (u "spring") in
  let r := stored data (serial Sample.shop) in
  exists w',
    create_flower Sample.decode Sample.resample Sample.jpeg_encode
                  Sample.uuid4_hex Sample.get_public_url
                  (u "Tulip") 30000 (u "Yellow") (u "bunch") 12 (u "spring")
                  (Some Sample.broken_photo) Sample.shop
    = (Ok {| message := "Flower created"; flower := r |}, w')
    /\ r !! "image_url" = Some VNone
    /\ rows w' "flowers" = rows Sample.shop "flowers" ++ [r]
    /\ bucket w' = bucket Sample.shop
    /\ ((exists e, resize_image Sample.decode Sample.resample Sample.jpeg_encode
                     (file_read Sample.broken_photo) = Raise e) ->
        calls w' = calls Sample.shop ++ [TableInsert "flowers" data])
    /\ (forall b, resize_image Sample.decode Sample.resample Sample.jpeg_encode
                    (file_read Sample.broken_photo) = Ok b ->
        calls w' = calls Sample.shop
                   ++ [StorageUpload (upload_key Sample.uuid4_hex Sample.shop) b;
                       TableInsert "flowers" data]).
Proof.
  apply (create_flower_image_failure Sample.decode Sample.resample Sample.jpeg_encode
           Sample.uuid4_hex Sample.get_public_url Sample.shop).
  - reflexivity.
  - reflexivity.
  - left. eexists. vm_compute. reflexivity.
Defined.

Lemma update_flower_merge_witness :
  exists r',
    rows (update_flower Sample.ilike Sample.decode Sample.resample
            Sample.jpeg_encode Sample.uuid4_hex Sample.get_public_url
            (u "1") None (Some 0) None None (Some 7) (Some []) None
            Sample.shop).2 "flowers" !! 0%nat = Some r' /\
    forall k, r' !! k = if has_id (u "1") Sample.rose
                        then merged None (Some 0) None None (Some 7) (Some []) None
                                    Sample.rose k
                        else Sample.rose !! k.
Proof.
  apply (update_flower_merge Sample.ilike Sample.decode Sample.resample
           Sample.jpeg_encode Sample.uuid4_hex Sample.get_public_url Sample.shop
           (u "1") None (Some 0) None None (Some 7) (Some []) None eq_refl
           0%nat Sample.rose).
  reflexivity.
Defined.

(** C6 as stated fails: a present price of 0 and a present empty name
    leave the stored price and name as they were, while the stock and
    the tags sent with them are stored. *)
Lemma update_flower_falsy_fields_kept :
  let w' := (update_flower Sample.ilike Sample.decode Sample.resample
               Sample.jpeg_encode Sample.uuid4_hex Sample.get_public_url
               (u "1") (Some []) (Some 0) None None (Some 0) (Some [])
               None Sample.shop).2 in
  stored_value Sample.shop 0 "price" = Some (VInt 50000)
  /\ stored_value w' 0 "price" = Some (VInt 50000)
  /\ stored_value w' 0 "name" = Some (VStr (u "Rose"))
  /\ stored_value w' 0 "stock" = Some (VInt 0)
  /\ stored_value w' 0 "tags" = Some (VStr []).
Proof. vm_compute. repeat split; reflexivity. Qed.

Lemma absent_target_witness :
  exists w', delete_flower Sample.ilike (u "99") Sample.shop
             = (Ok "Deleted"%string, w')
    /\ rows w' "flowers" = rows Sample.shop "flowers"
    /\ bucket w' = bucket Sample.shop
    /\ calls w' = calls Sample.shop
                  ++ [TableSelect "flowers"; TableDelete "flowers" (u "99")].
Proof.
  apply (absent_target Sample.ilike Sample.decode Sample.resample Sample.jpeg_encode
           Sample.uuid4_hex Sample.get_public_url Sample.shop (u "99")).
  - reflexivity.
  - change (rows Sample.shop "flowers") with [Sample.rose; Sample.lily; Sample.orchid].
    repeat (constructor; [vm_compute; reflexivity|]). constructor.
Defined.

(** An update of the missing id 99 is answered with the not-found
    error. *)
Example update_flower_absent_404 :
  (update_flower Sample.ilike Sample.decode Sample.resample Sample.jpeg_encode
     Sample.uuid4_hex Sample.get_public_url
     (u "99") None None None None (Some 3) None None Sample.shop).1
  = Raise (HTTPException 404 (Msg "Flower not found")).
Proof. vm_compute. reflexivity. Qed.

(** C7 as stated fails for delete: no row of the sample shop has the id
    99, and the delete request for it is answered with success. *)
Lemma delete_flower_absent_succeeds :
  List.filter (has_id (u "99")) (rows Sample.shop "flowers") = []
  /\ (delete_flower Sample.ilike (u "99") Sample.shop).1 = Ok "Deleted"%string.
Proof. split; vm_compute; reflexivity. Qed.

Lemma low_stock_threshold_witness :
  exists fl w',
    get_flowers Sample.ilike None None None true 0 100 Sample.shop = (Ok fl, w')
    /\ forall r x, r ∈ rows Sample.shop "flowers" -> r !! "stock" = Some (VInt x) ->
         (r ∈ flowers fl <-> x <= 10).
Proof.
  apply (low_stock_threshold Sample.ilike Sample.shop eq_refl).
  vm_compute. discriminate.
Defined.

(** In the sample shop the rose (stock 5) and the lily (stock 10) are
    low on stock, the orchid (stock 11) is not. *)
Example low_stock_list :
  (get_flowers Sample.ilike None None None true 0 100 Sample.shop).1
  = Ok {| flowers := [Sample.lily; Sample.rose]; count := 2 |}.
Proof. vm_compute. reflexivity. Qed.

Example low_stock_stats :
  (get_stats Sample.ilike Sample.shop).1
  = Ok {| total_flowers := 3; total_types := 0; total_value := 1374567;
          low_stock_count := 2 |}.
Proof. vm_compute. reflexivity. Qed.

(* ===================================================================== *)
(** ** Properties of the report generators *)
(* ===================================================================== *)

(** *** Thousands separators *)






(** *** The spreadsheet *)

Lemma ws_cell_value ws r c v k :
  cell_value <$> cells (ws_cell ws r c v) !! k
  = if decide ((r, c) = k) then Some v else cell_value <$> cells ws !! k.
Proof.
  unfold ws_cell. simpl. rewrite lookup_insert. case_decide; [|reflexivity].
  destruct (cells ws !! (r, c)); reflexivity.
Qed.

Lemma ws_cell_some ws r c v k :
  is_Some (cells (ws_cell ws r c v) !! k) <-> (r, c) = k \/ is_Some (cells ws !! k).
Proof.
  unfold ws_cell. simpl. rewrite lookup_insert. case_decide.
  - split; eauto.
  - split; [auto|]. intros [?|?]; [contradiction|assumption].
Qed.

Lemma ws_style_some ws r c fill font align k :
  is_Some (cells (ws_style ws r c fill font align) !! k) <-> is_Some (cells ws !! k).
Proof.
  unfold ws_style. simpl. rewrite lookup_alter. case_decide; [subst|reflexivity].
  rewrite fmap_is_Some. reflexivity.
Qed.

Lemma flower_record_keys f :
  flower_record f = true ->
  exists name price type unit,
    f !! "name" = Some (VStr name) /\ f !! "price" = Some (VInt price)
    /\ f !! "type" = Some (VStr type) /\ f !! "unit" = Some (VStr unit)
    /\ is_opt_int (f !! "stock") = true /\ is_opt_text (f !! "tags") = true.
Proof.
  unfold flower_record. rewrite !andb_true_iff.
  intros (((((H1 & H2) & H3) & H4) & H5) & H6).
  destruct (f !! "name") as [[| |name]|]; try discriminate.
  destruct (f !! "price") as [[|price|]|]; try discriminate.
  destruct (f !! "type") as [[| |type]|]; try discriminate.
  destruct (f !! "unit") as [[| |unit]|]; try discriminate.
  eauto 10.
Qed.

(** One pass of the loop writes the seven cells of its row and nothing
    else. *)
Lemma write_record_spec ws idx f :
  flower_record f = true ->
  exists ws', write_record ws idx f = Ok ws'
    /\ sheet_row ws' idx = excel_row idx f
    /\ (forall r c, r <> idx -> cells ws' !! (r, c) = cells ws !! (r, c))
    /\ (forall c, is_Some (cells ws' !! (idx, c))
                  <-> (1 <= c <= 7)%nat \/ is_Some (cells ws !! (idx, c))).
Proof.
  intros Hf.
  destruct (flower_record_keys f Hf)
    as (name & price & type & unit & E1 & E2 & E3 & E4 & _).
  unfold write_record, getitem. rewrite E1, E2, E3, E4. unfold Py.bind.
  eexists. split; [reflexivity|]. split; [|split].
  - unfold sheet_row, excel_row. cbn [map]. rewrite E1, E2, E3, E4.
    rewrite !ws_cell_value. repeat (case_decide; try congruence).
  - intros r c Hr.
    assert (G : forall w r' c' v, r' <> r ->
                cells (ws_cell w r' c' v) !! (r, c) = cells w !! (r, c)).
    { intros w r' c' v Hne. unfold ws_cell. simpl.
      rewrite lookup_insert_ne by congruence. reflexivity. }
    rewrite !G by congruence. reflexivity.
  - intros c. rewrite !ws_cell_some.
    split.
    + intros H. repeat (destruct H as [H|H]; [injection H as <-; left; lia|]). auto.
    + intros [H|H]; [|tauto].
      assert (c = 1 \/ c = 2 \/ c = 3 \/ c = 4 \/ c = 5 \/ c = 6 \/ c = 7)%nat
        as Hc by lia.
      destruct Hc as [->|[->|[->|[->|[->|[->| ->]]]]]]; tauto.
Qed.

Lemma sheet_row_ext a b r :
  (forall c, cells a !! (r, c) = cells b !! (r, c)) -> sheet_row a r = sheet_row b r.
Proof. intros H. unfold sheet_row. cbn [map]. rewrite !H. reflexivity. Qed.

(** The loop over the records fills one row per record, from [idx] on,
    in the order of the records. *)
Lemma write_records_spec flowers : forall ws idx,
  Forall (fun f => flower_record f = true) flowers ->
  exists ws', write_records ws idx flowers = Ok ws'
    /\ (forall i f, flowers !! i = Some f ->
          sheet_row ws' (idx + i) = excel_row (idx + i) f)
    /\ (forall r c, (r < idx)%nat -> cells ws' !! (r, c) = cells ws !! (r, c))
    /\ (forall r c, is_Some (cells ws' !! (r, c))
                    <-> ((idx <= r < idx + length flowers)%nat /\ (1 <= c <= 7)%nat)
                        \/ is_Some (cells ws !! (r, c))).
Proof.
  induction flowers as [|f rest IH]; intros ws idx Hall.
  - exists ws. split; [reflexivity|]. split; [|split].
    + intros i f Hi. discriminate.
    + reflexivity.
    + intros r c. simpl. split; [auto|]. intros [[? _]|?]; [lia|assumption].
  - inversion Hall as [|? ? Hf Hrest]; subst.
    destruct (write_record_spec ws idx f Hf) as (ws1 & E1 & R1 & O1 & S1).
    destruct (IH ws1 (S idx) Hrest) as (ws' & E' & R' & O' & S').
    exists ws'. split; [simpl; rewrite E1; exact E'|]. split; [|split].
    + intros [|i] g Hi.
      * injection Hi as <-. rewrite Nat.add_0_r. rewrite <- R1.
        apply sheet_row_ext. intros c. apply O'. lia.
      * replace (idx + S i)%nat with (S idx + i)%nat by lia. apply R'. exact Hi.
    + intros r c Hr. rewrite O' by lia. apply O1. lia.
    + intros r c. rewrite S'. simpl length.
      destruct (decide (r = idx)) as [->|Hne].
      * rewrite S1. split; [intros [[? ?]|[?|?]]|intros [[? ?]|?]]; try lia; auto.
      * rewrite O1 by exact Hne.
        split; (intros [[? ?]|?]; [left; split; [lia|assumption]|auto]).
Qed.

Lemma write_widths_cells widths : forall ws i, cells (write_widths ws i widths) = cells ws.
Proof.
  induction widths as [|w rest IH]; intros ws i; simpl; [reflexivity|].
  rewrite IH. reflexivity.
Qed.

Lemma header_sheet_row :
  sheet_row header_sheet 1 = map (fun h => Some (VStr h)) excel_headers.
Proof. vm_compute. reflexivity. Qed.

Lemma header_sheet_cells r c :
  is_Some (cells header_sheet !! (r, c)) <-> r = 1%nat /\ (1 <= c <= 7)%nat.
Proof.
  unfold header_sheet, excel_headers. cbn [write_headers].
  repeat (rewrite ws_style_some, ws_cell_some).
  cbn [cells new_sheet]. rewrite lookup_empty.
  split.
  - intros H. repeat (destruct H as [H|H]; [injection H as <- <-; lia|]).
    destruct H as [? H]. discriminate.
  - intros [-> Hc].
    assert (c = 1 \/ c = 2 \/ c = 3 \/ c = 4 \/ c = 5 \/ c = 6 \/ c = 7)%nat
      as Hc' by lia.
    destruct Hc' as [->|[->|[->|[->|[->|[->| ->]]]]]]; tauto.
Qed.

(** *** The PDF *)

Lemma pdf_tags_cell f :
  is_opt_text (f !! "tags") = true ->
  slice_to 30 (py_or (get f "tags" (VStr [])) (VStr []))
  = Ok (VStr (firstn 30 (tags_text f))).
Proof.
  unfold get, tags_text.
  destruct (f !! "tags") as [[| |[|c s]]|]; try discriminate; reflexivity.
Qed.

Lemma pdf_row_spec i f :
  flower_record f = true ->
  exists price,
    pdf_price (get f "price" VNone) = Ok price /\
    pdf_row i f
    = Ok [VStr (str_int (Z.of_nat i)); get f "name" VNone; VStr price;
          get f "type" VNone; get f "unit" VNone;
          VStr (str (get f "stock" (VInt 0)));
          VStr (firstn 30 (tags_text f))].
Proof.
  intros Hf.
  destruct (flower_record_keys f Hf)
    as (name & price & type & unit & E1 & E2 & E3 & E4 & _ & Ht).
  unfold pdf_row, getitem, get. rewrite E1, E2, E3, E4.
  eexists. split; [reflexivity|].
  unfold Py.bind at 1 2.
  change (pdf_price (VInt price)) with (Ok (replace 44%N 46%N (format_comma price))).
  unfold Py.bind at 1 2 3.
  fold (get f "tags" (VStr [])). rewrite (pdf_tags_cell f Ht). reflexivity.
Qed.

(** The loop over the records appends one row per record, in the order of
    the records, numbered from [i] on. *)
Lemma pdf_rows_spec flowers : forall data i,
  Forall (fun f => flower_record f = true) flowers ->
  exists rows, pdf_rows data i flowers = Ok (data ++ rows)
    /\ length rows = length flowers
    /\ forall k f, flowers !! k = Some f ->
         exists row, rows !! k = Some row /\ pdf_row (i + k) f = Ok row.
Proof.
  induction flowers as [|f rest IH]; intros data i Hall.
  - exists []. rewrite app_nil_r. split; [reflexivity|]. split; [reflexivity|].
    intros k f Hk. discriminate.
  - inversion Hall as [|? ? Hf Hrest]; subst.
    destruct (pdf_row_spec i f Hf) as (price & _ & Erow).
    destruct (IH (data ++ [ [VStr (str_int (Z.of_nat i)); get f "name" VNone; VStr price;
          get f "type" VNone; get f "unit" VNone;
          VStr (str (get f "stock" (VInt 0)));
          VStr (firstn 30 (tags_text f))] ]) (S i) Hrest) as (rows & E & L & R).
    eexists (_ :: rows). split; [|split].
    + simpl. rewrite Erow. simpl. rewrite E, <- app_assoc. reflexivity.
    + simpl. rewrite L. reflexivity.
    + intros [|k] g Hk.
      * injection Hk as <-. eexists. split; [reflexivity|].
        rewrite Nat.add_0_r. exact Erow.
      * destruct (R k g Hk) as (row & Hrow & Hp). exists row. split; [exact Hrow|].
        replace (i + S k)%nat with (S i + k)%nat by lia. exact Hp.
Qed.

(** *** The claims about the reports *)

Lemma excel_sheet_spec flowers :
  Forall (fun f => flower_record f = true) flowers ->
  exists ws, excel_sheet flowers = Ok ws
    /\ sheet_row ws 1 = map (fun h => Some (VStr h)) excel_headers
    /\ (forall i f, flowers !! i = Some f -> sheet_row ws (i + 2) = excel_row (i + 2) f)
    /\ (forall r c, is_Some (cells ws !! (r, c))
                    <-> (1 <= r <= length flowers + 1)%nat /\ (1 <= c <= 7)%nat).
Proof.
  intros Hall.
  destruct (write_records_spec flowers header_sheet 2 Hall) as (ws' & E & R & O & S).
  exists (write_widths ws' 1 excel_widths). split; [|split; [|split]].
  - unfold excel_sheet. cbv zeta. fold header_sheet. rewrite E. reflexivity.
  - rewrite <- header_sheet_row. apply sheet_row_ext. intros c.
    rewrite write_widths_cells. apply O. lia.
  - intros i f Hi. rewrite <- (Nat.add_comm 2 i), <- (R i f Hi).
    apply sheet_row_ext. intros c. rewrite write_widths_cells. reflexivity.
  - intros r c. rewrite write_widths_cells, S, header_sheet_cells. lia.
Qed.

(** C2.  For every list of records, each report generator emits one data
    row per record, in the order of the records, with the 1-based index
    in the first column: the sheet has the header in row 1, the record at
    position [i] in row [i + 2] with the index [i + 1] first, and no cell
    outside these rows and the seven columns; the table of the PDF is the
    header row followed by one row per record, the row of position [i]
    starting with the text of [i + 1].  For the empty list the sheet has
    the header cells only, and the PDF has a table of the header row only
    and ends with the paragraph "Tổng: 0 sản phẩm" (in bold). *)
Theorem reports_one_row_per_record (t : datetime) (flowers : list dict) :
  Forall (fun f => flower_record f = true) flowers ->
  (exists ws, excel_sheet flowers = Ok ws
     /\ sheet_row ws 1 = map (fun h => Some (VStr h)) excel_headers
     /\ (forall i f, flowers !! i = Some f ->
           sheet_row ws (i + 2)
           = [Some (VInt (Z.of_nat i + 1)); f !! "name"; f !! "price"; f !! "type";
              f !! "unit"; Some (get f "stock" (VInt 0)); Some (get f "tags" (VStr []))])
     /\ (forall r c, is_Some (cells ws !! (r, c))
                     <-> (1 <= r <= length flowers + 1)%nat /\ (1 <= c <= 7)%nat))
  /\ (exists rows,
        pdf_elements t flowers
        = Ok [Paragraph (u "CATALOG HOA ĐẸP") "Heading1"; Spacer 1 12;
              Paragraph (u "Ngày xuất: " ++ stamp_text t) "Normal"; Spacer 1 12;
              Table (pdf_headers :: rows) [30; 140; 70; 70; 60; 40; 80] pdf_table_style;
              Spacer 1 12;
              Paragraph (u "<b>Tổng: " ++ str_int (Z.of_nat (length flowers))
                         ++ u " sản phẩm</b>") "Normal"]
        /\ length rows = length flowers
        /\ forall i f, flowers !! i = Some f ->
             exists row, rows !! i = Some row
               /\ pdf_row (i + 1) f = Ok row
               /\ row !! 0%nat = Some (VStr (str_int (Z.of_nat i + 1)))
               /\ row !! 1%nat = f !! "name")
  /\ (exists ws0, excel_sheet [] = Ok ws0
        /\ forall r c, is_Some (cells ws0 !! (r, c)) <-> r = 1%nat /\ (1 <= c <= 7)%nat)
  /\ pdf_elements t []
     = Ok [Paragraph (u "CATALOG HOA ĐẸP") "Heading1"; Spacer 1 12;
           Paragraph (u "Ngày xuất: " ++ stamp_text t) "Normal"; Spacer 1 12;
           Table [pdf_headers] [30; 140; 70; 70; 60; 40; 80] pdf_table_style;
           Spacer 1 12;
           Paragraph (u "<b>Tổng: 0 sản phẩm</b>") "Normal"].
Proof.
  intros Hall. split; [|split; [|split]].
  - destruct (excel_sheet_spec flowers Hall) as (ws & E & H1 & H2 & H3).
    exists ws. split; [exact E|]. split; [exact H1|]. split; [|exact H3].
    intros i f Hi. rewrite (H2 i f Hi). unfold excel_row.
    do 2 f_equal. f_equal. lia.
  - destruct (pdf_rows_spec flowers [pdf_headers] 1 Hall) as (rows & E & L & R).
    exists rows. split; [|split; [exact L|]].
    + unfold pdf_elements. cbv zeta. rewrite E. reflexivity.
    + intros i f Hi. destruct (R i f Hi) as (row & Hrow & Hp).
      rewrite (Nat.add_comm 1 i) in Hp.
      exists row. split; [exact Hrow|]. split; [exact Hp|].
      assert (Hf : flower_record f = true).
      { rewrite List.Forall_forall in Hall. apply Hall.
        apply list_elem_of_In, list_elem_of_lookup. eauto. }
      destruct (pdf_row_spec (i + 1) f Hf) as (price & _ & Erow).
      rewrite Erow in Hp. injection Hp as <-. simpl.
      destruct (flower_record_keys f Hf) as (name & _ & _ & _ & E1 & _).
      unfold get. rewrite E1. split; [|reflexivity].
      do 3 f_equal. lia.
  - destruct (excel_sheet_spec [] (List.Forall_nil _)) as (ws & E & _ & _ & H3).
    exists ws. split; [exact E|]. intros r c. rewrite H3. simpl. lia.
  - reflexivity.
Qed.


Section Exports.

Variable ilike : pystr -> pystr -> bool.
Variable xlsx_save : worksheet -> bytes.
Variable pdf_build : list flowable -> bytes.

Lemma export_query_table type : q_table (export_query type) = "flowers"%string.
Proof. unfold export_query. destruct (type_filter type); reflexivity. Qed.

(** The export endpoints hand the rows of their query to the generators
    and stream what the serialisers make of the result. *)
Lemma export_excel_run type w ws :
  supabase w = true ->
  excel_sheet (run_query ilike (export_query type) w) = Ok ws ->
  exists w',
    export_excel ilike xlsx_save type w
    = (Ok {| body := xlsx_save ws;
             media_type :=
               "application/vnd.openxmlformats-officedocument.spreadsheetml.sheet";
             content_disposition :=
               u "attachment; filename*=UTF-8''" ++ u "Catalog_Hoa_"
               ++ stamp_file (now w) ++ u ".xlsx" |}, w')
    /\ tables w' = tables w /\ calls w' = calls w ++ [TableSelect "flowers"].
Proof.
  intros Hs E. unfold export_excel, client. run. rewrite Hs.
  destruct w as [sb tb bk ok ser ent nw cl].
  unfold execute. rewrite export_query_table. unfold record. run.
  cbn [supabase tables bucket storage_ok serial entropy now calls].
  change (run_query ilike (export_query type)
            {| supabase := sb; tables := tb; bucket := bk; storage_ok := ok;
               serial := ser; entropy := ent; now := nw;
               calls := cl ++ [TableSelect "flowers"] |})
    with (run_query ilike (export_query type) (World sb tb bk ok ser ent nw cl)).
  rewrite E. eexists. split; [reflexivity|]. split; reflexivity.
Qed.

Lemma export_pdf_run type w elements :
  supabase w = true ->
  pdf_elements (now w) (run_query ilike (export_query type) w) = Ok elements ->
  exists w',
    export_pdf ilike pdf_build type w
    = (Ok {| body := pdf_build elements;
             media_type := "application/pdf";
             content_disposition :=
               u "attachment; filename*=UTF-8''" ++ u "Catalog_Hoa_"
               ++ stamp_file (now w) ++ u ".pdf" |}, w')
    /\ tables w' = tables w /\ calls w' = calls w ++ [TableSelect "flowers"].
Proof.
  intros Hs E. unfold export_pdf, client. run. rewrite Hs.
  destruct w as [sb tb bk ok ser ent nw cl].
  unfold execute. rewrite export_query_table. unfold record. run.
  cbn [supabase tables bucket storage_ok serial entropy now calls].
  change (run_query ilike (export_query type)
            {| supabase := sb; tables := tb; bucket := bk; storage_ok := ok;
               serial := ser; entropy := ent; now := nw;
               calls := cl ++ [TableSelect "flowers"] |})
    with (run_query ilike (export_query type) (World sb tb bk ok ser ent nw cl)).
  simpl now in *. rewrite E. eexists. split; [reflexivity|]. split; reflexivity.
Qed.

End Exports.

Lemma reports_one_row_per_record_witness :
  exists rows,
    pdf_elements Sample.noon [Sample.rose; Sample.lily; Sample.orchid]
    = Ok [Paragraph (u "CATALOG HOA ĐẸP") "Heading1"; Spacer 1 12;
          Paragraph (u "Ngày xuất: " ++ stamp_text Sample.noon) "Normal"; Spacer 1 12;
          Table (pdf_headers :: rows) [30; 140; 70; 70; 60; 40; 80] pdf_table_style;
          Spacer 1 12;
          Paragraph (u "<b>Tổng: "
                     ++ str_int (Z.of_nat (length [Sample.rose; Sample.lily; Sample.orchid]))
                     ++ u " sản phẩm</b>") "Normal"]
    /\ length rows = length [Sample.rose; Sample.lily; Sample.orchid]
    /\ forall i f, [Sample.rose; Sample.lily; Sample.orchid] !! i = Some f ->
         exists row, rows !! i = Some row
           /\ pdf_row (i + 1) f = Ok row
           /\ row !! 0%nat = Some (VStr (str_int (Z.of_nat i + 1)))
           /\ row !! 1%nat = f !! "name".
Proof.
  apply (reports_one_row_per_record Sample.noon [Sample.rose; Sample.lily; Sample.orchid]).
  repeat (constructor; [vm_compute; reflexivity|]). constructor.
Defined.


(** The rows of the two reports for the sample shop. *)
Example pdf_rows_sample :
  pdf_table (match pdf_elements Sample.noon [Sample.rose; Sample.lily] with
             | Ok els => els
             | Raise _ => []
             end)
  = [ pdf_headers;
      map VStr [u "1"; u "Rose"; u "50.000"; u "Red"; u "bunch"; u "5"; u "classic"];
      map VStr [u "2"; u "Lily"; u "1.234.567"; u "White"; u "stem"; u "10";
                u "0123456789abcdefghijklmnopqrst"] ].
Proof. vm_compute. reflexivity. Qed.

Example excel_rows_sample :
  match excel_sheet [Sample.rose; Sample.lily] with
  | Ok ws => (sheet_row ws 2, sheet_row ws 3, sheet_row ws 4)
  | Raise _ => ([], [], [])
  end
  = ( map Some [VInt 1; VStr (u "Rose"); VInt 50000; VStr (u "Red"); VStr (u "bunch");
                VInt 5; VStr (u "classic")],
      map Some [VInt 2; VStr (u "Lily"); VInt 1234567; VStr (u "White"); VStr (u "stem");
                VInt 10; VStr (u "0123456789abcdefghijklmnopqrstuvwxyzABCDEFGHI")],
      [None; None; None; None; None; None; None] ).
Proof. vm_compute. reflexivity. Qed.

Example pdf_total_empty :
  last (match pdf_elements Sample.noon [] with Ok els => els | Raise _ => [] end)
  = Some (Paragraph (u "<b>Tổng: 0 sản phẩm</b>") "Normal").
Proof. vm_compute. reflexivity. Qed.

Example stamp_text_noon : stamp_text Sample.noon = u "09/03/2024 12:05".
Proof. vm_compute. reflexivity. Qed.

Example stamp_file_noon : stamp_file Sample.noon = u "20240309_120500".
Proof. vm_compute. reflexivity. Qed.

(* ===================================================================== *)
(** ** Further properties of the image normaliser *)
(* ===================================================================== *)

Section NormaliserBox.

Variable resample_LANCZOS : PIL.image -> Z * Z -> list PIL.pixel.

(** X1.  An image that fits the box of 1200 by 1200 pixels is not
    resampled: the normalised image is the flattened image itself, pixel
    for pixel, so nothing is ever scaled up. *)
Theorem normalized_within_box (img : PIL.image) :
  PIL.width img <= 1200 -> PIL.height img <= 1200 ->
  normalized resample_LANCZOS img = flatten img.
Proof.
  intros Hw Hh. unfold normalized, PIL.thumbnail, PIL.preserve_aspect_ratio.
  unfold PIL.width, PIL.height in *. rewrite flatten_size.
  replace (1200 >=? fst (PIL.size img)) with true by (symmetry; apply Z.geb_le; lia).
  replace (1200 >=? snd (PIL.size img)) with true by (symmetry; apply Z.geb_le; lia).
  reflexivity.
Qed.


End NormaliserBox.

(** X3.  Flattening an [RGBA] image, or a [P] image through its palette,
    gives an [RGB] image of the same size in which every pixel is the
    stored colour composited over white with the pixel's alpha: an opaque
    pixel keeps its colour, a fully transparent one becomes white. *)
Theorem flatten_composites (img : PIL.image) :
  PIL.valid img -> PIL.mode img = PIL.M_RGBA \/ PIL.mode img = PIL.M_P ->
  Forall byte_pixel (rgba_pixels img) ->
  PIL.mode (flatten img) = PIL.M_RGB
  /\ PIL.size (flatten img) = PIL.size img
  /\ forall (i : nat) r g b a, rgba_pixels img !! i = Some (r, g, b, a) ->
       exists q, PIL.data (flatten img) !! i = Some q
         /\ PIL.rgb q = (over_white r a, over_white g a, over_white b a)
         /\ (a = 255 -> PIL.rgb q = (r, g, b))
         /\ (a = 0 -> PIL.rgb q = (255, 255, 255)).
Proof.
  intros Hv Hm Hpx.
  assert (E : map PIL.rgb (PIL.data (flatten img)) = map over_white_pixel (rgba_pixels img)).
  { unfold rgba_pixels in *. destruct Hm as [Hm|Hm]; rewrite Hm in *; simpl in *.
    - apply flatten_RGBA; assumption.
    - apply flatten_P; assumption. }
  split; [|split; [apply flatten_size|]].
  - rewrite flatten_mode. destruct Hm as [-> | ->]; reflexivity.
  - intros i r g b a Hi.
    pose proof (f_equal (fun l => l !! i) E) as E'. cbv beta in E'.
    rewrite !list_lookup_fmap in E'. unfold PIL.pixel in *.
    rewrite Hi in E'. simpl in E'.
    apply fmap_Some in E' as (q & Hq & Eq). symmetry in Eq.
    exists q. split; [exact Hq|]. split; [exact Eq|].
    split; intros ->; rewrite Eq.
    + rewrite !over_white_opaque. reflexivity.
    + rewrite !over_white_clear. reflexivity.
Qed.

Lemma normalized_within_box_witness :
  normalized Sample.resample Sample.smoke_rgba = flatten Sample.smoke_rgba.
Proof.
  apply (normalized_within_box Sample.resample Sample.smoke_rgba);
    vm_compute; discriminate.
Defined.


Lemma flatten_composites_witness :
  exists q, PIL.data (flatten Sample.smoke_rgba) !! 0%nat = Some q
    /\ PIL.rgb q = (over_white 0 128, over_white 0 128, over_white 0 128)
    /\ (128 = 255 -> PIL.rgb q = (0, 0, 0))
    /\ (128 = 0 -> PIL.rgb q = (255, 255, 255)).
Proof.
  apply (flatten_composites Sample.smoke_rgba).
  - repeat split; vm_compute; reflexivity.
  - left. reflexivity.
  - repeat constructor; vm_compute; discriminate.
  - reflexivity.
Defined.

(** The one pixel of the [RGBA] sample, black at alpha 128, comes out
    mid grey. *)
Example flatten_smoke_rgba :
  map PIL.rgb (PIL.data (flatten Sample.smoke_rgba)) = [(127, 127, 127)].
Proof. vm_compute. reflexivity. Qed.

(* ===================================================================== *)
(** ** Further properties of the endpoints *)
(* ===================================================================== *)

(** *** Computations that only read *)

Lemma logged_nil w : logged w [] = w.
Proof. destruct w. unfold logged. simpl. rewrite app_nil_r. reflexivity. Qed.

Lemma logged_logged w l k : logged (logged w l) k = logged w (l ++ k).
Proof. unfold logged. simpl. rewrite app_assoc. reflexivity. Qed.

Lemma reads_only_pure {A} (r : result A) : reads_only (lift r).
Proof. intros w. exists []. rewrite logged_nil. split; [reflexivity|constructor]. Qed.

Lemma reads_only_ret {A} (a : A) : reads_only (ret a).
Proof. exact (reads_only_pure (Ok a)). Qed.

Lemma reads_only_raise {A} (e : exn) : reads_only (@raise A e).
Proof. exact (reads_only_pure (Raise e)). Qed.

Lemma reads_only_read : reads_only read.
Proof. intros w. exists []. rewrite logged_nil. split; [reflexivity|constructor]. Qed.

Lemma reads_only_bind {A B} (m : M A) (k : A -> M B) :
  reads_only m -> (forall a, reads_only (k a)) -> reads_only (m ≫= k).
Proof.
  intros Hm Hk w. destruct (Hm w) as (l1 & E1 & F1).
  unfold mbind, M_bind, bindM. destruct (m w) as [[a|e] w1]; simpl in E1; subst w1.
  - destruct (Hk a (logged w l1)) as (l2 & E2 & F2).
    exists (l1 ++ l2). rewrite E2, logged_logged. split; [reflexivity|].
    apply Forall_app. split; assumption.
  - exists l1. split; [reflexivity|assumption].
Qed.

Lemma reads_only_try {A} (m : M A) (h : exn -> M A) :
  reads_only m -> (forall e, reads_only (h e)) -> reads_only (try_except m h).
Proof.
  intros Hm Hh w. destruct (Hm w) as (l1 & E1 & F1).
  unfold try_except. destruct (m w) as [[a|e] w1]; simpl in E1; subst w1.
  - exists l1. split; [reflexivity|assumption].
  - destruct (Hh e (logged w l1)) as (l2 & E2 & F2).
    exists (l1 ++ l2). rewrite E2, logged_logged. split; [reflexivity|].
    apply Forall_app. split; assumption.
Qed.

Lemma reads_only_db_connected : reads_only db_connected.
Proof.
  apply reads_only_bind; [apply reads_only_read|].
  intros w. destruct (supabase w); [apply reads_only_ret|apply reads_only_raise].
Qed.

Lemma reads_only_client : reads_only client.
Proof.
  apply reads_only_bind; [apply reads_only_read|].
  intros w. destruct (supabase w); [apply reads_only_ret|apply reads_only_raise].
Qed.

Lemma reads_only_as_500 {A} e : reads_only (@as_500 A e).
Proof. apply reads_only_raise. Qed.

(** *** Results and pages *)

Lemma answers_try_500 {A} (m : M A) w : answers [500] (try_except m as_500 w).1.
Proof.
  unfold try_except, as_500, raise. destruct (m w) as [[a|e] w']; simpl; [exact I|].
  apply list_elem_of_singleton. reflexivity.
Qed.

Lemma try_except_ok {A} (m : M A) (h : exn -> M A) w a :
  (m w).1 = Ok a -> (try_except m h w).1 = Ok a.
Proof.
  unfold try_except. destruct (m w) as [[a'|e] w']; simpl; intros E; [exact E|discriminate].
Qed.

Global Instance created_desc_total : Total created_desc.
Proof.
  intros a b. unfold created_desc.
  destruct (created_at a), (created_at b); try tauto. lia.
Qed.

Global Instance created_desc_trans : Transitive created_desc.
Proof.
  intros a b c. unfold created_desc.
  destruct (created_at a), (created_at b), (created_at c); try tauto. lia.
Qed.

Lemma Forall_sublist {A} (P : A -> Prop) (l k : list A) :
  k `sublist_of` l -> Forall P l -> Forall P k.
Proof.
  induction 1 as [|x k l Hs IH|x k l Hs IH]; intros Hl.
  - constructor.
  - inversion Hl; subst. constructor; auto.
  - inversion Hl; subst. auto.
Qed.

Lemma StronglySorted_sublist {A} (R : relation A) (l k : list A) :
  k `sublist_of` l -> StronglySorted R l -> StronglySorted R k.
Proof.
  induction 1 as [|x k l Hs IH|x k l Hs IH]; intros Hl.
  - constructor.
  - apply StronglySorted_inv in Hl as [Hl Hx]. constructor; [auto|].
    eapply Forall_sublist; [exact Hs|exact Hx].
  - apply StronglySorted_inv in Hl as [Hl _]. auto.
Qed.

Lemma range_sublist {A} lo hi (l : list A) : range lo hi l `sublist_of` l.
Proof.
  unfold range. etransitivity; [apply sublist_take|apply sublist_drop].
Qed.

Lemma range_length {A} skip limit (l : list A) :
  0 <= limit -> Z.of_nat (length (range skip (skip + limit - 1) l)) <= limit.
Proof.
  intros H. unfold range. rewrite length_take. lia.
Qed.

(** *** Rows *)

Lemma project_lookup cs (r : dict) k :
  k ∈ cs -> project (Some cs) r !! k = r !! k.
Proof.
  intros Hk. unfold project. rewrite map_lookup_filter.
  destruct (r !! k) as [v|]; [|reflexivity]. simpl.
  rewrite option_guard_True by exact Hk. reflexivity.
Qed.

Lemma sum_prices_spec flowers : forall acc,
  Forall (fun f => is_int (f !! "price") = true) flowers ->
  sum_prices acc flowers = Ok (acc + foldr (fun f s => price_of f + s) 0 flowers).
Proof.
  induction flowers as [|f l IH]; intros acc H; simpl.
  - f_equal. lia.
  - inversion H as [|? ? H1 H2]; subst. unfold getitem.
    assert (Hp : f !! "price" = Some (VInt (price_of f))).
    { unfold price_of. destruct (f !! "price") as [[|x|s]|]; try discriminate. reflexivity. }
    rewrite Hp. simpl. rewrite IH by assumption. f_equal. lia.
Qed.

Lemma sum_prices_raises flowers : forall acc,
  Exists (fun f => is_int (f !! "price") = false) flowers ->
  sum_prices acc flowers = Raise (KeyError "price")
  \/ sum_prices acc flowers = Raise TypeError.
Proof.
  induction flowers as [|f l IH]; intros acc H; [inversion H|].
  simpl. unfold getitem.
  destruct (f !! "price") as [[|x|s]|] eqn:E; simpl; auto.
  apply IH. inversion H as [? ? H1|? ? H1]; subst; [|exact H1].
  rewrite E in H1. discriminate.
Qed.

Lemma count_low_stock_type_error flowers : forall acc,
  Exists (fun f => is_int (f !! "stock") || bool_decide (f !! "stock" = None) = false)
         flowers ->
  count_low_stock acc flowers = Raise TypeError.
Proof.
  induction flowers as [|f l IH]; intros acc H; [inversion H|].
  simpl. unfold low_stock, get.
  destruct (f !! "stock") as [[|x|s]|] eqn:E; simpl; try reflexivity.
  - apply IH. inversion H as [? ? H1|? ? H1]; subst; [|exact H1].
    rewrite E in H1. discriminate.
  - apply IH. inversion H as [? ? H1|? ? H1]; subst; [|exact H1].
    rewrite E in H1. discriminate.
Qed.

Lemma split_last_app (sep : codepoint) (base key : pystr) :
  existsb (N.eqb sep) key = false ->
  split_last sep (base ++ sep :: key) = key.
Proof.
  intros Hk. induction base as [|c base IH]; simpl.
  - rewrite Hk, N.eqb_refl. reflexivity.
  - rewrite existsb_app. simpl. rewrite N.eqb_refl, orb_true_r. simpl. exact IH.
Qed.

(** *** The endpoints that query the catalog *)

Section Queries.

Variable ilike : pystr -> pystr -> bool.

Lemma reads_only_execute q : reads_only (execute ilike q).
Proof.
  intros [sb tb bk ok ser ent nw cl]. exists [TableSelect (q_table q)].
  split; [reflexivity|]. repeat constructor.
Qed.

Lemma list_query_form search type tags low skip limit :
  list_query search type tags low skip limit
  = Query "flowers" None (q_filters (list_query search type tags low skip limit))
          true (Some (skip, skip + limit - 1)).
Proof.
  unfold list_query. cbv zeta.
  destruct (truthy (of_str search)), (type_filter type), (truthy (of_str tags)), low;
    reflexivity.
Qed.

(** X7.  A page of the list endpoint: for a page request with
    [skip >= 0] and [limit > 0] the answer holds at most [limit] rows,
    all of them rows of the catalog, newest first, and [count] is their
    number. *)
Theorem get_flowers_page (w : world) (search type tags : option pystr)
    (low_stock : bool) (skip limit : Z) :
  supabase w = true -> 0 <= skip -> 0 < limit ->
  exists fl w',
    get_flowers ilike search type tags low_stock skip limit w = (Ok fl, w')
    /\ count fl = Z.of_nat (length (flowers fl))
    /\ count fl <= limit
    /\ StronglySorted created_desc (flowers fl)
    /\ forall r, r ∈ flowers fl -> r ∈ rows w "flowers".
Proof.
  intros Hs _ Hl.
  destruct (get_flowers_run ilike search type tags low_stock skip limit w Hs)
    as (w' & E & _).
  do 2 eexists. split; [exact E|]. simpl.
  rewrite list_query_form.
  set (fs := q_filters (list_query search type tags low_stock skip limit)).
  split; [reflexivity|].
  unfold run_query. simpl. rewrite map_id.
  split; [apply range_length; lia|]. split.
  - eapply StronglySorted_sublist; [apply range_sublist|].
    apply StronglySorted_merge_sort; apply _.
  - intros r Hr. apply range_subseteq in Hr.
    rewrite merge_sort_Permutation in Hr.
    apply list_elem_of_In, filter_In in Hr as [Hr _]. apply list_elem_of_In, Hr.
Qed.

(** X8.  The type "Tất cả" (all) and the empty type are no filter: the
    list endpoint and the export query answer them as they answer an
    absent type.  Any other type is a filter: every row returned has
    exactly that type. *)
Theorem type_filter_sentinel (w : world) (search tags : option pystr)
    (low_stock : bool) (skip limit : Z) :
  get_flowers ilike search (Some ALL_TYPES) tags low_stock skip limit w
    = get_flowers ilike search None tags low_stock skip limit w
  /\ get_flowers ilike search (Some []) tags low_stock skip limit w
    = get_flowers ilike search None tags low_stock skip limit w
  /\ export_query (Some ALL_TYPES) = export_query None
  /\ export_query (Some []) = export_query None
  /\ forall t, t <> [] -> t <> ALL_TYPES ->
       export_query (Some t) = add_filter (select "flowers" None) (Eq "type" t)
       /\ (supabase w = true -> 0 <= skip -> 0 < limit ->
           exists fl w',
             get_flowers ilike search (Some t) tags low_stock skip limit w = (Ok fl, w')
             /\ forall r, r ∈ flowers fl -> r !! "type" = Some (VStr t)).
Proof.
  split; [reflexivity|]. split; [reflexivity|]. split; [reflexivity|].
  split; [reflexivity|].
  intros t Ht Hall.
  assert (T : type_filter (Some t) = Some t).
  { unfold type_filter.
    assert (T : truthy (VStr t) = true) by (destruct t; [contradiction|reflexivity]).
    rewrite T, bool_decide_eq_false_2 by exact Hall. reflexivity. }
  split; [unfold export_query; rewrite T; reflexivity|].
  intros Hs _ _.
  destruct (get_flowers_run ilike search (Some t) tags low_stock skip limit w Hs)
    as (w' & E & _).
  do 2 eexists. split; [exact E|]. simpl. intros r Hr.
  assert (Hin : In (Eq "type" t)
                   (q_filters (list_query search (Some t) tags low_stock skip limit))).
  { unfold list_query. cbv zeta. rewrite T.
    destruct (truthy (of_str search)), (truthy (of_str tags)), low_stock;
      simpl; auto 10. }
  rewrite list_query_form in Hr. apply run_query_elem in Hr as [_ Hm].
  unfold matches_all in Hm. rewrite forallb_forall in Hm.
  specialize (Hm _ Hin). simpl in Hm. apply bool_decide_eq_true in Hm. exact Hm.
Qed.

Lemma list_query_selected search type tags low skip limit r :
  matches_all ilike (q_filters (list_query search type tags low skip limit)) r
  = selected ilike search type tags low r.
Proof.
  unfold list_query, selected, contains, stock_le_10. cbv zeta.
  destruct search as [[|c s]|], (type_filter type) as [t|], tags as [[|c' s']|], low;
    simpl; unfold matches_all; simpl;
    rewrite ?andb_true_r; try reflexivity;
    rewrite ?andb_assoc; reflexivity.
Qed.

(** X9.  What the list endpoint selects: every row it returns is a row
    of the catalog that passes each test asked for (the name matches the
    searched words, the type is the one given, the tags match, the stock
    is an integer of at most 10); a test is asked for only when its
    parameter is present and not empty.  On a first page that covers the
    catalog every such row is returned. *)
Theorem get_flowers_selects (w : world) (search type tags : option pystr)
    (low_stock : bool) (skip limit : Z) :
  supabase w = true -> 0 <= skip -> 0 < limit ->
  exists fl w',
    get_flowers ilike search type tags low_stock skip limit w = (Ok fl, w')
    /\ (forall r, r ∈ flowers fl ->
          r ∈ rows w "flowers" /\ selected ilike search type tags low_stock r = true)
    /\ (skip = 0 -> Z.of_nat (length (rows w "flowers")) <= limit ->
        forall r, r ∈ rows w "flowers" ->
                  selected ilike search type tags low_stock r = true ->
                  r ∈ flowers fl).
Proof.
  intros Hs _ _.
  destruct (get_flowers_run ilike search type tags low_stock skip limit w Hs)
    as (w' & E & _).
  do 2 eexists. split; [exact E|]. simpl. split.
  - intros r Hr. rewrite list_query_form in Hr. apply run_query_elem in Hr as [Hin Hm].
    rewrite list_query_selected in Hm. auto.
  - intros -> Hl r Hin Hsel. rewrite list_query_form.
    apply (run_query_all ilike "flowers" _ w r limit Hl).
    rewrite list_query_selected. auto.
Qed.

(** X15.  The statistics of a catalog whose rows have an integer price
    and an integer or missing stock: the number of rows, the number of
    flower types, the sum of the prices, and the number of rows with a
    stock of at most 10 (a missing stock counting as 0); the handler
    sends two selects and changes nothing. *)
Theorem get_stats_totals (w : world) :
  supabase w = true ->
  Forall (fun f => stats_row f = true) (rows w "flowers") ->
  get_stats ilike w
  = (Ok {| total_flowers := Z.of_nat (length (rows w "flowers"));
           total_types := Z.of_nat (length (rows w "flower_types"));
           total_value := foldr (fun f s => price_of f + s) 0 (rows w "flowers");
           low_stock_count :=
             Z.of_nat (length (List.filter stock_default_le_10 (rows w "flowers"))) |},
     logged w [TableSelect "flowers"; TableSelect "flower_types"]).
Proof.
  intros Hs Hrows.
  assert (Hp : Forall (fun f => is_int (f !! "price") = true) (rows w "flowers")).
  { eapply List.Forall_impl; [|exact Hrows]. intros f Hf. unfold stats_row in Hf.
    apply andb_true_iff in Hf as [Hf _]. exact Hf. }
  assert (Hst : Forall (fun f => is_int (f !! "stock") || bool_decide (f !! "stock" = None)
                                 = true) (rows w "flowers")).
  { eapply List.Forall_impl; [|exact Hrows]. intros f Hf. unfold stats_row in Hf.
    apply andb_true_iff in Hf as [_ Hf]. exact Hf. }
  unfold get_stats, client. run. rewrite Hs.
  destruct w as [sb tb bk ok ser ent nw cl].
  unfold execute, record. run. rewrite !run_query_select_all.
  unfold rows in *. simpl in *.
  rewrite (sum_prices_spec _ 0 Hp), (count_low_stock_acc _ 0 Hst). simpl.
  unfold logged. simpl. rewrite <- app_assoc. reflexivity.
Qed.

(** X16.  The statistics of a catalog they cannot add up.  A row without
    an integer price makes the handler raise [KeyError] (no price) or
    [TypeError] (a price that is no number); when all prices are
    integers, a row whose stock is present but no integer (null, or
    text) makes it raise [TypeError].  The handler has no [try], so the
    exception leaves it as it is. *)
Theorem get_stats_bad_rows (w : world) :
  supabase w = true ->
  (Exists (fun f => is_int (f !! "price") = false) (rows w "flowers") ->
   (get_stats ilike w).1 = Raise (KeyError "price")
   \/ (get_stats ilike w).1 = Raise TypeError)
  /\ (Forall (fun f => is_int (f !! "price") = true) (rows w "flowers") ->
      Exists (fun f => is_int (f !! "stock") || bool_decide (f !! "stock" = None) = false)
             (rows w "flowers") ->
      (get_stats ilike w).1 = Raise TypeError).
Proof.
  intros Hs.
  assert (E : (get_stats ilike w).1
              = Py.bind (sum_prices 0 (rows w "flowers")) (fun total =>
                Py.bind (count_low_stock 0 (rows w "flowers")) (fun low =>
                Ok {| total_flowers := Z.of_nat (length (rows w "flowers"));
                      total_types := Z.of_nat (length (rows w "flower_types"));
                      total_value := total; low_stock_count := low |}))).
  { unfold get_stats, client. run. rewrite Hs.
    destruct w as [sb tb bk ok ser ent nw cl].
    unfold execute, record. run. rewrite !run_query_select_all.
    unfold rows in *. simpl in *.
    destruct (sum_prices 0 _) as [t|e]; simpl; [|reflexivity].
    destruct (count_low_stock 0 _) as [c|e]; reflexivity. }
  rewrite E. split.
  - intros Hbad. destruct (sum_prices_raises _ 0 Hbad) as [-> | ->]; auto.
  - intros Hp Hbad. rewrite (sum_prices_spec _ 0 Hp). simpl.
    rewrite (count_low_stock_type_error _ 0 Hbad). reflexivity.
Qed.

(** X17.  The two reference lists are returned whole and in stored
    order: all rows of [flower_types], all rows of [unit_types], each
    after one select and with nothing changed. *)
Theorem reference_lists (w : world) :
  supabase w = true ->
  get_flower_types ilike w
  = (Ok (rows w "flower_types"), logged w [TableSelect "flower_types"])
  /\ get_unit_types ilike w
     = (Ok (rows w "unit_types"), logged w [TableSelect "unit_types"]).
Proof.
  intros Hs. unfold get_flower_types, get_unit_types, client. run. rewrite Hs.
  destruct w as [sb tb bk ok ser ent nw cl].
  unfold execute, record. run. rewrite !run_query_select_all. split; reflexivity.
Qed.

Lemma filter_matches_id fid (l : list dict) :
  List.filter (matches_all ilike [Eq "id" fid]) l = List.filter (has_id fid) l.
Proof.
  apply filter_ext. intros r. unfold matches_all. simpl. apply andb_true_r.
Qed.

(** What a delete request does to the catalog and the bucket. *)
Lemma delete_flower_run (w : world) (flower_id : pystr) :
  supabase w = true ->
  (forall r, head (List.filter (has_id flower_id) (rows w "flowers")) = Some r ->
             is_opt_text (r !! "image_url") = true) ->
  exists w',
    delete_flower ilike flower_id w = (Ok "Deleted"%string, w')
    /\ rows w' "flowers"
       = List.filter (fun r => negb (has_id flower_id r)) (rows w "flowers")
    /\ (forall t, t <> "flowers"%string -> rows w' t = rows w t)
    /\ match head (List.filter (has_id flower_id) (rows w "flowers")) ≫= blob_key with
       | Some key =>
           calls w' = calls w ++ [TableSelect "flowers"; StorageRemove key;
                                  TableDelete "flowers" flower_id]
           /\ bucket w' = if storage_ok w then delete key (bucket w) else bucket w
       | None =>
           calls w' = calls w ++ [TableSelect "flowers"; TableDelete "flowers" flower_id]
           /\ bucket w' = bucket w
       end.
Proof.
  intros Hs Himg. unfold delete_flower. run. rewrite (db_connected_ok w Hs).
  destruct w as [sb tb bk ok ser ent nw cl]. unfold rows in *. simpl in *.
  unfold execute, record. run. simpl.
  unfold run_query, rows. simpl. rewrite filter_matches_id.
  destruct (List.filter (has_id flower_id) (default [] (tb !! "flowers")))
    as [|r rest] eqn:F; simpl.
  - unfold delete_eq_id, record, set_tables. run. simpl.
    eexists. split; [reflexivity|]. simpl. split; [|split].
    + rewrite lookup_insert_eq. reflexivity.
    + intros t Ht. rewrite lookup_insert_ne by congruence. reflexivity.
    + rewrite <- app_assoc. split; reflexivity.
  - specialize (Himg r eq_refl).
    change (filter (λ kv : string * value, kv.1 ∈ ["image_url"]) r)
      with (project (Some ["image_url"]) r).
    unfold get. rewrite (project_lookup ["image_url"] r "image_url") by set_solver.
    unfold blob_key.
    destruct (r !! "image_url") as [[| |[|c s]]|] eqn:E; try discriminate; simpl.
    1,2,4: eexists; (split; [reflexivity|]); simpl; (split; [|split]);
      [ rewrite lookup_insert_eq; reflexivity
      | intros t Ht; rewrite lookup_insert_ne by congruence; reflexivity
      | rewrite <- app_assoc; split; reflexivity ].
    unfold storage_remove, record, set_bucket. run. simpl.
    destruct ok; simpl;
      eexists; (split; [reflexivity|]); simpl; (split; [|split]);
      [ rewrite lookup_insert_eq; reflexivity
      | intros t Ht; rewrite lookup_insert_ne by congruence; reflexivity
      | rewrite <- !app_assoc; split; reflexivity
      | rewrite lookup_insert_eq; reflexivity
      | intros t Ht; rewrite lookup_insert_ne by congruence; reflexivity
      | rewrite <- !app_assoc; split; reflexivity ].
Qed.

(** X13.  A delete request answers "Deleted" and removes every row with
    the id of the request, leaving the other rows, in their order, and
    the other tables as they were.  The image is looked up in the first
    such row: when it has a URL that is not empty, one removal is sent
    to the object store for the last path segment of the URL, and a
    refusal of the object store is ignored (the bucket then keeps the
    blob); when it has none, no removal is sent.  (The image URL of that
    row is text or null, as the data model has it.) *)
Theorem delete_flower_removes (w : world) (flower_id : pystr) :
  supabase w = true ->
  (forall r, head (List.filter (has_id flower_id) (rows w "flowers")) = Some r ->
             is_opt_text (r !! "image_url") = true) ->
  exists w',
    delete_flower ilike flower_id w = (Ok "Deleted"%string, w')
    /\ rows w' "flowers"
       = List.filter (fun r => negb (has_id flower_id r)) (rows w "flowers")
    /\ Forall (fun r => has_id flower_id r = false) (rows w' "flowers")
    /\ (forall t, t <> "flowers"%string -> rows w' t = rows w t)
    /\ match head (List.filter (has_id flower_id) (rows w "flowers")) ≫= blob_key with
       | Some key =>
           calls w' = calls w ++ [TableSelect "flowers"; StorageRemove key;
                                  TableDelete "flowers" flower_id]
           /\ bucket w' = if storage_ok w then delete key (bucket w) else bucket w
       | None =>
           calls w' = calls w ++ [TableSelect "flowers"; TableDelete "flowers" flower_id]
           /\ bucket w' = bucket w
       end.
Proof.
  intros Hs Himg.
  destruct (delete_flower_run w flower_id Hs Himg) as (w' & E & R & T & C).
  exists w'. split; [exact E|]. split; [exact R|]. split; [|split; [exact T|exact C]].
  rewrite R. apply List.Forall_forall. intros r Hr.
  apply filter_In in Hr as [_ Hr]. apply negb_true_iff in Hr. exact Hr.
Qed.

End Queries.

(** *** The upload helper and the create endpoint *)

Section Uploads.

Variable decode : bytes -> result PIL.image.
Variable resample_LANCZOS : PIL.image -> Z * Z -> list PIL.pixel.
Variable jpeg_encode : PIL.image -> Z -> bytes.
Variable uuid4_hex : nat -> pystr.
Variable get_public_url : pystr -> pystr.

Local Abbreviation resize := (resize_image decode resample_LANCZOS jpeg_encode).
Local Abbreviation upload :=
  (upload_image_to_supabase decode resample_LANCZOS jpeg_encode uuid4_hex get_public_url).
Local Abbreviation create_flower' :=
  (create_flower decode resample_LANCZOS jpeg_encode uuid4_hex get_public_url).

(** X4.  The upload helper never raises and never touches the tables.
    It returns the stripped public URL of the key ["flower_<hex>.jpg"],
    with the normalised image stored under that key by one upload, when
    the client is there, the image can be normalised and the object
    store accepts it; in every other case it returns [None] and the
    bucket is as it was. *)
Theorem upload_outcome (f : UploadFile) (flower_name : value) (w : world) :
  let key := upload_key uuid4_hex w in
  exists v w', upload f flower_name w = (Ok v, w')
    /\ tables w' = tables w
    /\ ((exists b, supabase w = true /\ resize (file_read f) = Ok b /\ storage_ok w = true
           /\ v = VStr (strip (get_public_url key))
           /\ bucket w' = <[key := b]> (bucket w)
           /\ calls w' = calls w ++ [StorageUpload key b])
        \/ (v = VNone /\ bucket w' = bucket w
            /\ (supabase w = false \/ storage_ok w = false
                \/ exists e, resize (file_read f) = Raise e))).
Proof.
  intros key. destruct (supabase w) eqn:Hs.
  - destruct (resize (file_read f)) as [b|e] eqn:Hr.
    + destruct (storage_ok w) eqn:Ho.
      * rewrite (upload_succeeds _ _ _ _ _ f flower_name w b Hs Hr Ho). do 2 eexists.
        split; [reflexivity|]. split; [reflexivity|]. left. exists b. simpl. auto 10.
      * rewrite (upload_storage_fails _ _ _ _ _ f flower_name w b Hs Hr Ho). do 2 eexists.
        split; [reflexivity|]. split; [reflexivity|]. right. simpl. auto.
    + rewrite (upload_resize_fails _ _ _ _ _ f flower_name w e Hs Hr). do 2 eexists.
      split; [reflexivity|]. split; [reflexivity|]. right. eauto 10.
  - rewrite (upload_not_connected _ _ _ _ _ f flower_name w Hs). do 2 eexists.
    split; [reflexivity|]. split; [reflexivity|]. right. auto.
Qed.

(** What [create_flower] does once the client is there. *)
Lemma create_flower_run (w : world) name price type unit stock tags image :
  supabase w = true ->
  exists v w1 w',
    (match image with
     | Some f => if truthy (filename f) then upload f (VStr name) else ret VNone
     | None => ret VNone
     end) w = (Ok v, w1)
    /\ let data : dict :=
         {[ "name" := VStr name; "price" := VInt price; "type" := VStr type;
            "unit" := VStr unit; "stock" := VInt stock; "tags" := VStr tags;
            "image_url" := v ]} in
       create_flower' name price type unit stock tags image w
       = (Ok {| message := "Flower created"; flower := stored data (serial w) |}, w')
       /\ supabase w' = true
       /\ tables w' = <["flowers" := rows w "flowers" ++ [stored data (serial w)]]> (tables w)
       /\ serial w' = serial w + 1
       /\ bucket w' = bucket w1
       /\ calls w' = calls w1 ++ [TableInsert "flowers" data]
       /\ (v = VNone \/ exists url, v = VStr url)
       /\ storage_ok w' = storage_ok w1.
Proof.
  intros Hs.
  assert (U : exists v w1,
    (match image with
     | Some f => if truthy (filename f) then upload f (VStr name) else ret VNone
     | None => ret VNone
     end) w = (Ok v, w1)
    /\ supabase w1 = supabase w /\ tables w1 = tables w /\ serial w1 = serial w
    /\ (v = VNone \/ exists url, v = VStr url)).
  { destruct image as [f|]; [destruct (truthy (filename f))|].
    - destruct (upload_frame decode resample_LANCZOS jpeg_encode uuid4_hex get_public_url
                  f (VStr name) w) as (v & w1 & E & H1 & H2 & H3 & _ & H4 & _).
      exists v, w1. auto.
    - exists VNone, w. unfold ret. auto 10.
    - exists VNone, w. unfold ret. auto 10. }
  destruct U as (v & w1 & E & H1 & H2 & H3 & H4).
  exists v, w1.
  unfold create_flower. run. rewrite (db_connected_ok w Hs). unfold ret in E. rewrite E.
  destruct w1 as [sb tb bk ok ser ent nw cl]. simpl in *. subst sb tb ser.
  unfold insert, record, next_serial, set_tables, first_row. run. simpl.
  eexists. split; [reflexivity|]. split; [reflexivity|].
  rewrite Hs. unfold rows. simpl. auto 10.
Qed.

(** X10.  With the client there, a create request always inserts one
    row and answers with it: the row is appended to the catalog, the
    other tables stay as they are, the row holds the six form fields as
    they were sent, the id and the creation time the store assigned, and
    an image URL that is null or text; without an image (or with an
    image that has no filename) the URL is null, the bucket is untouched
    and the insert is the only call. *)
Theorem create_flower_inserts (w : world) (name : pystr) (price : Z)
    (type unit : pystr) (stock : Z) (tags : pystr) (image : option UploadFile) :
  supabase w = true ->
  exists r w',
    create_flower' name price type unit stock tags image w
    = (Ok {| message := "Flower created"; flower := r |}, w')
    /\ rows w' "flowers" = rows w "flowers" ++ [r]
    /\ (forall t, t <> "flowers"%string -> rows w' t = rows w t)
    /\ r !! "id" = Some (VStr (str_int (serial w)))
    /\ r !! "created_at" = Some (VInt (serial w))
    /\ serial w' = serial w + 1
    /\ r !! "name" = Some (VStr name) /\ r !! "price" = Some (VInt price)
    /\ r !! "type" = Some (VStr type) /\ r !! "unit" = Some (VStr unit)
    /\ r !! "stock" = Some (VInt stock) /\ r !! "tags" = Some (VStr tags)
    /\ (exists v, r !! "image_url" = Some v /\ (v = VNone \/ exists url, v = VStr url))
    /\ (has_image image = false ->
        r !! "image_url" = Some VNone /\ bucket w' = bucket w
        /\ calls w' = calls w ++ [TableInsert "flowers"
                                    (new_flower name price type unit stock tags)]).
Proof.
  intros Hs.
  destruct (create_flower_run w name price type unit stock tags image Hs)
    as (v & w1 & w' & E & R & _ & T & S & B & C & V & _).
  do 2 eexists. split; [exact R|].
  split; [unfold rows at 1; rewrite T, lookup_insert_eq; reflexivity|].
  split; [intros t Ht; unfold rows; rewrite T, lookup_insert_ne by congruence; reflexivity|].
  split; [reflexivity|]. split; [reflexivity|]. split; [exact S|].
  do 6 (split; [reflexivity|]).
  split; [exists v; split; [reflexivity|exact V]|].
  intros Hi.
  assert (v = VNone /\ w1 = w) as [-> ->].
  { destruct image as [f|]; simpl in Hi; [rewrite Hi in E|];
      unfold ret in E; injection E as <- <-; auto. }
  split; [reflexivity|]. split; [exact B|exact C].
Qed.

End Uploads.

(** *** Create, update and delete together *)

Section Catalog.

Variable ilike : pystr -> pystr -> bool.
Variable decode : bytes -> result PIL.image.
Variable resample_LANCZOS : PIL.image -> Z * Z -> list PIL.pixel.
Variable jpeg_encode : PIL.image -> Z -> bytes.
Variable uuid4_hex : nat -> pystr.
Variable get_public_url : pystr -> pystr.

Local Abbreviation resize := (resize_image decode resample_LANCZOS jpeg_encode).
Local Abbreviation upload :=
  (upload_image_to_supabase decode resample_LANCZOS jpeg_encode uuid4_hex get_public_url).
Local Abbreviation update_flower' :=
  (update_flower ilike decode resample_LANCZOS jpeg_encode uuid4_hex get_public_url).
Local Abbreviation create_flower' :=
  (create_flower decode resample_LANCZOS jpeg_encode uuid4_hex get_public_url).

(** X11.  A row that was created is listed: after a create request, the
    unfiltered first page of the list endpoint, when it covers the
    catalog, holds the row the create request answered with and the rows
    that were there before, and nothing else; its count is one more than
    the number of rows before. *)
Theorem create_flower_then_listed (w : world) (name : pystr) (price : Z)
    (type unit : pystr) (stock : Z) (tags : pystr) (image : option UploadFile)
    (limit : Z) :
  supabase w = true -> Z.of_nat (length (rows w "flowers")) < limit ->
  exists r w1 fl w2,
    create_flower' name price type unit stock tags image w
    = (Ok {| message := "Flower created"; flower := r |}, w1)
    /\ get_flowers ilike None None None false 0 limit w1 = (Ok fl, w2)
    /\ r ∈ flowers fl
    /\ (forall r', r' ∈ flowers fl <-> r' = r \/ r' ∈ rows w "flowers")
    /\ count fl = Z.of_nat (length (rows w "flowers")) + 1.
Proof.
  intros Hs Hl.
  destruct (create_flower_run decode resample_LANCZOS jpeg_encode uuid4_hex get_public_url
              w name price type unit stock tags image Hs)
    as (v & w0 & w1 & _ & R & Hs1 & T & _).
  destruct (get_flowers_run ilike None None None false 0 limit w1 Hs1) as (w2 & G & _).
  set (r := stored _ (serial w)) in *.
  exists r, w1. do 2 eexists. split; [exact R|]. split; [exact G|].
  assert (Hrows : rows w1 "flowers" = rows w "flowers" ++ [r]).
  { unfold rows at 1. rewrite T, lookup_insert_eq. reflexivity. }
  simpl.
  assert (Hlen : Z.of_nat (length (rows w1 "flowers")) <= limit).
  { rewrite Hrows, length_app. simpl. lia. }
  change (list_query None None None false 0 limit)
    with (Query "flowers" None [] true (Some (0, 0 + limit - 1))).
  assert (Hmem : forall r', r' ∈ run_query ilike
                              (Query "flowers" None [] true (Some (0, 0 + limit - 1))) w1
                            <-> r' = r \/ r' ∈ rows w "flowers").
  { intros r'. rewrite (run_query_all ilike "flowers" [] w1 r' limit Hlen).
    rewrite Hrows, elem_of_app, list_elem_of_singleton. unfold matches_all. simpl.
    tauto. }
  split; [apply Hmem; left; reflexivity|]. split; [exact Hmem|].
  unfold run_query. simpl. rewrite map_id, range_all.
  - rewrite merge_sort_Permutation.
    assert (F : forall l : list dict, List.filter (matches_all ilike []) l = l).
    { induction l as [|x l IH]; simpl; [reflexivity|]. rewrite IH. reflexivity. }
    rewrite F, Hrows, length_app. simpl. lia.
  - rewrite merge_sort_Permutation.
    pose proof (filter_length_le (matches_all ilike []) (rows w1 "flowers")). lia.
Qed.

(** X12.  An update request that carries an effective field, or an
    image whose upload delivers a URL, and whose id is in the catalog,
    answers "Updated" with the first row of that id as the store now
    holds it: its id is the id of the request, and each column holds the
    effective value of its field, else what the row held before. *)
Theorem update_flower_response (w : world) (flower_id : pystr) (name : option pystr)
    (price : option Z) (type unit : option pystr) (stock : option Z)
    (tags : option pystr) (image : option UploadFile) (r : dict) (rest : list dict) :
  supabase w = true ->
  List.filter (has_id flower_id) (rows w "flowers") = r :: rest ->
  let image_url :=
    match image with
    | Some f =>
        if truthy (filename f)
        then uploaded_url (upload f (py_or (of_str name) (VStr (u "flower"))) w).1
        else None
    | None => None
    end in
  update_fields name price type unit stock tags <> ∅ \/ image_url <> None ->
  exists r',
    (update_flower' flower_id name price type unit stock tags image w).1
    = Ok {| message := "Updated"; flower := r' |}
    /\ r' !! "id" = Some (VStr flower_id)
    /\ forall k, r' !! k = merged name price type unit stock tags image_url r k.
Proof.
  intros Hs Hf image_url Hd.
  assert (Hid : r !! "id" = Some (VStr flower_id)).
  { assert (Hin : In r (List.filter (has_id flower_id) (rows w "flowers")))
      by (rewrite Hf; left; reflexivity).
    apply filter_In in Hin as [_ Hin]. unfold has_id in Hin.
    apply bool_decide_eq_true in Hin. exact Hin. }
  assert (Hm : forall url, merged name price type unit stock tags url r "id"
                           = Some (VStr flower_id)).
  { intros url. unfold merged. repeat (case_decide; [discriminate|]). exact Hid. }
  destruct (has_image image) eqn:Hi.
  - destruct image as [f|]; [simpl in Hi|discriminate].
    destruct (upload_frame decode resample_LANCZOS jpeg_encode uuid4_hex get_public_url
                f (py_or (of_str name) (VStr (u "flower"))) w)
      as (v & w1 & Hu & _ & Ht & _ & _ & Hv & _).
    rewrite (update_flower_image ilike decode resample_LANCZOS jpeg_encode uuid4_hex
               get_public_url flower_id name price type unit stock tags f w v w1 Hs Hi Hu).
    assert (Hrows : rows w1 "flowers" = rows w "flowers")
      by (unfold rows; rewrite Ht; reflexivity).
    subst image_url. rewrite Hi, Hu in *. simpl in *.
    destruct Hv as [->|[[|c url] ->]]; simpl in *.
    + destruct Hd as [Hd|Hd]; [|congruence].
      eexists. split.
      { apply try_except_ok. rewrite (send_update_result ilike _ flower_id w1 Hd), Hrows, Hf.
        reflexivity. }
      split; [rewrite union_merged; apply Hm|]. apply union_merged.
    + destruct Hd as [Hd|Hd]; [|congruence].
      eexists. split.
      { apply try_except_ok. rewrite (send_update_result ilike _ flower_id w1 Hd), Hrows, Hf.
        reflexivity. }
      split; [rewrite union_merged; apply Hm|]. apply union_merged.
    + eexists. split.
      { apply try_except_ok.
        rewrite (send_update_result ilike _ flower_id w1), Hrows, Hf
          by apply insert_non_empty.
        reflexivity. }
      split; [rewrite union_merged_image; apply Hm|]. apply union_merged_image.
  - assert (Hnone : image_url = None).
    { subst image_url. destruct image as [f|]; [simpl in Hi; rewrite Hi|]; reflexivity. }
    rewrite Hnone in *. destruct Hd as [Hd|Hd]; [|congruence].
    rewrite (update_flower_fields ilike decode resample_LANCZOS jpeg_encode uuid4_hex
               get_public_url flower_id name price type unit stock tags image w Hs Hi).
    eexists. split.
    { apply try_except_ok. rewrite (send_update_result ilike _ flower_id w Hd), Hf.
      reflexivity. }
    split; [rewrite union_merged; apply Hm|]. apply union_merged.
Qed.

(** X14.  Creating a flower with an image and deleting it again leaves
    the catalog and the bucket as they were.  Where the upload succeeds,
    the public URL of a key ends in "/" and the key, the hexadecimal
    part of the key holds no "/", the key is new to the bucket and the
    id the store assigns is new to the catalog: the create request
    stores the blob and a row with that URL, and the delete request for
    the id of that row removes the blob under the very key of the upload
    and the row. *)
Theorem create_then_delete (w : world) (name : pystr) (price : Z) (type unit : pystr)
    (stock : Z) (tags : pystr) (f : UploadFile) (b : bytes) (base : pystr) :
  supabase w = true -> storage_ok w = true ->
  truthy (filename f) = true -> resize (file_read f) = Ok b ->
  let key := upload_key uuid4_hex w in
  let id := str_int (serial w) in
  strip (get_public_url key) = base ++ 47%N :: key ->
  existsb (N.eqb 47%N) (uuid4_hex (entropy w)) = false ->
  bucket w !! key = None ->
  Forall (fun r => has_id id r = false) (rows w "flowers") ->
  exists r w1 w2,
    create_flower' name price type unit stock tags (Some f) w
    = (Ok {| message := "Flower created"; flower := r |}, w1)
    /\ r !! "id" = Some (VStr id)
    /\ r !! "image_url" = Some (VStr (base ++ 47%N :: key))
    /\ bucket w1 = <[key := b]> (bucket w)
    /\ rows w1 "flowers" = rows w "flowers" ++ [r]
    /\ delete_flower ilike id w1 = (Ok "Deleted"%string, w2)
    /\ rows w2 "flowers" = rows w "flowers"
    /\ bucket w2 = bucket w
    /\ calls w2 = calls w ++ [StorageUpload key b;
                              TableInsert "flowers"
                                {[ "name" := VStr name; "price" := VInt price;
                                   "type" := VStr type; "unit" := VStr unit;
                                   "stock" := VInt stock; "tags" := VStr tags;
                                   "image_url" := VStr (base ++ 47%N :: key) ]};
                              TableSelect "flowers"; StorageRemove key;
                              TableDelete "flowers" id].
Proof.
  intros Hs Ho Hf Hr key id Hurl Hhex Hfresh Habs.
  destruct (create_flower_run decode resample_LANCZOS jpeg_encode uuid4_hex get_public_url
              w name price type unit stock tags (Some f) Hs)
    as (v & w0 & w1 & E & R & Hs1 & T & S & B & C & _ & Hok).
  rewrite Hf, (upload_succeeds decode resample_LANCZOS jpeg_encode uuid4_hex get_public_url
                 f (VStr name) w b Hs Hr Ho) in E.
  fold key in E. rewrite Hurl in E. injection E as <- <-.
  simpl in B, C, Hok.
  set (r := stored _ (serial w)) in *.
  assert (Hrows : rows w1 "flowers" = rows w "flowers" ++ [r]).
  { unfold rows at 1. rewrite T, lookup_insert_eq. reflexivity. }
  assert (Hid : has_id id r = true) by (apply bool_decide_eq_true; reflexivity).
  assert (Hsel : List.filter (has_id id) (rows w1 "flowers") = [r]).
  { rewrite Hrows, List.filter_app, (filter_has_id_absent id _ Habs). simpl.
    rewrite Hid. reflexivity. }
  assert (Hkey : existsb (N.eqb 47%N) key = false).
  { subst key. unfold upload_key. rewrite !existsb_app. unfold codepoint in *.
    rewrite Hhex. vm_compute. reflexivity. }
  assert (Hblob : blob_key r = Some key).
  { unfold blob_key.
    assert (L : r !! "image_url" = Some (VStr (base ++ 47%N :: key))) by reflexivity.
    assert (Hne : exists c s, base ++ 47%N :: key = c :: s)
      by (destruct base; simpl; eauto).
    destruct Hne as (c & s & Eb). rewrite L, Eb. rewrite <- Eb. f_equal.
    apply split_last_app, Hkey. }
  destruct (delete_flower_run ilike w1 id Hs1) as (w2 & D & Dr & _ & Dc).
  { rewrite Hsel. intros r' [= <-]. reflexivity. }
  rewrite Hsel in Dc. simpl in Dc. rewrite Hblob in Dc. destruct Dc as [Dc Db].
  exists r, w1, w2. split; [exact R|]. split; [reflexivity|]. split; [reflexivity|].
  split; [exact B|]. split; [exact Hrows|]. split; [exact D|]. split; [|split].
  - rewrite Dr, Hrows, List.filter_app. simpl. rewrite Hid. simpl. rewrite app_nil_r.
    clear -Habs. induction Habs as [|x l Hx _ IH]; simpl; [reflexivity|].
    rewrite Hx. simpl. f_equal. exact IH.
  - rewrite Db, Hok, Ho, B. apply delete_insert_id, Hfresh.
  - rewrite Dc, C. rewrite <- !app_assoc. reflexivity.
Qed.

End Catalog.

(** *** All endpoints *)

Section Streams.

Variable ilike : pystr -> pystr -> bool.
Variable xlsx_save : worksheet -> bytes.
Variable pdf_build : list flowable -> bytes.

(** X5.  The endpoints that answer queries (the list, the two reference
    lists, the statistics and the two exports) never change what is
    stored, whatever they answer: tables, bucket and the rest of the
    world stay as they are, and the only calls logged are selects. *)
Theorem query_endpoints_read_only :
  (forall search type tags low skip limit,
      reads_only (get_flowers ilike search type tags low skip limit))
  /\ reads_only (get_flower_types ilike)
  /\ reads_only (get_unit_types ilike)
  /\ reads_only (get_stats ilike)
  /\ (forall type, reads_only (export_excel ilike xlsx_save type))
  /\ (forall type, reads_only (export_pdf ilike pdf_build type)).
Proof.
  repeat split; try (intros search type tags low skip limit); try (intros type);
    unfold get_flowers, get_flower_types, get_unit_types, get_stats,
    export_excel, export_pdf;
    repeat first
      [ apply reads_only_db_connected | apply reads_only_client
      | apply reads_only_execute | apply reads_only_try | apply reads_only_bind
      | apply reads_only_ret
      | apply reads_only_pure | apply reads_only_read | apply reads_only_as_500
      | match goal with |- forall _, _ => intro end ].
Qed.

End Streams.

Section Handlers.

Variable ilike : pystr -> pystr -> bool.
Variable decode : bytes -> result PIL.image.
Variable resample_LANCZOS : PIL.image -> Z * Z -> list PIL.pixel.
Variable jpeg_encode : PIL.image -> Z -> bytes.
Variable uuid4_hex : nat -> pystr.
Variable get_public_url : pystr -> pystr.
Variable xlsx_save : worksheet -> bytes.
Variable pdf_build : list flowable -> bytes.

Local Abbreviation update_flower' :=
  (update_flower ilike decode resample_LANCZOS jpeg_encode uuid4_hex get_public_url).
Local Abbreviation create_flower' :=
  (create_flower decode resample_LANCZOS jpeg_encode uuid4_hex get_public_url).

(** X6.  The statuses of the guarded endpoints.  Whatever the request
    and the state of the stores, the list, create, delete and export
    endpoints either succeed or raise an [HTTPException] of status 500,
    and the update endpoint either succeeds or raises one of status 400,
    404 or 500; no other exception leaves them. *)
Theorem endpoint_statuses (w : world) :
  (forall search type tags low skip limit,
      answers [500] (get_flowers ilike search type tags low skip limit w).1)
  /\ (forall name price type unit stock tags image,
      answers [500] (create_flower' name price type unit stock tags image w).1)
  /\ (forall fid, answers [500] (delete_flower ilike fid w).1)
  /\ (forall type, answers [500] (export_excel ilike xlsx_save type w).1)
  /\ (forall type, answers [500] (export_pdf ilike pdf_build type w).1)
  /\ (forall fid name price type unit stock tags image,
      answers [400; 404; 500]
              (update_flower' fid name price type unit stock tags image w).1).
Proof.
  repeat split; intros; try apply answers_try_500.
  destruct (supabase w) eqn:Hs.
  - assert (G : forall data w1,
               answers [400; 404; 500]
                 (try_except (send_update ilike data fid) keep_http w1).1).
    { intros data w1. destruct (decide (data = ∅)) as [->|Hne].
      - rewrite (try_keep_http_result _ w1 400 (Msg "No data to update")).
        + simpl. set_solver.
        + rewrite send_update_empty. reflexivity.
      - pose proof (send_update_result ilike data fid w1 Hne) as R.
        destruct (List.filter (has_id fid) (rows w1 "flowers")) as [|r rest].
        + rewrite (try_keep_http_result _ w1 404 (Msg "Flower not found") R).
          simpl. set_solver.
        + unfold try_except. destruct (send_update ilike data fid w1) as [[a|e] w2];
            simpl in *; [exact I|discriminate]. }
    destruct (has_image image) eqn:Hi.
    + destruct image as [f|]; [simpl in Hi|discriminate].
      destruct (upload_frame decode resample_LANCZOS jpeg_encode uuid4_hex get_public_url
                  f (py_or (of_str name) (VStr (u "flower"))) w)
        as (v & w1 & Hu & _).
      rewrite (update_flower_image ilike decode resample_LANCZOS jpeg_encode uuid4_hex
                 get_public_url fid name price type unit stock tags f w v w1 Hs Hi Hu).
      apply G.
    + rewrite (update_flower_fields ilike decode resample_LANCZOS jpeg_encode uuid4_hex
                 get_public_url fid name price type unit stock tags image w Hs Hi).
      apply G.
  - rewrite update_flower_not_connected by exact Hs. simpl. set_solver.
Qed.

(** X18.  Without a client ([supabase] is [None]) no endpoint touches a
    store or changes anything.  The update endpoint raises the guard's
    own exception, status 500 with the detail "DB not connected"; the
    list, create and delete endpoints catch that exception and raise a
    new one of status 500 whose detail is the text of the first; the
    reference lists and the statistics, which have no guard, let the
    [AttributeError] of the method call on [None] out; the exports turn
    that error into status 500. *)
Theorem without_client (w : world) :
  supabase w = false ->
  let refused : exn := HTTPException 500 (Msg "DB not connected") in
  (forall search type tags low skip limit,
      get_flowers ilike search type tags low skip limit w
      = (Raise (HTTPException 500 (StrOf refused)), w))
  /\ (forall name price type unit stock tags image,
      create_flower' name price type unit stock tags image w
      = (Raise (HTTPException 500 (StrOf refused)), w))
  /\ (forall fid, delete_flower ilike fid w = (Raise (HTTPException 500 (StrOf refused)), w))
  /\ (forall fid name price type unit stock tags image,
      update_flower' fid name price type unit stock tags image w = (Raise refused, w))
  /\ get_flower_types ilike w = (Raise AttributeError, w)
  /\ get_unit_types ilike w = (Raise AttributeError, w)
  /\ get_stats ilike w = (Raise AttributeError, w)
  /\ (forall type, export_excel ilike xlsx_save type w
                   = (Raise (HTTPException 500 (StrOf AttributeError)), w))
  /\ (forall type, export_pdf ilike pdf_build type w
                   = (Raise (HTTPException 500 (StrOf AttributeError)), w)).
Proof.
  intros Hs refused. subst refused.
  repeat split; intros;
    unfold get_flowers, create_flower, delete_flower, update_flower, get_flower_types,
      get_unit_types, get_stats, export_excel, export_pdf, db_connected, client;
    run; rewrite Hs; reflexivity.
Qed.

End Handlers.

(** *** The further properties on the sample data *)

Lemma get_flowers_page_witness :
  exists fl w',
    get_flowers Sample.ilike None None None false 1 2 Sample.shop = (Ok fl, w')
    /\ count fl = Z.of_nat (length (flowers fl))
    /\ count fl <= 2
    /\ StronglySorted created_desc (flowers fl)
    /\ forall r, r ∈ flowers fl -> r ∈ rows Sample.shop "flowers".
Proof.
  apply (get_flowers_page Sample.ilike Sample.shop None None None false 1 2 eq_refl);
    vm_compute; congruence.
Defined.

(** The second page of two of the sample shop, newest first. *)
Example get_flowers_second_page :
  (get_flowers Sample.ilike None None None false 1 2 Sample.shop).1
  = Ok {| flowers := [Sample.lily; Sample.rose]; count := 2 |}.
Proof. vm_compute. reflexivity. Qed.

Lemma get_flowers_selects_witness :
  exists fl w',
    get_flowers Sample.ilike None (Some (u "White")) None true 0 100 Sample.shop
    = (Ok fl, w')
    /\ (forall r, r ∈ flowers fl ->
          r ∈ rows Sample.shop "flowers"
          /\ selected Sample.ilike None (Some (u "White")) None true r = true)
    /\ (0 = 0 -> Z.of_nat (length (rows Sample.shop "flowers")) <= 100 ->
        forall r, r ∈ rows Sample.shop "flowers" ->
                  selected Sample.ilike None (Some (u "White")) None true r = true ->
                  r ∈ flowers fl).
Proof.
  apply (get_flowers_selects Sample.ilike Sample.shop None (Some (u "White")) None true
           0 100 eq_refl);
    vm_compute; congruence.
Defined.

(** The white flowers low on stock: the lily (10), not the orchid (11). *)
Example get_flowers_white_low :
  (get_flowers Sample.ilike None (Some (u "White")) None true 0 100 Sample.shop).1
  = Ok {| flowers := [Sample.lily]; count := 1 |}.
Proof. vm_compute. reflexivity. Qed.

Lemma create_flower_inserts_witness :
  exists r w',
    create_flower Sample.decode Sample.resample Sample.jpeg_encode Sample.uuid4_hex
      Sample.get_public_url (u "Peony") 70000 (u "Pink") (u "stem") 3 (u "spring") None
      Sample.shop
    = (Ok {| message := "Flower created"; flower := r |}, w')
    /\ rows w' "flowers" = rows Sample.shop "flowers" ++ [r]
    /\ r !! "id" = Some (VStr (u "4")).
Proof.
  destruct (create_flower_inserts Sample.decode Sample.resample Sample.jpeg_encode
              Sample.uuid4_hex Sample.get_public_url Sample.shop
              (u "Peony") 70000 (u "Pink") (u "stem") 3 (u "spring") None eq_refl)
    as (r & w' & E & R & _ & I & _).
  exists r, w'. split; [exact E|]. split; [exact R|exact I].
Defined.

Lemma create_flower_then_listed_witness :
  exists r w1 fl w2,
    create_flower Sample.decode Sample.resample Sample.jpeg_encode Sample.uuid4_hex
      Sample.get_public_url (u "Peony") 70000 (u "Pink") (u "stem") 3 (u "spring")
      (Some Sample.photo) Sample.shop
    = (Ok {| message := "Flower created"; flower := r |}, w1)
    /\ get_flowers Sample.ilike None None None false 0 100 w1 = (Ok fl, w2)
    /\ r ∈ flowers fl
    /\ (forall r', r' ∈ flowers fl <-> r' = r \/ r' ∈ rows Sample.shop "flowers")
    /\ count fl = Z.of_nat (length (rows Sample.shop "flowers")) + 1.
Proof.
  apply (create_flower_then_listed Sample.ilike Sample.decode Sample.resample
           Sample.jpeg_encode Sample.uuid4_hex Sample.get_public_url Sample.shop
           (u "Peony") 70000 (u "Pink") (u "stem") 3 (u "spring") (Some Sample.photo)
           100 eq_refl).
  vm_compute. reflexivity.
Defined.

Lemma update_flower_response_witness :
  exists r',
    (update_flower Sample.ilike Sample.decode Sample.resample Sample.jpeg_encode
       Sample.uuid4_hex Sample.get_public_url (u "4") None (Some 0) None None (Some 7)
       None None Stall.stall).1
    = Ok {| message := "Updated"; flower := r' |}
    /\ r' !! "id" = Some (VStr (u "4"))
    /\ forall k, r' !! k = merged None (Some 0) None None (Some 7) None None Stall.tulip k.
Proof.
  apply (update_flower_response Sample.ilike Sample.decode Sample.resample
           Sample.jpeg_encode Sample.uuid4_hex Sample.get_public_url Stall.stall
           (u "4") None (Some 0) None None (Some 7) None None Stall.tulip [] eq_refl).
  - vm_cast_no_check (eq_refl [Stall.tulip]).
  - left. apply insert_non_empty.
Defined.

(** The tulip after that update: the price of 0 is not stored, the stock
    of 7 is. *)
Example update_tulip_stock :
  match (update_flower Sample.ilike Sample.decode Sample.resample Sample.jpeg_encode
           Sample.uuid4_hex Sample.get_public_url (u "4") None (Some 0) None None (Some 7)
           None None Stall.stall).1 with
  | Ok resp => (flower resp !! "price", flower resp !! "stock")
  | Raise _ => (None, None)
  end = (Some (VInt 30000), Some (VInt 7)).
Proof. vm_compute. reflexivity. Qed.

Lemma delete_flower_removes_witness :
  exists w',
    delete_flower Sample.ilike (u "4") Stall.stall = (Ok "Deleted"%string, w')
    /\ rows w' "flowers" = [Sample.rose]
    /\ calls w' = [TableSelect "flowers"; StorageRemove (u "flower_0.jpg");
                   TableDelete "flowers" (u "4")]
    /\ bucket w' = ∅.
Proof.
  assert (K : List.filter (has_id (u "4")) (rows Stall.stall "flowers") = [Stall.tulip])
    by (vm_cast_no_check (eq_refl [Stall.tulip])).
  destruct (delete_flower_removes Sample.ilike Stall.stall (u "4") eq_refl)
    as (w' & E & R & _ & _ & C).
  - rewrite K. intros r [= <-]. reflexivity.
  - exists w'. split; [exact E|].
    split; [rewrite R; vm_cast_no_check (eq_refl [Sample.rose])|].
    rewrite K in C.
    change (head [Stall.tulip] ≫= blob_key) with (blob_key Stall.tulip) in C.
    assert (B : blob_key Stall.tulip = Some (u "flower_0.jpg"))
      by (vm_cast_no_check (eq_refl (Some (u "flower_0.jpg")))).
    rewrite B in C. destruct C as [C D]. split; [exact C|].
    rewrite D. apply delete_singleton_eq.
Defined.

Lemma create_then_delete_witness :
  exists r w1 w2,
    create_flower Sample.decode Sample.resample Sample.jpeg_encode Sample.uuid4_hex
      Sample.get_public_url (u "Peony") 70000 (u "Pink") (u "stem") 3 (u "spring")
      (Some Sample.photo) Sample.shop
    = (Ok {| message := "Flower created"; flower := r |}, w1)
    /\ bucket w1 = <[u "flower_0.jpg" := [255; 216; 255; 217]]> ∅
    /\ delete_flower Sample.ilike (u "4") w1 = (Ok "Deleted"%string, w2)
    /\ rows w2 "flowers" = rows Sample.shop "flowers"
    /\ bucket w2 = bucket Sample.shop.
Proof.
  destruct (create_then_delete Sample.ilike Sample.decode Sample.resample
              Sample.jpeg_encode Sample.uuid4_hex Sample.get_public_url Sample.shop
              (u "Peony") 70000 (u "Pink") (u "stem") 3 (u "spring") Sample.photo
              [255; 216; 255; 217] (u "https://shop.example/public")
              eq_refl eq_refl eq_refl)
    as (r & w1 & w2 & E & _ & _ & B & _ & D & R & B2 & _).
  - vm_compute. reflexivity.
  - vm_compute. reflexivity.
  - vm_compute. reflexivity.
  - reflexivity.
  - repeat constructor.
  - exists r, w1, w2. split; [exact E|]. split; [exact B|]. split; [exact D|].
    split; [exact R|exact B2].
Defined.

Lemma get_stats_totals_witness :
  get_stats Sample.ilike Sample.shop
  = (Ok {| total_flowers := 3; total_types := 0; total_value := 1374567;
           low_stock_count := 2 |},
     logged Sample.shop [TableSelect "flowers"; TableSelect "flower_types"]).
Proof.
  apply (get_stats_totals Sample.ilike Sample.shop eq_refl).
  repeat constructor.
Defined.

Lemma get_stats_bad_rows_witness :
  (get_stats Sample.ilike Stall.stall).1 = Raise TypeError.
Proof.
  apply (get_stats_bad_rows Sample.ilike Stall.stall eq_refl).
  - repeat constructor.
  - apply Exists_cons_tl, Exists_cons_hd. reflexivity.
Defined.

Lemma reference_lists_witness :
  get_flower_types Sample.ilike Stall.stall
  = (Ok [Stall.red; Stall.white], logged Stall.stall [TableSelect "flower_types"])
  /\ get_unit_types Sample.ilike Stall.stall
     = (Ok [Stall.stem], logged Stall.stall [TableSelect "unit_types"]).
Proof.
  apply (reference_lists Sample.ilike Stall.stall eq_refl).
Defined.

Lemma without_client_witness :
  get_stats Sample.ilike Stall.stall_closed = (Raise AttributeError, Stall.stall_closed)
  /\ delete_flower Sample.ilike (u "4") Stall.stall_closed
     = (Raise (HTTPException 500 (StrOf (HTTPException 500 (Msg "DB not connected")))),
        Stall.stall_closed).
Proof.
  destruct (without_client Sample.ilike Sample.decode Sample.resample Sample.jpeg_encode
              Sample.uuid4_hex Sample.get_public_url (fun _ => []) (fun _ => [])
              Stall.stall_closed eq_refl)
    as (_ & _ & D & _ & _ & _ & S & _).
  split; [exact S|apply D].
Defined.

(* ===================================================================== *)
(** ** Further properties of the report generators *)
(* ===================================================================== *)

(** *** The spreadsheet *)

Lemma ws_cell_body_unstyled ws r c v :
  body_unstyled ws -> body_unstyled (ws_cell ws r c v).
Proof.
  intros H r' c' x Hr. unfold ws_cell. simpl. rewrite lookup_insert.
  case_decide as E.
  - injection E as -> ->. intros [= <-].
    destruct (cells ws !! (r', c')) as [y|] eqn:Ey; simpl.
    + apply (H r' c' y Hr Ey).
    + repeat split.
  - apply H, Hr.
Qed.

Lemma ws_cell_title ws r c v : title (ws_cell ws r c v) = title ws.
Proof. reflexivity. Qed.

Lemma ws_cell_width ws r c v : column_width (ws_cell ws r c v) = column_width ws.
Proof. reflexivity. Qed.

(** What one pass of the loop over the records does to a sheet, whatever
    the record holds. *)
Lemma write_record_cases ws idx f :
  (has_required f = true /\
   exists ws', write_record ws idx f = Ok ws'
     /\ title ws' = title ws /\ column_width ws' = column_width ws
     /\ (body_unstyled ws -> body_unstyled ws')
     /\ (forall r c, r <> idx -> cells ws' !! (r, c) = cells ws !! (r, c)))
  \/ (has_required f = false /\
      exists k, k ∈ required_columns /\ write_record ws idx f = Raise (KeyError k)).
Proof.
  unfold has_required, required_columns, write_record, getitem. simpl.
  destruct (f !! "name") as [v1|]; simpl;
    [|right; split; [reflexivity|]; exists "name"%string; split; [set_solver|reflexivity]].
  destruct (f !! "price") as [v2|]; simpl;
    [|right; split; [reflexivity|]; exists "price"%string; split; [set_solver|reflexivity]].
  destruct (f !! "type") as [v3|]; simpl;
    [|right; split; [reflexivity|]; exists "type"%string; split; [set_solver|reflexivity]].
  destruct (f !! "unit") as [v4|]; simpl;
    [|right; split; [reflexivity|]; exists "unit"%string; split; [set_solver|reflexivity]].
  left. split; [reflexivity|].
  eexists. split; [reflexivity|]. split; [reflexivity|]. split; [reflexivity|]. split.
  - intros H. repeat apply ws_cell_body_unstyled. exact H.
  - intros r c Hr.
    assert (G : forall w r' c' v, r' <> r ->
                cells (ws_cell w r' c' v) !! (r, c) = cells w !! (r, c)).
    { intros w r' c' v Hne. unfold ws_cell. simpl.
      rewrite lookup_insert_ne by congruence. reflexivity. }
    rewrite !G by congruence. reflexivity.
Qed.

Lemma write_records_cases flowers : forall ws idx,
  (Forall (fun f => has_required f = true) flowers /\
   exists ws', write_records ws idx flowers = Ok ws'
     /\ title ws' = title ws /\ column_width ws' = column_width ws
     /\ (body_unstyled ws -> body_unstyled ws')
     /\ (forall r c, (r < idx)%nat -> cells ws' !! (r, c) = cells ws !! (r, c)))
  \/ (Exists (fun f => has_required f = false) flowers /\
      exists k, k ∈ required_columns /\ write_records ws idx flowers = Raise (KeyError k)).
Proof.
  induction flowers as [|f rest IH]; intros ws idx.
  - left. split; [constructor|]. exists ws. simpl. auto.
  - simpl. destruct (write_record_cases ws idx f)
      as [(Hf & ws1 & E1 & T1 & W1 & U1 & O1)|(Hf & k & Hk & E1)].
    + rewrite E1. simpl.
      destruct (IH ws1 (S idx)) as [(Hr & ws' & E' & T' & W' & U' & O')|(Hr & k & Hk & E')].
      * left. split; [constructor; assumption|]. exists ws'.
        split; [exact E'|]. split; [congruence|]. split; [congruence|]. split; [auto|].
        intros r c Hlt. rewrite O' by lia. apply O1. lia.
      * right. split; [apply Exists_cons_tl, Hr|]. exists k. auto.
    + right. split; [apply Exists_cons_hd, Hf|]. exists k. rewrite E1. auto.
Qed.

Lemma write_widths_title widths : forall ws i, title (write_widths ws i widths) = title ws.
Proof.
  induction widths as [|w rest IH]; intros ws i; simpl; [reflexivity|].
  rewrite IH. reflexivity.
Qed.

Lemma header_sheet_body_unstyled : body_unstyled header_sheet.
Proof.
  intros r c x Hr Hx.
  assert (H : is_Some (cells header_sheet !! (r, c))) by eauto.
  apply header_sheet_cells in H. lia.
Qed.

Lemma header_sheet_styled c :
  (1 <= c <= 7)%nat ->
  exists x, cells header_sheet !! (1%nat, c) = Some x
    /\ cell_fill x = Some "2e7d32"%string
    /\ cell_font x = Some (true, "FFFFFF"%string)
    /\ cell_alignment x = Some "center"%string.
Proof.
  intros Hc.
  assert (c = 1 \/ c = 2 \/ c = 3 \/ c = 4 \/ c = 5 \/ c = 6 \/ c = 7)%nat as Hc' by lia.
  destruct Hc' as [->|[->|[->|[->|[->|[->| ->]]]]]];
    (eexists; split; [vm_compute; reflexivity|]); repeat split.
Qed.

(** X19.  The layout of the sheet, for records that have the four
    columns the loop reads: the sheet is titled "Catalog Hoa"; each of
    the seven header cells has the solid fill 2e7d32, a bold font of
    colour FFFFFF and centred alignment; no cell below the header row
    carries a style; and the widths 8, 35, 15, 15, 12, 10 and 25 are set
    for the columns A to G and for no other column. *)
Theorem excel_sheet_layout (flowers : list dict) :
  Forall (fun f => has_required f = true) flowers ->
  exists ws, excel_sheet flowers = Ok ws
    /\ title ws = u "Catalog Hoa"
    /\ (forall c, (1 <= c <= 7)%nat ->
          exists x, cells ws !! (1%nat, c) = Some x
            /\ cell_fill x = Some "2e7d32"%string
            /\ cell_font x = Some (true, "FFFFFF"%string)
            /\ cell_alignment x = Some "center"%string)
    /\ (forall r c x, (2 <= r)%nat -> cells ws !! (r, c) = Some x -> unstyled x)
    /\ column_width ws
       = list_to_map [("A", 8); ("B", 35); ("C", 15); ("D", 15); ("E", 12); ("F", 10);
                      ("G", 25)]%string.
Proof.
  intros Hall.
  destruct (write_records_cases flowers header_sheet 2)
    as [(_ & ws' & E & T & W & U & O)|(Hbad & _)].
  - exists (write_widths ws' 1 excel_widths).
    split; [unfold excel_sheet; cbv zeta; fold header_sheet; rewrite E; reflexivity|].
    split; [rewrite write_widths_title, T; reflexivity|].
    split; [|split].
    + intros c Hc. rewrite write_widths_cells, O by lia. apply header_sheet_styled, Hc.
    + intros r c x Hr. rewrite write_widths_cells. apply U, Hr.
      apply header_sheet_body_unstyled.
    + unfold excel_widths. cbn [write_widths column_width]. rewrite W.
      apply map_eq. intros k. vm_compute get_column_letter.
      change (column_width header_sheet) with (∅ : gmap string Z).
      cbn [list_to_map foldr uncurry fst snd].
      rewrite !lookup_insert. repeat case_decide; subst; try reflexivity; congruence.
  - exfalso. apply Exists_exists in Hbad as (f & Hin & Hf).
    rewrite List.Forall_forall in Hall. apply list_elem_of_In in Hin.
    rewrite (Hall f Hin) in Hf. discriminate.
Qed.

(** X20.  The sheet can be made exactly when every record has the four
    columns read with [f[...]] (name, price, type, unit); a record that
    lacks one stops the loop with the [KeyError] of a missing column.
    Stock and tags, read with [f.get], may be missing. *)
Theorem excel_sheet_missing_column (flowers : list dict) :
  ((exists ws, excel_sheet flowers = Ok ws)
   <-> Forall (fun f => has_required f = true) flowers)
  /\ (Exists (fun f => has_required f = false) flowers ->
      exists k, k ∈ required_columns /\ excel_sheet flowers = Raise (KeyError k)).
Proof.
  assert (D : forall f, has_required f = true \/ has_required f = false)
    by (intros f; destruct (has_required f); auto).
  unfold excel_sheet. cbv zeta. fold header_sheet.
  destruct (write_records_cases flowers header_sheet 2)
    as [(Hall & ws' & E & _)|(Hbad & k & Hk & E)]; rewrite E; simpl.
  - split; [split; [intros _; exact Hall|intros _; eauto]|].
    intros Hbad. exfalso. apply Exists_exists in Hbad as (f & Hin & Hf).
    rewrite List.Forall_forall in Hall. apply list_elem_of_In in Hin.
    rewrite (Hall f Hin) in Hf. discriminate.
  - split; [|intros _; eauto]. split; [intros [ws H]; discriminate|].
    intros Hall. exfalso. apply Exists_exists in Hbad as (f & Hin & Hf).
    rewrite List.Forall_forall in Hall. apply list_elem_of_In in Hin.
    rewrite (Hall f Hin) in Hf. discriminate.
Qed.

(** *** The PDF *)




(** X23.  The optional columns of a record in the two reports.  A
    missing stock shows as 0 in both; a null stock shows as the text
    "None" in the PDF and as an empty (null) cell in the sheet; an
    integer stock shows as its decimal text in the PDF and as the number
    in the sheet.  Missing tags show as the empty text in both; null
    tags show as the empty text in the PDF and as an empty (null) cell
    in the sheet. *)
Theorem report_optional_columns (i idx : nat) (ws : worksheet) (f : dict) :
  flower_record f = true ->
  exists row ws',
    pdf_row i f = Ok row /\ write_record ws idx f = Ok ws'
    /\ (f !! "stock" = None ->
        row !! 5%nat = Some (VStr (u "0"))
        /\ cell_value <$> cells ws' !! (idx, 6%nat) = Some (VInt 0))
    /\ (f !! "stock" = Some VNone ->
        row !! 5%nat = Some (VStr (u "None"))
        /\ cell_value <$> cells ws' !! (idx, 6%nat) = Some VNone)
    /\ (forall n, f !! "stock" = Some (VInt n) ->
        row !! 5%nat = Some (VStr (str_int n))
        /\ cell_value <$> cells ws' !! (idx, 6%nat) = Some (VInt n))
    /\ (f !! "tags" = None ->
        row !! 6%nat = Some (VStr [])
        /\ cell_value <$> cells ws' !! (idx, 7%nat) = Some (VStr []))
    /\ (f !! "tags" = Some VNone ->
        row !! 6%nat = Some (VStr [])
        /\ cell_value <$> cells ws' !! (idx, 7%nat) = Some VNone).
Proof.
  intros Hf.
  destruct (pdf_row_spec i f Hf) as (price & _ & Erow).
  destruct (write_record_spec ws idx f Hf) as (ws' & E & R & _).
  unfold sheet_row, excel_row in R. cbn [map] in R.
  injection R as _ _ _ _ _ R6 R7.
  do 2 eexists. split; [exact Erow|]. split; [exact E|].
  rewrite R6, R7. unfold get, tags_text. simpl.
  repeat split; intros; subst;
    repeat match goal with H : f !! _ = _ |- _ => rewrite H end; reflexivity.
Qed.

Lemma pdf_row_missing i f :
  has_required f = false -> exists e, pdf_row i f = Raise e.
Proof.
  unfold has_required, required_columns, pdf_row, getitem. simpl.
  destruct (f !! "name") as [v1|]; simpl; [|eauto].
  destruct (f !! "price") as [v2|]; simpl; [|eauto].
  destruct (pdf_price v2) as [p|e]; simpl; [|eauto].
  destruct (f !! "type") as [v3|]; simpl; [|eauto].
  destruct (f !! "unit") as [v4|]; simpl; [|eauto].
  discriminate.
Qed.

Lemma pdf_rows_missing flowers : forall data i,
  Exists (fun f => has_required f = false) flowers ->
  exists e, pdf_rows data i flowers = Raise e.
Proof.
  induction flowers as [|f rest IH]; intros data i H; [inversion H|].
  simpl. destruct (pdf_row i f) as [r|e] eqn:E; simpl; [|eauto].
  apply IH. inversion H as [? ? H1|? ? H1]; subst; [|exact H1].
  destruct (pdf_row_missing i f H1) as [e He]. congruence.
Qed.

Section Failures.
Variable ilike : pystr -> pystr -> bool.
Variable xlsx_save : worksheet -> bytes.
Variable pdf_build : list flowable -> bytes.

(** X21.  An export of rows of which one lacks a column the loop reads
    fails as a whole: the spreadsheet export raises an [HTTPException]
    of status 500 whose detail is the text of the [KeyError] of a missing
    column, the PDF export one of status 500; the select has been sent,
    nothing is changed and no document is returned. *)
Theorem export_missing_column (w : world) (type : option pystr) :
  supabase w = true ->
  Exists (fun f => has_required f = false) (run_query ilike (export_query type) w) ->
  (exists k, k ∈ required_columns
     /\ export_excel ilike xlsx_save type w
        = (Raise (HTTPException 500 (StrOf (KeyError k))),
           logged w [TableSelect "flowers"]))
  /\ (exists e, export_pdf ilike pdf_build type w
                = (Raise (HTTPException 500 (StrOf e)), logged w [TableSelect "flowers"])).
Proof.
  intros Hs Hbad. split.
  - destruct (write_records_cases (run_query ilike (export_query type) w) header_sheet 2)
      as [(Hall & _)|(_ & k & Hk & E)].
    + exfalso. apply Exists_exists in Hbad as (f & Hin & Hf).
      rewrite List.Forall_forall in Hall. apply list_elem_of_In in Hin.
      rewrite (Hall f Hin) in Hf. discriminate.
    + exists k. split; [exact Hk|].
      assert (X : excel_sheet (run_query ilike (export_query type) w) = Raise (KeyError k)).
      { unfold excel_sheet. cbv zeta. fold header_sheet. rewrite E. reflexivity. }
      unfold export_excel, client. run. rewrite Hs.
      destruct w as [sb tb bk ok ser ent nw cl].
      unfold execute. rewrite export_query_table. unfold record. run.
      cbn [supabase tables bucket storage_ok serial entropy now calls].
      change (run_query ilike (export_query type)
                {| supabase := sb; tables := tb; bucket := bk; storage_ok := ok;
                   serial := ser; entropy := ent; now := nw;
                   calls := cl ++ [TableSelect "flowers"] |})
        with (run_query ilike (export_query type) (World sb tb bk ok ser ent nw cl)).
      rewrite X. reflexivity.
  - destruct (pdf_rows_missing _ [pdf_headers] 1%nat Hbad) as [e E].
    exists e.
    assert (X : pdf_elements (now w) (run_query ilike (export_query type) w) = Raise e).
    { unfold pdf_elements. cbv zeta. rewrite E. reflexivity. }
    unfold export_pdf, client. run. rewrite Hs.
    destruct w as [sb tb bk ok ser ent nw cl].
    unfold execute. rewrite export_query_table. unfold record. run.
    cbn [supabase tables bucket storage_ok serial entropy now calls].
    change (run_query ilike (export_query type)
              {| supabase := sb; tables := tb; bucket := bk; storage_ok := ok;
                 serial := ser; entropy := ent; now := nw;
                 calls := cl ++ [TableSelect "flowers"] |})
      with (run_query ilike (export_query type) (World sb tb bk ok ser ent nw cl)).
    simpl now in *. rewrite X. reflexivity.
Qed.
End Failures.

(** *** The further properties on the sample data *)

Lemma excel_sheet_layout_witness :
  exists ws, excel_sheet [Sample.rose; Stall.tulip] = Ok ws
    /\ title ws = u "Catalog Hoa"
    /\ (forall r c x, (2 <= r)%nat -> cells ws !! (r, c) = Some x -> unstyled x)
    /\ column_width ws
       = list_to_map [("A", 8); ("B", 35); ("C", 15); ("D", 15); ("E", 12); ("F", 10);
                      ("G", 25)]%string.
Proof.
  destruct (excel_sheet_layout [Sample.rose; Stall.tulip]) as (ws & E & T & _ & U & W).
  - repeat constructor.
  - exists ws. auto.
Defined.

Lemma report_optional_columns_witness :
  exists row ws',
    pdf_row 2 Stall.tulip = Ok row /\ write_record header_sheet 3 Stall.tulip = Ok ws'
    /\ row !! 5%nat = Some (VStr (u "None"))
    /\ cell_value <$> cells ws' !! (3%nat, 6%nat) = Some VNone
    /\ row !! 6%nat = Some (VStr [])
    /\ cell_value <$> cells ws' !! (3%nat, 7%nat) = Some VNone.
Proof.
  destruct (report_optional_columns 2 3 header_sheet Stall.tulip eq_refl)
    as (row & ws' & P & X & _ & S & _ & _ & T).
  exists row, ws'. split; [exact P|]. split; [exact X|].
  destruct (S eq_refl) as [S1 S2]. destruct (T eq_refl) as [T1 T2]. auto.
Defined.

Lemma export_missing_column_witness :
  exists k, k ∈ required_columns
    /\ export_excel Sample.ilike (fun _ => []) None Stall.stall_with_daisy
       = (Raise (HTTPException 500 (StrOf (KeyError k))),
          logged Stall.stall_with_daisy [TableSelect "flowers"]).
Proof.
  apply (export_missing_column Sample.ilike (fun _ => []) (fun _ => [])
           Stall.stall_with_daisy None eq_refl).
  assert (R : run_query Sample.ilike (export_query None) Stall.stall_with_daisy
              = [Sample.rose; Stall.daisy])
    by (vm_cast_no_check (eq_refl [Sample.rose; Stall.daisy])).
  rewrite R. apply Exists_cons_tl, Exists_cons_hd. reflexivity.
Defined.

(** The export of the stall with the daisy stops at the missing unit. *)
Example export_daisy :
  (export_excel Sample.ilike (fun _ => []) None Stall.stall_with_daisy).1
  = Raise (HTTPException 500 (StrOf (KeyError "unit"))).
Proof. vm_compute. reflexivity. Qed.

(** The row of the tulip in the PDF: a null stock reads "None". *)
Example pdf_row_tulip :
  pdf_row 2 Stall.tulip
  = Ok (map VStr [u "2"; u "Tulip"; u "30.000"; u "Yellow"; u "stem"; u "None"; u ""]).
Proof. vm_compute. reflexivity. Qed.

(** A negative price keeps its sign in front of the groups. *)
Example pdf_price_negative : pdf_price (VInt (-1234567)) = Ok (u "-1.234.567").
Proof. vm_compute. reflexivity. Qed.

(* ===================================================================== *)
(** ** Further properties: pass-through, orphaned uploads, the streams *)
(* ===================================================================== *)

Section PassThrough.

Variable decode : bytes -> result PIL.image.
Variable resample_LANCZOS : PIL.image -> Z * Z -> list PIL.pixel.
Variable jpeg_encode : PIL.image -> Z -> bytes.

(** X24.  What [resize_image] passes through.  An error of the decoder
    is raised again as it is.  An image in a mode the JPEG encoder
    accepts that fits the box of 1200 by 1200 is neither flattened nor
    resampled: the bytes returned are the encoding at quality 95 of the
    decoded image itself. *)
Theorem resize_image_passes_through (image_data : bytes) :
  (forall e, decode image_data = Raise e ->
             resize_image decode resample_LANCZOS jpeg_encode image_data = Raise e)
  /\ (forall img, decode image_data = Ok img ->
        PIL.jpeg_rawmode (PIL.mode img) = true ->
        PIL.width img <= 1200 -> PIL.height img <= 1200 ->
        normalized resample_LANCZOS img = img
        /\ resize_image decode resample_LANCZOS jpeg_encode image_data
           = Ok (jpeg_encode img 95)).
Proof.
  split.
  - intros e He. unfold resize_image, PIL.open. rewrite He. reflexivity.
  - intros img Hd Hm Hw Hh.
    assert (F : flatten img = img).
    { unfold flatten. destruct (PIL.mode img); try discriminate; reflexivity. }
    assert (N : normalized resample_LANCZOS img = img).
    { unfold normalized, PIL.thumbnail, PIL.preserve_aspect_ratio. rewrite F.
      unfold PIL.width, PIL.height in *.
      replace (1200 >=? fst (PIL.size img)) with true by (symmetry; apply Z.geb_le; lia).
      replace (1200 >=? snd (PIL.size img)) with true by (symmetry; apply Z.geb_le; lia).
      reflexivity. }
    split; [exact N|].
    unfold resize_image, PIL.open. rewrite Hd. simpl. rewrite N.
    unfold PIL.save_jpeg. rewrite Hm. reflexivity.
Qed.

End PassThrough.

Section Orphans.

Variable ilike : pystr -> pystr -> bool.
Variable decode : bytes -> result PIL.image.
Variable resample_LANCZOS : PIL.image -> Z * Z -> list PIL.pixel.
Variable jpeg_encode : PIL.image -> Z -> bytes.
Variable uuid4_hex : nat -> pystr.
Variable get_public_url : pystr -> pystr.

Local Abbreviation resize := (resize_image decode resample_LANCZOS jpeg_encode).
Local Abbreviation update_flower' :=
  (update_flower ilike decode resample_LANCZOS jpeg_encode uuid4_hex get_public_url).

(** X25.  The image of an update request is uploaded before the row is
    looked for, and the upload is not taken back: when the upload
    succeeds with a URL that is not empty and no row has the id of the
    request, the request is answered with the not-found error (status
    404), the rows are as they were, and the bucket keeps the new blob;
    the calls made are the upload and the update. *)
Theorem update_flower_absent_keeps_upload (w : world) (flower_id : pystr)
    (name : option pystr) (price : option Z) (type unit : option pystr)
    (stock : option Z) (tags : option pystr) (f : UploadFile) (b : bytes) :
  supabase w = true -> storage_ok w = true ->
  truthy (filename f) = true -> resize (file_read f) = Ok b ->
  let key := upload_key uuid4_hex w in
  let url := strip (get_public_url key) in
  url <> [] ->
  Forall (fun r => has_id flower_id r = false) (rows w "flowers") ->
  exists w',
    update_flower' flower_id name price type unit stock tags (Some f) w
    = (Raise (HTTPException 404 (Msg "Flower not found")), w')
    /\ rows w' "flowers" = rows w "flowers"
    /\ bucket w' = <[key := b]> (bucket w)
    /\ calls w' = calls w ++ [StorageUpload key b;
                              TableUpdate "flowers"
                                (<["image_url" := VStr url]>
                                   (update_fields name price type unit stock tags))
                                flower_id].
Proof.
  intros Hs Ho Hf Hr key url Hurl Habs.
  pose proof (upload_succeeds decode resample_LANCZOS jpeg_encode uuid4_hex get_public_url
                f (py_or (of_str name) (VStr (u "flower"))) w b Hs Hr Ho) as Hu.
  fold key in Hu. fold url in Hu.
  rewrite (update_flower_image ilike decode resample_LANCZOS jpeg_encode uuid4_hex
             get_public_url flower_id name price type unit stock tags f w _ _ Hs Hf Hu).
  assert (Ht : truthy (VStr url) = true) by (destruct url; [contradiction|reflexivity]).
  rewrite Ht.
  set (data := <["image_url" := VStr url]> (update_fields name price type unit stock tags)).
  set (w1 := World _ _ _ _ _ _ _ _).
  assert (Hrows : rows w1 "flowers" = rows w "flowers") by reflexivity.
  unfold try_except, send_update. run.
  rewrite bool_decide_eq_false_2 by apply insert_non_empty.
  pose proof (update_rows ilike data flower_id w1) as U.
  destruct (update ilike "flowers" data flower_id w1) as [res w2].
  destruct U as (-> & U1 & _ & U3 & U4).
  rewrite Hrows, (filter_has_id_absent flower_id _ Habs). simpl.
  exists w2. split; [reflexivity|]. split; [|split].
  - rewrite U1, Hrows. apply map_has_id_absent, Habs.
  - rewrite U3. reflexivity.
  - rewrite U4. subst w1. simpl. rewrite <- app_assoc. reflexivity.
Qed.

End Orphans.

Section Documents.

Variable ilike : pystr -> pystr -> bool.
Variable xlsx_save : worksheet -> bytes.
Variable pdf_build : list flowable -> bytes.

(** The rows an export reads: the rows of the catalog with the type
    asked for, or all of them, in stored order. *)
Lemma export_query_rows type w :
  run_query ilike (export_query type) w
  = List.filter (selected ilike None type None false) (rows w "flowers").
Proof.
  unfold export_query, selected, contains.
  destruct (type_filter type) as [t|]; unfold run_query; simpl; rewrite map_id;
    apply filter_ext; intros r; unfold matches_all; simpl;
    rewrite ?andb_true_r; reflexivity.
Qed.

(** X26.  What the exports stream.  For a catalog of well-formed records
    both exports succeed after one select, changing nothing.  They
    report the rows of the type asked for (all rows when no type, the
    empty type or "Tất cả" is given), in stored order and without
    paging.  The spreadsheet export streams what [wb.save] writes for
    the sheet of these rows, as an xlsx attachment named
    [Catalog_Hoa_<time>.xlsx]; the PDF export streams what [doc.build]
    makes of the flowables of these rows, as a PDF attachment named
    [Catalog_Hoa_<time>.pdf]. *)
Theorem exports_stream_selected_rows (w : world) (type : option pystr) :
  supabase w = true ->
  Forall (fun f => flower_record f = true) (rows w "flowers") ->
  let chosen := List.filter (selected ilike None type None false) (rows w "flowers") in
  exists ws elements,
    excel_sheet chosen = Ok ws
    /\ pdf_elements (now w) chosen = Ok elements
    /\ export_excel ilike xlsx_save type w
       = (Ok {| body := xlsx_save ws;
                media_type :=
                  "application/vnd.openxmlformats-officedocument.spreadsheetml.sheet";
                content_disposition :=
                  u "attachment; filename*=UTF-8''" ++ u "Catalog_Hoa_"
                  ++ stamp_file (now w) ++ u ".xlsx" |},
          logged w [TableSelect "flowers"])
    /\ export_pdf ilike pdf_build type w
       = (Ok {| body := pdf_build elements;
                media_type := "application/pdf";
                content_disposition :=
                  u "attachment; filename*=UTF-8''" ++ u "Catalog_Hoa_"
                  ++ stamp_file (now w) ++ u ".pdf" |},
          logged w [TableSelect "flowers"]).
Proof.
  intros Hs Hall chosen.
  assert (Hch : Forall (fun f => flower_record f = true) chosen).
  { apply List.Forall_forall. intros r Hr. subst chosen.
    apply filter_In in Hr as [Hr _]. rewrite List.Forall_forall in Hall. auto. }
  destruct (excel_sheet_spec chosen Hch) as (ws & Ex & _).
  destruct (pdf_rows_spec chosen [pdf_headers] 1%nat Hch) as (prows & Ep & _).
  assert (Epdf : exists elements, pdf_elements (now w) chosen = Ok elements).
  { unfold pdf_elements. cbv zeta. rewrite Ep. eexists. reflexivity. }
  destruct Epdf as (elements & Epdf).
  exists ws, elements. split; [exact Ex|]. split; [exact Epdf|].
  subst chosen. rewrite <- (export_query_rows type w) in Ex, Epdf. split.
  - unfold export_excel, client. run. rewrite Hs.
    destruct w as [sb tb bk ok ser ent nw cl].
    unfold execute. rewrite export_query_table. unfold record. run.
    cbn [supabase tables bucket storage_ok serial entropy now calls].
    change (run_query ilike (export_query type)
              {| supabase := sb; tables := tb; bucket := bk; storage_ok := ok;
                 serial := ser; entropy := ent; now := nw;
                 calls := cl ++ [TableSelect "flowers"] |})
      with (run_query ilike (export_query type) (World sb tb bk ok ser ent nw cl)).
    rewrite Ex. reflexivity.
  - unfold export_pdf, client. run. rewrite Hs.
    destruct w as [sb tb bk ok ser ent nw cl].
    unfold execute. rewrite export_query_table. unfold record. run.
    cbn [supabase tables bucket storage_ok serial entropy now calls].
    change (run_query ilike (export_query type)
              {| supabase := sb; tables := tb; bucket := bk; storage_ok := ok;
                 serial := ser; entropy := ent; now := nw;
                 calls := cl ++ [TableSelect "flowers"] |})
      with (run_query ilike (export_query type) (World sb tb bk ok ser ent nw cl)).
    simpl now in *. rewrite Epdf. reflexivity.
Qed.

End Documents.

Lemma update_flower_absent_keeps_upload_witness :
  exists w',
    update_flower Sample.ilike Sample.decode Sample.resample Sample.jpeg_encode
      Sample.uuid4_hex Sample.get_public_url (u "9") None None None None None None
      (Some Sample.photo) Sample.shop
    = (Raise (HTTPException 404 (Msg "Flower not found")), w')
    /\ rows w' "flowers" = rows Sample.shop "flowers"
    /\ bucket w' = <[u "flower_0.jpg" := [255; 216; 255; 217]]> ∅.
Proof.
  destruct (update_flower_absent_keeps_upload Sample.ilike Sample.decode Sample.resample
              Sample.jpeg_encode Sample.uuid4_hex Sample.get_public_url Sample.shop
              (u "9") None None None None None None Sample.photo [255; 216; 255; 217]
              eq_refl eq_refl eq_refl)
    as (w' & E & R & B & _).
  - vm_compute. reflexivity.
  - vm_compute. discriminate.
  - repeat constructor.
  - exists w'. split; [exact E|]. split; [exact R|exact B].
Defined.

Lemma exports_stream_selected_rows_witness :
  exists ws elements,
    excel_sheet [Sample.lily; Sample.orchid] = Ok ws
    /\ pdf_elements Sample.noon [Sample.lily; Sample.orchid] = Ok elements
    /\ export_excel Sample.ilike (fun _ => [80; 75]) (Some (u "White")) Sample.shop
       = (Ok {| body := [80; 75];
                media_type :=
                  "application/vnd.openxmlformats-officedocument.spreadsheetml.sheet";
                content_disposition :=
                  u "attachment; filename*=UTF-8''Catalog_Hoa_20240309_120500.xlsx" |},
          logged Sample.shop [TableSelect "flowers"]).
Proof.
  destruct (exports_stream_selected_rows Sample.ilike (fun _ => [80; 75]) (fun _ => [37])
              Sample.shop (Some (u "White")) eq_refl)
    as (ws & elements & Ex & Ep & E & _).
  - repeat constructor.
  - exists ws, elements.
    assert (C : List.filter (selected Sample.ilike None (Some (u "White")) None false)
                            (rows Sample.shop "flowers")
                = [Sample.lily; Sample.orchid])
      by (vm_cast_no_check (eq_refl [Sample.lily; Sample.orchid])).
    rewrite C in Ex, Ep. split; [exact Ex|]. split; [exact Ep|].
    rewrite E. reflexivity.
Defined.
